(** * site-forge: the verification pipeline, embedded and checked

    A shallow embedding of [cmd/site-forge] (the orchestrator [main]) and of
    the packages [internal/checks] and [internal/report], followed by the
    properties of the specification settled against it.

    Conventions.
    - A Go [string] is a Rocq [string]: a sequence of bytes.
    - A Go [int] is a [Z].  Every [int] of the program is a length, a
      counter bounded by a length, a flag value or the result of
      [strconv.Atoi], so no arithmetic of the program can leave the 64-bit
      range; [Atoi] has its range check written out.
    - A Go [error] is its message.  A call returning [(T, error)] where the
      [T] is dropped on failure is a [result T]; where the caller still reads
      the [T] next to a non-nil error it is a pair [T * option error].
    - What the program asks of the operating system and of its external
      tools is read from a [World] record of oracles, one field per call;
      the files the program writes are in the file system that the later
      steps read.  Console output is not part of the model.
    - A call that can panic returns a [call]; the one panic of the
      program ends the run with exit status 2.
    - [main] is embedded from the line after [flag.Parse()], with the
      flags as parsed. *)

From Stdlib Require Import String Ascii List ZArith Bool Lia DecimalString.
Import ListNotations.

Set Warnings "-register-all".

Open Scope Z_scope.
Open Scope string_scope.

(** ** Go values *)

Definition error := string.

Inductive result (A : Type) : Type :=
| Ok (a : A)
| Err (e : error).
Arguments Ok {A} a.
Arguments Err {A} e.

(** [fmt.Sprintf("%d", n)] *)
Definition Itoa (n : Z) : string := NilZero.string_of_int (Z.to_int n).

(** [len(s)] of a slice *)
Definition len {A : Type} (l : list A) : Z := Z.of_nat (List.length l).

(** [s[n:]] of a string *)
Fixpoint drop (n : nat) (s : string) : string :=
  match n, s with
  | O, _ => s
  | S n', String _ s' => drop n' s'
  | S _, EmptyString => EmptyString
  end.

(** The bytes of [s] from last to first *)
Fixpoint reverse (s : string) : string :=
  match s with
  | EmptyString => EmptyString
  | String c s' => reverse s' ++ String c EmptyString
  end.

(** A call returns, or it panics; a panic that nothing recovers ends the
    process with exit status 2. *)
Inductive call (A : Type) : Type :=
| Returns (a : A)
| Panics (msg : string).
Arguments Returns {A} a.
Arguments Panics {A} msg.

(** A [return] from inside a loop, or the loop's state at its end. *)
Inductive loop (R S : Type) : Type :=
| Return (r : R)
| Next (s : S).
Arguments Return {R S} r.
Arguments Next {R S} s.

(** ** Package [strings] (the functions the program calls) *)

Module strings.

Import Stdlib.Init.Byte.

Fixpoint HasPrefix (s prefix : string) {struct prefix} : bool :=
  match prefix, s with
  | EmptyString, _ => true
  | String p prefix', String c s' => Ascii.eqb c p && HasPrefix s' prefix'
  | String _ _, EmptyString => false
  end.

(** [len(s) >= len(suffix) && s[len(s)-len(suffix):] == suffix] *)
Definition HasSuffix (s suffix : string) : bool :=
  (String.length suffix <=? String.length s)%nat
  && (drop (String.length s - String.length suffix) s =? suffix).

(** The index of the first instance of [substr] in [s], or [-1]. *)
Fixpoint Index (s substr : string) : Z :=
  if HasPrefix s substr then 0
  else match s with
       | EmptyString => -1
       | String _ s' => let i := Index s' substr in
                        if (i <? 0)%Z then -1 else i + 1
       end.

(** [strings.Split(s, sep)] for a one-byte separator, which is how the
    program calls it (on [","] and on [" "]): the pieces between the
    separators, empty ones included, always at least one piece. *)
Fixpoint Split (s : string) (sep : ascii) : list string :=
  match s with
  | EmptyString => [EmptyString]
  | String c s' =>
      if Ascii.eqb c sep then EmptyString :: Split s' sep
      else match Split s' sep with
           | piece :: pieces => String c piece :: pieces
           | [] => [String c EmptyString]
           end
  end.

(** The table [asciiSpace] of the package:
    ['\t'], ['\n'], ['\v'], ['\f'], ['\r'], [' ']. *)
Definition isSpace (c : ascii) : bool :=
  let n := nat_of_ascii c in
  ((9 <=? n) && (n <=? 13) || (n =? 32))%nat.

(** The runes of [unicode.IsSpace], each as its UTF-8 bytes: the six of
    [asciiSpace], U+0085 and U+00A0, and from the table [White_Space]
    U+1680, U+2000 to U+200A, U+2028, U+2029, U+202F, U+205F and U+3000. *)
Definition White_Space : list string :=
  map string_of_list_byte
    [[x09]; [x0a]; [x0b]; [x0c]; [x0d]; [x20];
     [xc2; x85]; [xc2; xa0];
     [xe1; x9a; x80];
     [xe2; x80; x80]; [xe2; x80; x81]; [xe2; x80; x82]; [xe2; x80; x83];
     [xe2; x80; x84]; [xe2; x80; x85]; [xe2; x80; x86]; [xe2; x80; x87];
     [xe2; x80; x88]; [xe2; x80; x89]; [xe2; x80; x8a];
     [xe2; x80; xa8]; [xe2; x80; xa9]; [xe2; x80; xaf];
     [xe2; x81; x9f];
     [xe3; x80; x80]]%list.

(** The bytes [rune] are the encoding of a white-space rune. *)
Definition IsSpace (rune : string) : bool :=
  existsb (String.eqb rune) White_Space.

(** [TrimLeftFunc(s, unicode.IsSpace)].  [utf8.DecodeRuneInString] reads
    one rune off the front of [s]; a white-space rune takes one, two or
    three bytes, and bytes that do not decode to one (an invalid byte
    decodes to U+FFFD, of width 1) end the trimming. *)
Fixpoint TrimLeft (s : string) : string :=
  match s with
  | String c1 s1 =>
      if IsSpace (String c1 "") then TrimLeft s1
      else
        match s1 with
        | String c2 s2 =>
            if IsSpace (String c1 (String c2 "")) then TrimLeft s2
            else
              match s2 with
              | String c3 s3 =>
                  if IsSpace (String c1 (String c2 (String c3 "")))
                  then TrimLeft s3 else s
              | EmptyString => s
              end
        | EmptyString => s
        end
  | EmptyString => EmptyString
  end.

(** The loop of [TrimRightFunc] on the bytes of [s] from last to first:
    [utf8.DecodeLastRuneInString] walks back to the start byte of the last
    rune and decodes from there, so a white-space rune is taken off
    exactly when its bytes end the text. *)
Fixpoint trimReversed (s : string) : string :=
  match s with
  | String c3 s1 =>
      if IsSpace (String c3 "") then trimReversed s1
      else
        match s1 with
        | String c2 s2 =>
            if IsSpace (String c2 (String c3 "")) then trimReversed s2
            else
              match s2 with
              | String c1 s3 =>
                  if IsSpace (String c1 (String c2 (String c3 "")))
                  then trimReversed s3 else s
              | EmptyString => s
              end
        | EmptyString => s
        end
  | EmptyString => EmptyString
  end.

(** [TrimRightFunc(s, unicode.IsSpace)] *)
Definition TrimRight (s : string) : string :=
  reverse (trimReversed (reverse s)).

(** [strings.TrimSpace(s)]: after its fast path over the bytes of
    [asciiSpace] it is [TrimFunc(s, unicode.IsSpace)], that is
    [TrimRightFunc(TrimLeftFunc(s, f), f)]. *)
Definition TrimSpace (s : string) : string := TrimRight (TrimLeft s).

Fixpoint Join (elems : list string) (sep : string) : string :=
  match elems with
  | [] => EmptyString
  | [e] => e
  | e :: rest => e ++ sep ++ Join rest sep
  end.

End strings.

(** ** Package [path/filepath] on Unix *)

Module filepath.

(** The element pass of [Clean]: [out] is the stack of elements kept so far,
    topmost first.  Empty and ["."] elements are dropped; [".."] removes the
    element before it, is dropped at the root of a rooted path, and is kept
    at the front of a relative one. *)
Fixpoint cleanElems (rooted : bool) (elems out : list string) : list string :=
  match elems with
  | [] => rev out
  | e :: rest =>
      if (e =? "") || (e =? ".") then cleanElems rooted rest out
      else if e =? ".." then
        match out with
        | top :: out' =>
            if top =? ".." then cleanElems rooted rest (".." :: out)
            else cleanElems rooted rest out'
        | [] =>
            if rooted then cleanElems rooted rest []
            else cleanElems rooted rest [".."]
        end
      else cleanElems rooted rest (e :: out)
  end.

Definition Clean (path : string) : string :=
  if path =? "" then "."
  else
    let rooted := strings.HasPrefix path "/" in
    let out := strings.Join (cleanElems rooted (strings.Split path "/"%char) []) "/" in
    let cleaned := if rooted then "/" ++ out else out in
    if cleaned =? "" then "." else cleaned.

(** [Join] skips leading empty elements, joins the rest with a slash and
    cleans the result. *)
Fixpoint Join (elem : list string) : string :=
  match elem with
  | [] => ""
  | e :: rest => if e =? "" then Join rest else Clean (strings.Join elem "/")
  end.

End filepath.

(** ** Package [strconv] *)

Module strconv.

Definition isDigit (c : ascii) : bool :=
  let n := nat_of_ascii c in ((48 <=? n) && (n <=? 57))%nat.

(** The value of a string of decimal digits, most significant first. *)
Fixpoint digitsValue (acc : Z) (s : string) : Z :=
  match s with
  | EmptyString => acc
  | String c s' => digitsValue (10 * acc + (Z.of_nat (nat_of_ascii c) - 48)) s'
  end.

Fixpoint allDigits (s : string) : bool :=
  match s with
  | EmptyString => true
  | String c s' => isDigit c && allDigits s'
  end.

Definition maxInt : Z := 2 ^ 63 - 1.
Definition minInt : Z := - 2 ^ 63.

(** [Atoi]: an optional sign and at least one digit, nothing else; a value
    outside the range of [int] is an error. *)
Definition Atoi (s : string) : result Z :=
  let '(neg, body) :=
    match s with
    | String "-"%char s' => (true, s')
    | String "+"%char s' => (false, s')
    | _ => (false, s)
    end in
  if (body =? "") || negb (allDigits body) then
    Err ("strconv.Atoi: parsing " ++ s ++ ": invalid syntax")
  else
    let v := if neg then - digitsValue 0 body else digitsValue 0 body in
    if (v <? minInt)%Z || (maxInt <? v)%Z then
      Err ("strconv.Atoi: parsing " ++ s ++ ": value out of range")
    else Ok v.

End strconv.

(** ** Package [golang.org/x/net/html]: the parsed document *)

Module html.

Inductive NodeType : Type :=
| ErrorNode | TextNode | DocumentNode | ElementNode
| CommentNode | DoctypeNode | RawNode.

Record Attribute : Type := mkAttr { Key : string; Val : string }.

(** A node with its children in sibling order ([FirstChild],
    [NextSibling], ...). *)
Inductive Node : Type :=
| mkNode (Type_ : NodeType) (Data : string) (Attr : list Attribute)
         (Children : list Node).

Definition isElement (t : NodeType) : bool :=
  match t with ElementNode => true | _ => false end.

End html.

(** ** Package [internal/report] *)

Module report.

Module AssetsResult.
Record t : Type := mk
  { Status : string; Total : Z; Missing : list string; Details : string }.
End AssetsResult.

Module BuildResult.
Record t : Type := mk { Status : string; Pages : Z; Details : string }.
End BuildResult.

Module Thresholds.
Record t : Type := mk { Performance : Z; Accessibility : Z; SEO : Z }.
End Thresholds.

Module LighthouseResult.
Record t : Type := mk
  { Status : string; Performance : Z; Accessibility : Z; SEO : Z;
    Thresholds : Thresholds.t; Details : string }.
End LighthouseResult.

Module ScreenshotsResult.
Record t : Type := mk
  { Status : string; Desktop : string; Mobile : string; Details : string }.
End ScreenshotsResult.

Module VisionResult.
Record t : Type := mk
  { Status : string; Score : Z; Threshold : Z; Analysis : string;
    Details : string }.
End VisionResult.

Record ReportChecks : Type := mkChecks
  { Assets : AssetsResult.t;
    Build : BuildResult.t;
    Lighthouse : LighthouseResult.t;
    Screenshots : ScreenshotsResult.t;
    Vision : VisionResult.t }.

Record Report : Type := mkReport
  { Timestamp : string; Directory : string; Overall : string;
    Checks : ReportChecks }.

Definition NewReport (dir : string) : Report :=
  {| Timestamp := "";
     Directory := dir;
     Overall := "FAIL";
     Checks :=
       {| Assets := AssetsResult.mk "FAIL" 0 [] "";
          Build := BuildResult.mk "FAIL" 0 "";
          Lighthouse :=
            LighthouseResult.mk "FAIL" 0 0 0 (Thresholds.mk 0 0 0) "";
          Screenshots := ScreenshotsResult.mk "FAIL" "" "" "";
          Vision := VisionResult.mk "SKIP" 0 0 "" "" |} |}.

End report.

(** ** Package [os]: the errors of [os.Stat] *)

Module os.

(** The error [os.Stat] returns, by the error number under it. *)
Inductive PathError : Type :=
| ENOENT                      (* no such file or directory *)
| ENOTDIR                     (* not a directory: a parent of the path is a file *)
| EACCES                      (* permission denied on a parent of the path *)
| Errno (text : string).      (* any other: ENAMETOOLONG, ELOOP, EIO, ... *)

(** [os.IsNotExist(err)]: the error is [nil] when [os.Stat] succeeds;
    of the error numbers only [ENOENT] reports that a file does not
    exist. *)
Definition IsNotExist (err : option PathError) : bool :=
  match err with
  | Some ENOENT => true
  | _ => false
  end.

End os.

(** ** The world the checks run in *)

(** A directory as [os.ReadDir] shows it: the call fails, or it lists the
    entries (sorted by file name, as [os.ReadDir] returns them); an entry for
    which [IsDir()] holds carries the directory it names.  Every other entry
    (regular file, symbolic link, device, ...) is a [File]. *)
Inductive DirEntry : Type :=
| File (name : string)
| Dir (name : string) (contents : Listing)
with Listing : Type :=
| ReadDirErr (err : error)
| ReadDirOk (entries : list DirEntry).

Definition Name (entry : DirEntry) : string :=
  match entry with File name => name | Dir name _ => name end.

Record lighthouseScores : Type := mkScores
  { Performance : Z; Accessibility : Z; SEO : Z }.

(** The two action lists [CaptureScreenshots] hands to [chromedp.Run]:
    1280x900 with the default user agent, 390x844 with a mobile one. *)
Inductive Viewport : Type := Desktop | Mobile.

(** The answer of the chat-completions API as [callVisionAPI] decodes and
    reads it ([OpenRouterResponse]): for each choice, the [Text] of each
    part of the [Content] of its [Message]. *)
Definition OpenRouterResponse : Type := list (list string).

(** What one run finds outside the program: for each call the program
    makes, the answer it gets.  A world describes a run in which every
    call to the outside comes back (the audit and the API request have no
    time limit of their own).

    The file-system fields [Stat] and [ReadFile] describe the files as they
    are when the run starts, and nothing but the program changes them while
    it runs.  The program writes three files: the two screenshots, which
    [CheckVision] then looks for and reads, and the report, which nothing
    reads; [os_WriteFile] below gives the file system after a write, and
    [main] hands it on.  All reads of the site directory come before the
    first write, so one listing serves them.  Path names are taken as the
    program writes them, after [filepath.Join] has cleaned them: two names
    that still differ are taken to name two files.  A file the program has
    written can be read back (it is created with mode 0644).

    [findAvailablePort] is asked by two checks and answers both alike; the
    port only names the URL handed to the tools.  [isLighthouseAvailable],
    [findAvailablePort] and [runLighthouse] are the program's wrappers
    around a subprocess and a socket; their outcome is the tool's.
    [chatCompletion] is [callVisionAPI] up to the decoding of the answer:
    the request, the status check, the JSON decoder.  [MarshalIndent] is
    [json.MarshalIndent] on the report; the text it produces is not
    modelled. *)
Record World : Type := mkWorld
  { (* the file system *)
    Abs : string -> result string;          (* filepath.Abs *)
    distDir_contents : Listing;             (* os.ReadDir of the site directory *)
    Stat : string -> option os.PathError;   (* the error of os.Stat *)
    ReadFile : string -> result string;     (* os.ReadFile *)
    Parse : string -> result html.Node;     (* html.Parse of a document text *)
    (* the audit tool *)
    isLighthouseAvailable : bool;
    findAvailablePort : result Z;
    runLighthouse : string -> result lighthouseScores;
    (* the browser automation *)
    MkdirAll : string -> option error;      (* os.MkdirAll *)
    chromedp_Run : Viewport -> string -> result string;
    WriteFile : string -> string -> option error;  (* os.WriteFile *)
    (* what a failed os.WriteFile leaves at the path: the file as it was
       when it could not be opened, a truncated one when the writing failed *)
    AfterFailedWrite : string -> string -> option os.PathError * result string;
    (* the vision API *)
    OPENROUTER_API_KEY : string;            (* os.Getenv *)
    EncodeToString : string -> string;      (* base64.StdEncoding *)
    chatCompletion : string -> string -> string -> string -> string
                     -> result OpenRouterResponse;
    (* the report *)
    MarshalIndent : report.Report -> result string;
    (* the clock *)
    Now : string }.

(** [os.IsNotExist] of the error of [os.Stat(path)]: the test of every
    [if _, err := os.Stat(path); os.IsNotExist(err)] of the program. *)
Definition NotExist (w : World) (path : string) : bool :=
  os.IsNotExist (Stat w path).

(** The world with the file at [path] in another state. *)
Definition setFile (path : string) (stat : option os.PathError)
    (content : result string) (w : World) : World :=
  mkWorld (Abs w) (distDir_contents w)
    (fun p => if p =? path then stat else Stat w p)
    (fun p => if p =? path then content else ReadFile w p)
    (Parse w)
    (isLighthouseAvailable w) (findAvailablePort w) (runLighthouse w)
    (MkdirAll w) (chromedp_Run w) (WriteFile w) (AfterFailedWrite w)
    (OPENROUTER_API_KEY w) (EncodeToString w) (chatCompletion w)
    (MarshalIndent w) (Now w).

(** [os.WriteFile(path, data, 0644)]: the error, and the file system
    afterwards.  A write that succeeds leaves the file there, holding
    [data]; one that fails leaves what [AfterFailedWrite] says. *)
Definition os_WriteFile (w : World) (path data : string)
  : option error * World :=
  match WriteFile w path data with
  | None => (None, setFile path None (Ok data) w)
  | Some err =>
      let leftover := AfterFailedWrite w path data in
      (Some err, setFile path (fst leftover) (snd leftover) w)
  end.

(** ** Package [internal/checks] *)

Module checks.

Import report.

(** *** assets.go *)

(** [findHTMLFiles(dir)], with the outcome of [os.ReadDir(dir)] at hand. *)
Fixpoint findHTMLFiles (dir : string) (readDir : Listing) {struct readDir}
  : result (list string) :=
  match readDir with
  | ReadDirErr err => Err err
  | ReadDirOk entries =>
      (fix range (entries : list DirEntry) (files : list string) {struct entries}
         : result (list string) :=
         match entries with
         | [] => Ok files
         | entry :: rest =>
             let path := filepath.Join [dir; Name entry] in
             match entry with
             | Dir _ sub =>
                 match findHTMLFiles path sub with
                 | Err err => Err err
                 | Ok subFiles => range rest (files ++ subFiles)%list
                 end
             | File name =>
                 if strings.HasSuffix name ".html" || strings.HasSuffix name ".htm"
                 then range rest (files ++ [path])%list
                 else range rest files
             end
         end) entries []
  end.

(** The inner loop of the [link] case: the first [rel] attribute that is
    [stylesheet], [icon] or [shortcut] appends the [href] and breaks. *)
Fixpoint relLoop (attrs : list html.Attribute) (href : string)
                 (assets : list string) : list string :=
  match attrs with
  | [] => assets
  | a :: rest =>
      if (html.Key a =? "rel")
         && ((html.Val a =? "stylesheet") || (html.Val a =? "icon")
             || (html.Val a =? "shortcut"))
      then (assets ++ [href])%list
      else relLoop rest href assets
  end.

(** The body of the loop over the candidates of one [srcset] value. *)
Definition srcsetPart (assets : list string) (part : string) : list string :=
  let src := strings.TrimSpace (nth 0 (strings.Split part " "%char) "") in
  if negb (src =? "") then (assets ++ [src])%list else assets.

(** What the closure [extract] does at one node before it descends. *)
Definition extractNode (type : html.NodeType) (data : string)
    (attrs : list html.Attribute) (assets : list string) : list string :=
  if html.isElement type then
    if data =? "img" then
      fold_left (fun assets attr =>
        if (html.Key attr =? "src") && negb (html.Val attr =? "")
           && negb (strings.HasPrefix (html.Val attr) "data:")
        then (assets ++ [html.Val attr])%list else assets) attrs assets
    else if data =? "link" then
      fold_left (fun assets attr =>
        if (html.Key attr =? "href") && negb (html.Val attr =? "")
        then relLoop attrs (html.Val attr) assets else assets) attrs assets
    else if data =? "script" then
      fold_left (fun assets attr =>
        if (html.Key attr =? "src") && negb (html.Val attr =? "")
        then (assets ++ [html.Val attr])%list else assets) attrs assets
    else if data =? "source" then
      fold_left (fun assets attr =>
        if (html.Key attr =? "srcset") && negb (html.Val attr =? "")
        then fold_left srcsetPart (strings.Split (html.Val attr) ","%char) assets
        else assets) attrs assets
    else assets
  else assets.

(** The closure [extract]: the node itself, then its children in order; the
    captured slice [assets] is threaded through. *)
Fixpoint extract (n : html.Node) (assets : list string) {struct n} : list string :=
  match n with
  | html.mkNode type data attrs children =>
      fold_left (fun assets c => extract c assets) children
                (extractNode type data attrs assets)
  end.

Definition extractAssets (w : World) (htmlFile baseDir : string)
  : result (list string) :=
  match ReadFile w htmlFile with
  | Err err => Err err
  | Ok data =>
      match Parse w data with
      | Err err => Err err
      | Ok doc => Ok (extract doc [])
      end
  end.

(** The path [CheckAssets] looks for on disk for one reference. *)
Definition assetPath (distDir asset : string) : string :=
  if strings.HasPrefix asset "/" then
    let relPath :=
      let idx := strings.Index asset "/images/" in
      if (0 <=? idx)%Z then drop (Z.to_nat idx) asset
      else
        let idx := strings.Index asset "/_astro/" in
        if (0 <=? idx)%Z then drop (Z.to_nat idx) asset
        else if strings.HasPrefix asset "/favicon" then asset
        else asset in
    distDir ++ relPath
  else if strings.HasPrefix asset "./" then
    filepath.Join [distDir; drop 1 asset]
  else
    filepath.Join [distDir; asset].

(** The body of the loop over the references of one document. *)
Definition checkAsset (w : World) (distDir : string)
    (st : list string * Z) (asset : string) : list string * Z :=
  let '(missing, totalAssets) := st in
  let totalAssets := totalAssets + 1 in
  if NotExist w (assetPath distDir asset)
  then ((missing ++ [asset])%list, totalAssets)
  else (missing, totalAssets).

(** The loop over the documents; a document that cannot be read or parsed
    returns from [CheckAssets] at once. *)
Fixpoint rangeHTMLFiles (w : World) (distDir : string) (htmlFiles : list string)
    (st : list string * Z) : loop AssetsResult.t (list string * Z) :=
  match htmlFiles with
  | [] => Next st
  | htmlFile :: rest =>
      match extractAssets w htmlFile distDir with
      | Err err =>
          Return (AssetsResult.mk "FAIL" 0 []
                    ("Error parsing " ++ htmlFile ++ ": " ++ err))
      | Ok assets =>
          rangeHTMLFiles w distDir rest (fold_left (checkAsset w distDir) assets st)
      end
  end.

Definition CheckAssets (w : World) (distDir : string) : AssetsResult.t :=
  match findHTMLFiles distDir (distDir_contents w) with
  | Err err =>
      AssetsResult.mk "FAIL" 0 [] ("Error finding HTML files: " ++ err)
  | Ok htmlFiles =>
      if (len htmlFiles =? 0)%Z then
        AssetsResult.mk "FAIL" 0 [] "No HTML files found in dist directory"
      else
        match rangeHTMLFiles w distDir htmlFiles ([], 0) with
        | Return result => result
        | Next (missing, totalAssets) =>
            if (len missing >? 0)%Z then
              AssetsResult.mk "FAIL" totalAssets missing
                ("Missing " ++ Itoa (len missing) ++ " assets")
            else
              AssetsResult.mk "PASS" totalAssets missing
                (Itoa totalAssets ++ "/" ++ Itoa totalAssets ++ " assets verified")
        end
  end.

(** *** build.go *)

(** The six flags the closure [check] sets. *)
Record Structure : Type := mkStructure
  { hasHTML : bool; hasHead : bool; hasBody : bool; hasTitle : bool;
    hasDescription : bool; hasOgTitle : bool }.

(** The loop over the attributes of a [meta] element: the last [name],
    [property] and [content] attributes win. *)
Definition metaAttr (vars : string * string * string) (attr : html.Attribute)
  : string * string * string :=
  let '(name, prop, content) := vars in
  let name := if html.Key attr =? "name" then html.Val attr else name in
  let prop := if html.Key attr =? "property" then html.Val attr else prop in
  let content := if html.Key attr =? "content" then html.Val attr else content in
  (name, prop, content).

Definition checkNode (type : html.NodeType) (data : string)
    (attrs : list html.Attribute) (st : Structure) : Structure :=
  let '(mkStructure h hd b t d og) := st in
  if html.isElement type then
    if data =? "html" then mkStructure true hd b t d og
    else if data =? "head" then mkStructure h true b t d og
    else if data =? "body" then mkStructure h hd true t d og
    else if data =? "title" then mkStructure h hd b true d og
    else if data =? "meta" then
      let '(name, prop, content) := fold_left metaAttr attrs ("", "", "") in
      let d := if (name =? "description") && negb (content =? "") then true else d in
      let og := if (prop =? "og:title") && negb (content =? "") then true else og in
      mkStructure h hd b t d og
    else st
  else st.

Fixpoint check (n : html.Node) (st : Structure) {struct n} : Structure :=
  match n with
  | html.mkNode type data attrs children =>
      fold_left (fun st c => check c st) children (checkNode type data attrs st)
  end.

Definition structureErrors (st : Structure) : list string :=
  let errors := [] in
  let errors := if negb (hasHTML st) then (errors ++ ["missing <html> tag"])%list else errors in
  let errors := if negb (hasHead st) then (errors ++ ["missing <head> tag"])%list else errors in
  let errors := if negb (hasBody st) then (errors ++ ["missing <body> tag"])%list else errors in
  let errors := if negb (hasTitle st) then (errors ++ ["missing <title> tag"])%list else errors in
  let errors := if negb (hasDescription st) then (errors ++ ["missing meta description"])%list else errors in
  let errors := if negb (hasOgTitle st) then (errors ++ ["missing og:title meta tag"])%list else errors in
  errors.

Definition CheckBuild (w : World) (distDir : string) : BuildResult.t :=
  let indexPath := filepath.Join [distDir; "index.html"] in
  if NotExist w indexPath then
    BuildResult.mk "FAIL" 0 "index.html not found"
  else
    match ReadFile w indexPath with
    | Err err => BuildResult.mk "FAIL" 0 ("Failed to read index.html: " ++ err)
    | Ok data =>
        match Parse w data with
        | Err err => BuildResult.mk "FAIL" 0 ("HTML parse error: " ++ err)
        | Ok doc =>
            let st := check doc (mkStructure false false false false false false) in
            let errors := structureErrors st in
            (* htmlFiles, _ := findHTMLFiles(distDir) *)
            let htmlFiles :=
              match findHTMLFiles distDir (distDir_contents w) with
              | Ok files => files
              | Err _ => []
              end in
            let pages := len htmlFiles in
            if (len errors >? 0)%Z then
              BuildResult.mk "FAIL" pages (strings.Join errors ", ")
            else
              BuildResult.mk "PASS" pages
                ("Valid HTML, " ++ Itoa pages ++ " page(s), meta tags present")
        end
    end.

(** *** lighthouse.go *)

Definition CheckLighthouse (w : World) (distDir : string)
    (perfThreshold a11yThreshold seoThreshold : Z)
  : LighthouseResult.t * option error :=
  let thresholds := Thresholds.mk perfThreshold a11yThreshold seoThreshold in
  let result := LighthouseResult.mk "PASS" 0 0 0 thresholds "" in
  if negb (isLighthouseAvailable w) then
    (result, Some "lighthouse not installed (run: npm install -g lighthouse)")
  else
    match findAvailablePort w with
    | Err err => (result, Some ("failed to find available port: " ++ err))
    | Ok port =>
        let url := "http://localhost:" ++ Itoa port in
        match runLighthouse w url with
        | Err err => (result, Some ("lighthouse failed: " ++ err))
        | Ok scores =>
            let status :=
              if (Performance scores <? perfThreshold)%Z
                 || (Accessibility scores <? a11yThreshold)%Z
                 || (SEO scores <? seoThreshold)%Z
              then "FAIL" else "PASS" in
            (LighthouseResult.mk status (Performance scores)
               (Accessibility scores) (SEO scores) thresholds
               ("Perf: " ++ Itoa (Performance scores) ++ ", A11y: "
                ++ Itoa (Accessibility scores) ++ ", SEO: " ++ Itoa (SEO scores)),
             None)
        end
    end.

(** *** screenshots.go *)

(** [CaptureScreenshots(distDir)]: its two results, and the file system
    it leaves behind. *)
Definition CaptureScreenshots_fs (w : World) (distDir : string)
  : ScreenshotsResult.t * option error * World :=
  let screenshotsDir := "screenshots" in
  let failed (details : string) (err : error) (fs : World) :=
    (ScreenshotsResult.mk "FAIL" "" "" details, Some err, fs) in
  match MkdirAll w screenshotsDir with
  | Some err => failed ("Failed to create screenshots directory: " ++ err) err w
  | None =>
  match findAvailablePort w with
  | Err err => failed ("Failed to find available port: " ++ err) err w
  | Ok port =>
  let url := "http://localhost:" ++ Itoa port in
  let desktopPath := filepath.Join [screenshotsDir; "desktop.png"] in
  match chromedp_Run w Desktop url with
  | Err err => failed ("Desktop screenshot failed: " ++ err) err w
  | Ok desktopBuf =>
  match os_WriteFile w desktopPath desktopBuf with
  | (Some err, w1) => failed ("Failed to write desktop screenshot: " ++ err) err w1
  | (None, w1) =>
  let mobilePath := filepath.Join [screenshotsDir; "mobile.png"] in
  match chromedp_Run w1 Mobile url with
  | Err err => failed ("Mobile screenshot failed: " ++ err) err w1
  | Ok mobileBuf =>
  match os_WriteFile w1 mobilePath mobileBuf with
  | (Some err, w2) => failed ("Failed to write mobile screenshot: " ++ err) err w2
  | (None, w2) =>
      (ScreenshotsResult.mk "PASS" desktopPath mobilePath "", None, w2)
  end end end end end end.

Definition CaptureScreenshots (w : World) (distDir : string)
  : ScreenshotsResult.t * option error :=
  fst (CaptureScreenshots_fs w distDir).

(** *** vision.go *)

(** The classes of the two patterns, as Go's [regexp] reads them on bytes:
    [\s] is [[\t\n\f\r ]], [\d] is [[0-9]], and [\b] separates a byte of
    [[0-9A-Za-z_]] from one that is not (or from the end of the text). *)
Definition reSpace (c : ascii) : bool :=
  let n := nat_of_ascii c in
  ((n =? 9) || (n =? 10) || (n =? 12) || (n =? 13) || (n =? 32))%nat.

Definition reWord (c : ascii) : bool :=
  let n := nat_of_ascii c in
  ((48 <=? n) && (n <=? 57) || (65 <=? n) && (n <=? 90)
   || (97 <=? n) && (n <=? 122) || (n =? 95))%nat.

Fixpoint skipSpaces (s : string) : string :=
  match s with
  | String c s' => if reSpace c then skipSpaces s' else s
  | EmptyString => EmptyString
  end.

(** The longest run of digits at the front of [s], and what follows it. *)
Fixpoint spanDigits (s : string) : string * string :=
  match s with
  | String c s' =>
      if strconv.isDigit c
      then let '(digits, rest) := spanDigits s' in (String c digits, rest)
      else (EmptyString, s)
  | EmptyString => (EmptyString, EmptyString)
  end.

Definition stripPrefix (prefix s : string) : option string :=
  if strings.HasPrefix s prefix then Some (drop (String.length prefix) s) else None.

(** [OVERALL:\s*(\d+)\s*/\s*10] matched at the front of [s]: the text of
    the group and what follows the match.  The classes that meet in the
    pattern are disjoint, so every greedy repetition takes its longest run
    and no other split of the text can match. *)
Definition matchOverall (s : string) : option (string * string) :=
  match stripPrefix "OVERALL:" s with
  | None => None
  | Some s1 =>
      let '(digits, s2) := spanDigits (skipSpaces s1) in
      if digits =? "" then None
      else
        match stripPrefix "/" (skipSpaces s2) with
        | None => None
        | Some s3 =>
            match stripPrefix "10" (skipSpaces s3) with
            | None => None
            | Some rest => Some (digits, rest)
            end
        end
  end.

(** [FindStringSubmatch] of the first pattern: the leftmost match as
    [[whole; group]], or [nil]. *)
Fixpoint findOverall (s : string) : list string :=
  match matchOverall s with
  | Some (digits, rest) =>
      [substring 0 (String.length s - String.length rest) s; digits]
  | None =>
      match s with
      | String _ s' => findOverall s'
      | EmptyString => []
      end
  end.

Definition startsWithWord (s : string) : bool :=
  match s with
  | String c _ => reWord c
  | EmptyString => false
  end.

(** [\b([1-9]|10)\b] matched at the front of [s], where [prevWord] tells
    whether the byte before is a word byte: the first alternative is tried
    first. *)
Definition matchNumber (prevWord : bool) (s : string) : option string :=
  if prevWord then None
  else
    match s with
    | String c s' =>
        let n := nat_of_ascii c in
        if ((49 <=? n) && (n <=? 57))%nat && negb (startsWithWord s')
        then Some (String c EmptyString)
        else if (n =? 49)%nat && strings.HasPrefix s' "0"
                && negb (startsWithWord (drop 1 s'))
        then Some "10"
        else None
    | EmptyString => None
    end.

(** [FindStringSubmatch] of the second pattern. *)
Fixpoint findNumber (prevWord : bool) (s : string) : list string :=
  match matchNumber prevWord s with
  | Some m => [m; m]
  | None =>
      match s with
      | String c s' => findNumber (reWord c) s'
      | EmptyString => []
      end
  end.

Definition parseScoreFromAnalysis (analysis : string) : Z :=
  let fallback :=
    let matches := findNumber false analysis in
    if (len matches >? 1)%Z then
      match strconv.Atoi (nth 1 matches "") with
      | Ok score => score
      | Err _ => 0
      end
    else 0 in
  let matches := findOverall analysis in
  if (len matches >? 1)%Z then
    match strconv.Atoi (nth 1 matches "") with
    | Ok score => score
    | Err _ => fallback
    end
  else fallback.

Definition encodeImage (w : World) (path : string) : result string :=
  match ReadFile w path with
  | Err err => Err err
  | Ok data => Ok (EncodeToString w data)
  end.

(** [callVisionAPI]: the exchange with the API, then the lines that read
    the decoded answer.  [orResp.Choices[0].Message.Content[0]] is indexed
    without a test of the length of [Content]. *)
Definition callVisionAPI (w : World)
    (apiKey baselineDesktop baselineMobile newDesktop newMobile : string)
  : call (result string) :=
  match chatCompletion w apiKey baselineDesktop baselineMobile
                       newDesktop newMobile with
  | Err err => Returns (Err err)
  | Ok choices =>
      if (len choices =? 0)%Z then Returns (Err "no response from API")
      else
        match nth 0 choices [] with
        | [] => Panics "runtime error: index out of range [0] with length 0"
        | text :: _ => Returns (Ok text)
        end
  end.

Definition CheckVision (w : World) (baselineDir : string) (threshold : Z)
  : call (VisionResult.t * option error) :=
  let result := VisionResult.mk "PASS" 0 threshold "" "" in
  let apiKey := OPENROUTER_API_KEY w in
  if apiKey =? "" then Returns (result, Some "OPENROUTER_API_KEY not set")
  else
  let baselineDesktop := filepath.Join [baselineDir; "desktop.png"] in
  let baselineMobile := filepath.Join [baselineDir; "mobile.png"] in
  if NotExist w baselineDesktop then
    Returns (result, Some ("baseline desktop.png not found in " ++ baselineDir))
  else if NotExist w baselineMobile then
    Returns (result, Some ("baseline mobile.png not found in " ++ baselineDir))
  else
  let newDesktop := "screenshots/desktop.png" in
  let newMobile := "screenshots/mobile.png" in
  if NotExist w newDesktop then
    Returns (result, Some "new desktop.png not found (run screenshots check first)")
  else if NotExist w newMobile then
    Returns (result, Some "new mobile.png not found (run screenshots check first)")
  else
  match encodeImage w newDesktop with
  | Err err => Returns (result, Some ("failed to encode desktop screenshot: " ++ err))
  | Ok desktopBase64 =>
  match encodeImage w newMobile with
  | Err err => Returns (result, Some ("failed to encode mobile screenshot: " ++ err))
  | Ok mobileBase64 =>
  match encodeImage w baselineDesktop with
  | Err err => Returns (result, Some ("failed to encode baseline desktop: " ++ err))
  | Ok baselineDesktopBase64 =>
  match encodeImage w baselineMobile with
  | Err err => Returns (result, Some ("failed to encode baseline mobile: " ++ err))
  | Ok baselineMobileBase64 =>
  match callVisionAPI w apiKey baselineDesktopBase64 baselineMobileBase64
                      desktopBase64 mobileBase64 with
  | Panics msg => Panics msg
  | Returns (Err err) => Returns (result, Some ("vision API call failed: " ++ err))
  | Returns (Ok analysis) =>
      let score := parseScoreFromAnalysis analysis in
      let status := if (score <? threshold)%Z then "FAIL" else "PASS" in
      Returns (VisionResult.mk status score threshold analysis "", None)
  end end end end end.

End checks.

(** ** Package [main]: the orchestrator *)

Module cmd.

Import report.

Record Flags : Type := mkFlags
  { dir : string; baseline : string; threshold : Z;
    lighthousePerf : Z; lighthouseA11y : Z; lighthouseSEO : Z }.

(** The state [main] works on: the report behind the pointer [r], shared by
    [main], [printSummary] and [writeReport], and the report whose text
    [writeReport] has written to [forge-report.json], if it has. *)
Record Process : Type := mkProcess
  { r : Report; serialized : option Report }.

(** A step of [main] either ends the process or goes on. *)
Inductive step (A : Type) : Type :=
| Exit (code : Z)
| Continue (a : A).
Arguments Exit {A} code.
Arguments Continue {A} a.

Definition M (A : Type) : Type := Process -> step A * Process.

Definition ret {A : Type} (a : A) : M A := fun p => (Continue a, p).

Definition bind {A B : Type} (m : M A) (k : A -> M B) : M B :=
  fun p =>
    match m p with
    | (Exit code, p') => (Exit code, p')
    | (Continue a, p') => k a p'
    end.

Definition os_Exit {A : Type} (code : Z) : M A := fun p => (Exit code, p).

(** An assignment through the pointer [r]. *)
Definition assign (f : Report -> Report) : M unit :=
  fun p => (Continue tt, mkProcess (f (r p)) (serialized p)).

Notation "m1 ;; m2" := (bind m1 (fun _ => m2))
  (at level 61, right associativity).
Notation "x <- m1 ;; m2" := (bind m1 (fun x => m2))
  (at level 61, m1 at next level, right associativity).

(** Field assignments. *)
Definition set_Overall (v : string) (rep : Report) : Report :=
  mkReport (Timestamp rep) (Directory rep) v (Checks rep).
Definition set_Timestamp (v : string) (rep : Report) : Report :=
  mkReport v (Directory rep) (Overall rep) (Checks rep).
Definition set_Checks (f : ReportChecks -> ReportChecks) (rep : Report) : Report :=
  mkReport (Timestamp rep) (Directory rep) (Overall rep) (f (Checks rep)).
Definition set_Assets (v : AssetsResult.t) : Report -> Report :=
  set_Checks (fun c => mkChecks v (Build c) (Lighthouse c) (Screenshots c) (Vision c)).
Definition set_Build (v : BuildResult.t) : Report -> Report :=
  set_Checks (fun c => mkChecks (Assets c) v (Lighthouse c) (Screenshots c) (Vision c)).
Definition set_Lighthouse (v : LighthouseResult.t) : Report -> Report :=
  set_Checks (fun c => mkChecks (Assets c) (Build c) v (Screenshots c) (Vision c)).
Definition set_Screenshots (v : ScreenshotsResult.t) : Report -> Report :=
  set_Checks (fun c => mkChecks (Assets c) (Build c) (Lighthouse c) v (Vision c)).
Definition set_Vision (v : VisionResult.t) : Report -> Report :=
  set_Checks (fun c => mkChecks (Assets c) (Build c) (Lighthouse c) (Screenshots c) v).

Definition Lighthouse_skip (details : string) (l : LighthouseResult.t)
  : LighthouseResult.t :=
  LighthouseResult.mk "SKIP" (LighthouseResult.Performance l)
    (LighthouseResult.Accessibility l) (LighthouseResult.SEO l)
    (LighthouseResult.Thresholds l) details.
Definition Screenshots_skip (details : string) (s : ScreenshotsResult.t)
  : ScreenshotsResult.t :=
  ScreenshotsResult.mk "SKIP" (ScreenshotsResult.Desktop s)
    (ScreenshotsResult.Mobile s) details.
Definition Vision_skip (v : VisionResult.t) : VisionResult.t :=
  VisionResult.mk "SKIP" (VisionResult.Score v) (VisionResult.Threshold v)
    (VisionResult.Analysis v) (VisionResult.Details v).

(** [printSummary]: sets the verdict to FAIL, then prints the summary. *)
Definition printSummary : M unit :=
  assign (set_Overall "FAIL").

(** [writeReport]: stamps the time, encodes the report and writes
    [forge-report.json]; an error of either step is printed and nothing
    else happens. *)
Definition writeReport (w : World) : M unit :=
  assign (set_Timestamp (Now w)) ;;
  fun p =>
    match MarshalIndent w (r p) with
    | Err _ => (Continue tt, p)
    | Ok data =>
        match WriteFile w "forge-report.json" data with
        | Some _ => (Continue tt, p)
        | None => (Continue tt, mkProcess (r p) (Some (r p)))
        end
    end.

(** A panic that reaches [main]: nothing recovers it. *)
Definition panic {A : Type} (msg : string) : M A := fun p => (Exit 2, p).

Section Checks.

Variable f : Flags.
Variable w : World.
Variable absDir : string.

(** Check 1: ASSETS *)
Definition check_ASSETS : M unit :=
  let assetsResult := checks.CheckAssets w absDir in
  assign (set_Assets assetsResult) ;;
  if AssetsResult.Status assetsResult =? "FAIL" then
    printSummary ;; writeReport w ;; os_Exit 1
  else ret tt.

(** Check 2: BUILD *)
Definition check_BUILD : M unit :=
  let buildResult := checks.CheckBuild w absDir in
  assign (set_Build buildResult) ;;
  if BuildResult.Status buildResult =? "FAIL" then
    printSummary ;; writeReport w ;; os_Exit 1
  else ret tt.

(** Check 3: LIGHTHOUSE *)
Definition check_LIGHTHOUSE : M unit :=
  let '(lighthouseResult, err) :=
    checks.CheckLighthouse w absDir (lighthousePerf f) (lighthouseA11y f)
                           (lighthouseSEO f) in
  assign (set_Lighthouse lighthouseResult) ;;
  match err with
  | Some err =>
      assign (fun rep =>
        set_Lighthouse (Lighthouse_skip err (Lighthouse (Checks rep))) rep)
  | None =>
      if LighthouseResult.Status lighthouseResult =? "FAIL" then
        printSummary ;; writeReport w ;; os_Exit 1
      else ret tt
  end.

(** Check 4: SCREENSHOTS *)
Definition check_SCREENSHOTS : M unit :=
  let '(screenshotResult, err) := checks.CaptureScreenshots w absDir in
  assign (set_Screenshots screenshotResult) ;;
  match err with
  | Some err =>
      assign (fun rep =>
        set_Screenshots (Screenshots_skip err (Screenshots (Checks rep))) rep)
  | None => ret tt
  end.

(** Check 5: VISION (optional), in the world [fs] that the checks before
    it leave. *)
Definition check_VISION (fs : World) : M unit :=
  if negb (baseline f =? "") then
    match checks.CheckVision fs (baseline f) (threshold f) with
    | Panics msg => panic msg
    | Returns (visionResult, err) =>
        assign (set_Vision visionResult) ;;
        match err with
        | Some _ =>
            assign (fun rep => set_Vision (Vision_skip (Vision (Checks rep))) rep)
        | None =>
            if VisionResult.Status visionResult =? "FAIL" then
              printSummary ;; writeReport fs ;; os_Exit 1
            else ret tt
        end
    end
  else
    assign (set_Vision
              (VisionResult.mk "SKIP" 0 (threshold f) "" "No baseline provided")).

(** All checks passed *)
Definition allPassed : M unit :=
  assign (set_Overall "PASS") ;;
  printSummary ;;
  writeReport w ;;
  os_Exit 0.

Definition pipeline : M unit :=
  check_ASSETS ;;
  check_BUILD ;;
  check_LIGHTHOUSE ;;
  check_SCREENSHOTS ;;
  check_VISION (snd (checks.CaptureScreenshots_fs w absDir)) ;;
  allPassed.

End Checks.

(** A finished run: the exit status, and the report that
    [forge-report.json] holds when the run has written it. *)
Record Run : Type := mkRun { exitCode : Z; reportFile : option Report }.

(** [main] from the line after [flag.Parse()], with the flags as parsed.
    ([flag.Parse] itself ends the process on a command line it rejects,
    with status 2, and after [-h], with status 0.) *)
Definition main (f : Flags) (w : World) : Run :=
  if dir f =? "" then mkRun 1 None
  else
    match Abs w (dir f) with
    | Err _ => mkRun 1 None
    | Ok absDir =>
        match pipeline f w absDir (mkProcess (NewReport absDir) None) with
        | (Exit code, p) => mkRun code (serialized p)
        | (Continue _, p) => mkRun 0 (serialized p)
        end
    end.

End cmd.

(** * Vocabulary of the properties, and example sites *)

(** [sub] occurs in [s]. *)
Definition contains (s sub : string) : Prop :=
  exists pre post, s = pre ++ sub ++ post.

(** [s] is [pre ++ sub ++ post] and no occurrence of [sub] starts earlier. *)
Definition firstAt (s sub pre post : string) : Prop :=
  s = pre ++ sub ++ post /\
  forall pre' post', s = pre' ++ sub ++ post' ->
                     (String.length pre <= String.length pre')%nat.

(** The test [findHTMLFiles] makes on the name of a non-directory entry. *)
Definition isHTMLName (name : string) : bool :=
  strings.HasSuffix name ".html" || strings.HasSuffix name ".htm".

(** Every directory of the tree can be read. *)
Fixpoint readable (d : Listing) : bool :=
  match d with
  | ReadDirErr _ => false
  | ReadDirOk entries =>
      forallb (fun entry => match entry with
                            | File _ => true
                            | Dir _ sub => readable sub
                            end) entries
  end.

(** [path] is a non-directory entry with an HTML name somewhere under the
    directory [dir] whose listing is [d]. *)
Inductive HTMLFileUnder : string -> Listing -> string -> Prop :=
| HTMLChild : forall dir entries name,
    In (File name) entries -> isHTMLName name = true ->
    HTMLFileUnder dir (ReadDirOk entries) (filepath.Join [dir; name])
| HTMLBelow : forall dir entries name sub path,
    In (Dir name sub) entries ->
    HTMLFileUnder (filepath.Join [dir; name]) sub path ->
    HTMLFileUnder dir (ReadDirOk entries) path.

(** The entries of each directory in listing order, a subdirectory's files
    standing where the subdirectory stands among its siblings. *)
Fixpoint listingOrder (dir : string) (d : Listing) : list string :=
  match d with
  | ReadDirErr _ => []
  | ReadDirOk entries =>
      flat_map (fun entry =>
        match entry with
        | File name =>
            if isHTMLName name then [filepath.Join [dir; name]] else []
        | Dir name sub => listingOrder (filepath.Join [dir; name]) sub
        end) entries
  end.

(** The order as the specification words it: the direct child files of a
    directory first, then what recursing into its subdirectories finds. *)
Fixpoint filesFirstOrder (dir : string) (d : Listing) : list string :=
  match d with
  | ReadDirErr _ => []
  | ReadDirOk entries =>
      (flat_map (fun entry =>
         match entry with
         | File name =>
             if isHTMLName name then [filepath.Join [dir; name]] else []
         | Dir _ _ => []
         end) entries
       ++
       flat_map (fun entry =>
         match entry with
         | File _ => []
         | Dir name sub => filesFirstOrder (filepath.Join [dir; name]) sub
         end) entries)%list
  end.

(** [os.ReadDir] returns the entries of a directory sorted by file name. *)
Fixpoint sortedNames (names : list string) : bool :=
  match names with
  | a :: (b :: _) as rest => (a <? b) && sortedNames rest
  | _ => true
  end.

Fixpoint wellListed (d : Listing) : bool :=
  match d with
  | ReadDirErr _ => true
  | ReadDirOk entries =>
      sortedNames (map Name entries)
      && forallb (fun entry => match entry with
                               | File _ => true
                               | Dir _ sub => wellListed sub
                               end) entries
  end.

(** A site with a post in a subdirectory. *)
Definition blogSite : Listing :=
  ReadDirOk [Dir "blog" (ReadDirOk [File "post.html"; File "post.md"]);
             File "index.html"; File "style.css"].

(** Induction on a listing, with the property at hand for every
    subdirectory of the listing. *)
Section ListingInd.
Variable P : Listing -> Prop.
Hypothesis Herr : forall err, P (ReadDirErr err).
Hypothesis Hok : forall entries,
  Forall (fun entry => match entry with
                       | File _ => True
                       | Dir _ sub => P sub
                       end) entries ->
  P (ReadDirOk entries).

Fixpoint Listing_nested_ind (d : Listing) : P d :=
  match d with
  | ReadDirErr err => Herr err
  | ReadDirOk entries =>
      Hok entries
        ((fix all (es : list DirEntry) :
            Forall (fun entry => match entry with
                                 | File _ => True
                                 | Dir _ sub => P sub
                                 end) es :=
            match es with
            | [] => Forall_nil _
            | e :: es' =>
                @Forall_cons _ _ e es'
                  (match e as e0
                         return match e0 with File _ => True | Dir _ sub => P sub end
                   with
                   | File _ => I
                   | Dir _ sub => Listing_nested_ind sub
                   end)
                  (all es')
            end) entries)
  end.
End ListingInd.

(** The references of the documents in discovery order: each document's
    references, document after document. *)
Fixpoint discovered (w : World) (distDir : string) (htmlFiles : list string)
  : result (list string) :=
  match htmlFiles with
  | [] => Ok []
  | htmlFile :: rest =>
      match checks.extractAssets w htmlFile distDir with
      | Err err => Err err
      | Ok assets =>
          match discovered w distDir rest with
          | Err err => Err err
          | Ok more => Ok (assets ++ more)%list
          end
      end
  end.

(** What [CheckAssets] counts as missing: [os.Stat] of the path the
    reference resolves to fails with an error that [os.IsNotExist] takes
    (ENOENT). *)
Definition missingOnDisk (w : World) (distDir asset : string) : bool :=
  NotExist w (checks.assetPath distDir asset).


(** ** Example sites *)

Definition el (name : string) (attrs : list html.Attribute)
    (children : list html.Node) : html.Node :=
  html.mkNode html.ElementNode name attrs children.

Definition text (data : string) : html.Node :=
  html.mkNode html.TextNode data [] [].

Definition document (children : list html.Node) : html.Node :=
  html.mkNode html.DocumentNode "" [] children.

Definition validHead (more : list html.Node) : html.Node :=
  el "head" []
    ([el "title" [] [text "Test Site"];
      el "meta" [html.mkAttr "name" "description";
                 html.mkAttr "content" "A test site"] [];
      el "meta" [html.mkAttr "property" "og:title";
                 html.mkAttr "content" "Test Site"] []] ++ more)%list.

(** A valid page that refers to no asset at all. *)
Definition plainDoc : html.Node :=
  document [el "html" [html.mkAttr "lang" "en"]
              [validHead []; el "body" [] [el "h1" [] [text "Hello"]]]].

(** A valid page with one style sheet. *)
Definition styledDoc : html.Node :=
  document [el "html" []
              [validHead [el "link" [html.mkAttr "rel" "stylesheet";
                                     html.mkAttr "href" "style.css"] []];
               el "body" [] [el "h1" [] [text "Hello"]]]].

(** A valid page with one style sheet and the same image twice. *)
Definition galleryDoc : html.Node :=
  document [el "html" []
              [validHead [el "link" [html.mkAttr "rel" "stylesheet";
                                     html.mkAttr "href" "style.css"] []];
               el "body" []
                 [el "img" [html.mkAttr "src" "/images/foo.jpg"] [];
                  el "img" [html.mkAttr "src" "/images/foo.jpg"] []]]].

(** [os.Stat] on a file system whose regular files are [files]: a path
    below a file is not a directory, and any other path does not exist
    (the directories above the files are not asked for). *)
Definition statAmong (files : list string) (path : string)
  : option os.PathError :=
  if existsb (String.eqb path) files then None
  else if existsb (fun file => strings.HasPrefix path (file ++ "/")) files
  then Some os.ENOTDIR
  else Some os.ENOENT.

(** A site directory [/site] with the listing [contents], whose documents
    all parse to [doc], on a file system whose regular files are
    [present].  The audit tool is not installed, the browser captures both
    screenshots, every write succeeds, and no API key is set. *)
Definition siteWorld (contents : Listing) (doc : html.Node)
    (present : list string) : World :=
  {| Abs := fun path => Ok path;
     distDir_contents := contents;
     Stat := statAmong present;
     ReadFile := fun path =>
       if existsb (String.eqb path) present then Ok "<!DOCTYPE html>"
       else Err ("open " ++ path ++ ": no such file or directory");
     Parse := fun _ => Ok doc;
     isLighthouseAvailable := false;
     findAvailablePort := Ok 40123;
     runLighthouse := fun _ => Err "exit status 1";
     MkdirAll := fun _ => None;
     chromedp_Run := fun _ _ => Ok "PNG";
     WriteFile := fun _ _ => None;
     AfterFailedWrite := fun path _ =>
       (statAmong present path,
        Err ("open " ++ path ++ ": no such file or directory"));
     OPENROUTER_API_KEY := "";
     EncodeToString := fun data => data;
     chatCompletion := fun _ _ _ _ _ => Err "API returned status 401";
     MarshalIndent := fun rep => Ok ("{ report of " ++ report.Directory rep ++ " }");
     Now := "2026-02-15T05:30:00Z" |}.

Definition plainWorld : World :=
  siteWorld (ReadDirOk [File "index.html"]) plainDoc ["/site/index.html"].

Definition styledWorld : World :=
  siteWorld (ReadDirOk [File "index.html"; File "style.css"]) styledDoc
            ["/site/index.html"; "/site/style.css"].

Definition galleryWorld : World :=
  siteWorld (ReadDirOk [File "index.html"; File "style.css"]) galleryDoc
            ["/site/index.html"; "/site/style.css"].




(** The same world with another listing of the site directory. *)
Definition set_contents (contents : Listing) (w : World) : World :=
  mkWorld (Abs w) contents (Stat w) (ReadFile w) (Parse w)
    (isLighthouseAvailable w) (findAvailablePort w) (runLighthouse w)
    (MkdirAll w) (chromedp_Run w) (WriteFile w) (AfterFailedWrite w)
    (OPENROUTER_API_KEY w) (EncodeToString w) (chatCompletion w)
    (MarshalIndent w) (Now w).


(** The same world with another browser. *)
Definition set_chromedp_Run (run : Viewport -> string -> result string)
    (w : World) : World :=
  mkWorld (Abs w) (distDir_contents w) (Stat w) (ReadFile w) (Parse w)
    (isLighthouseAvailable w) (findAvailablePort w) (runLighthouse w)
    (MkdirAll w) run (WriteFile w) (AfterFailedWrite w)
    (OPENROUTER_API_KEY w) (EncodeToString w) (chatCompletion w)
    (MarshalIndent w) (Now w).

(** The flags before any check has set one, and with all of them set. *)
Definition nothingSeen : checks.Structure :=
  checks.mkStructure false false false false false false.
Definition allSeen : checks.Structure :=
  checks.mkStructure true true true true true true.

(** A valid site with a subdirectory that cannot be read. *)
Definition lockedWorld : World :=
  siteWorld
    (ReadDirOk [File "index.html";
                Dir "private" (ReadDirErr "open /site/private: permission denied")])
    plainDoc ["/site/index.html"].

(** A browser that captures the desktop view and then fails on the mobile
    one. *)
Definition mobileFailsWorld : World :=
  set_chromedp_Run
    (fun viewport _ =>
       match viewport with
       | Desktop => Ok "PNG"
       | Mobile => Err "context deadline exceeded"
       end)
    plainWorld.

(** The command line [site-forge --dir /site]. *)
Definition defaultFlags : cmd.Flags := cmd.mkFlags "/site" "" 7 90 90 90.

(** A [source] element whose candidates are separated by a comma and a
    space. *)
Definition spacedSource : html.Node :=
  el "source" [html.mkAttr "srcset" "a.webp, b.jpg 2x";
               html.mkAttr "type" "image/webp"] [].

(** The URLs of a [srcset] value as the specification words them: split on
    commas, and of each candidate take the first token separated by white
    space, when there is one. *)
Fixpoint untilSpace (s : string) : string :=
  match s with
  | String c s' => if strings.isSpace c then EmptyString else String c (untilSpace s')
  | EmptyString => EmptyString
  end.

Definition firstField (candidate : string) : string :=
  untilSpace (strings.TrimLeft candidate).

Definition srcsetURLs_spec (srcset : string) : list string :=
  filter (fun url => negb (url =? ""))
         (map firstField (strings.Split srcset ","%char)).

(** The verdict read off a finished run. *)
Definition overallOf (run : cmd.Run) : option string :=
  option_map report.Overall (cmd.reportFile run).

Definition screenshotsStatusOf (run : cmd.Run) : option string :=
  option_map (fun rep => report.ScreenshotsResult.Status
                           (report.Screenshots (report.Checks rep)))
             (cmd.reportFile run).

Definition visionOf (run : cmd.Run) : option report.VisionResult.t :=
  option_map (fun rep => report.Vision (report.Checks rep)) (cmd.reportFile run).

(** Every path to [writeReport] goes through [printSummary]. *)
Definition failStamped (p : cmd.Process) : Prop :=
  match cmd.serialized p with
  | Some rep => report.Overall rep = "FAIL"
  | None => True
  end.

(** ** The two patterns of [parseScoreFromAnalysis], read declaratively *)

(** The first byte of [s] is in the class [P]. *)
Definition headIs (P : ascii -> bool) (s : string) : bool :=
  match s with
  | String c _ => P c
  | EmptyString => false
  end.

Fixpoint allSpaces (s : string) : bool :=
  match s with
  | EmptyString => true
  | String c s' => checks.reSpace c && allSpaces s'
  end.

(** [OVERALL:\s*(\d+)\s*/\s*10] matches [analysis] right after [pre], with
    [X] as the text of its group. *)
Definition overallAt (analysis pre X : string) : Prop :=
  exists ws1 ws2 ws3 post,
    analysis = pre ++ "OVERALL:" ++ ws1 ++ X ++ ws2 ++ "/" ++ ws3 ++ "10" ++ post /\
    allSpaces ws1 = true /\ allSpaces ws2 = true /\ allSpaces ws3 = true /\
    strconv.allDigits X = true /\ X <> "".

(** The pattern occurs somewhere in the text. *)
Definition overallOccurs (analysis : string) : Prop :=
  exists pre X, overallAt analysis pre X.

(** [X] is the number of the leftmost occurrence of the pattern. *)
Definition firstOverall (analysis X : string) : Prop :=
  exists pre, overallAt analysis pre X /\
    forall pre' X', overallAt analysis pre' X' ->
                    (String.length pre <= String.length pre')%nat.

(** The texts [1], ..., [9] and [10]. *)
Definition standaloneNumber (num : string) : bool :=
  match num with
  | String c EmptyString =>
      let n := nat_of_ascii c in ((49 <=? n) && (n <=? 57))%nat
  | String c (String d EmptyString) =>
      ((nat_of_ascii c =? 49) && (nat_of_ascii d =? 48))%nat
  | _ => false
  end.

(** Whether the last byte of [pre] is a word byte, [prevWord] standing for
    the byte before [pre]. *)
Fixpoint lastIsWord (prevWord : bool) (pre : string) : bool :=
  match pre with
  | EmptyString => prevWord
  | String c pre' => lastIsWord (checks.reWord c) pre'
  end.

(** [\b([1-9]|10)\b] matches somewhere in [s], which follows a word byte or
    not as [prevWord] says. *)
Definition numberOccursAfter (prevWord : bool) (s : string) : Prop :=
  exists pre num post,
    s = pre ++ num ++ post /\ standaloneNumber num = true /\
    lastIsWord prevWord pre = false /\ checks.startsWithWord post = false.

(** A standalone number 1-10 occurs in the text. *)
Definition numberOccurs (analysis : string) : Prop :=
  numberOccursAfter false analysis.

(** A run with a baseline, a credential and an API that answers with an
    overall score of 42. *)
Definition visionWorld : World :=
  mkWorld (fun path => Ok path) (ReadDirOk [File "index.html"])
    (statAmong ["/site/index.html"; "/baseline/desktop.png";
                "/baseline/mobile.png"; "screenshots/desktop.png";
                "screenshots/mobile.png"])
    (fun _ => Ok "PNG") (fun _ => Ok plainDoc)
    false (Ok 40123) (fun _ => Err "exit status 1")
    (fun _ => None) (fun _ _ => Ok "PNG") (fun _ _ => None)
    (fun _ _ => (None, Ok ""))
    "sk-or-v1-0000" (fun data => data)
    (fun _ _ _ _ _ =>
       Ok [["VISUAL_POLISH: 9/10 OVERALL: 42/10 ANALYSIS: bolder"]])
    (fun rep => Ok ("{ report of " ++ report.Directory rep ++ " }"))
    "2026-02-15T05:30:00Z".

(** The value of the fallback of [parseScoreFromAnalysis]: the first
    standalone number, or 0. *)
Definition fallbackScore (analysis : string) : Z :=
  let matches := checks.findNumber false analysis in
  if (len matches >? 1)%Z then
    match strconv.Atoi (nth 1 matches "") with
    | Ok score => score
    | Err _ => 0
    end
  else 0.

(** ** The sites of the repository's tests ([checks_test.go]) *)

(** The document of [TestExtractAssets]. *)
Definition testExtractDoc : html.Node :=
  document
    [el "html" []
       [el "head" []
          [el "link" [html.mkAttr "rel" "stylesheet"; html.mkAttr "href" "style.css"] [];
           el "link" [html.mkAttr "rel" "icon"; html.mkAttr "href" "favicon.ico"] []];
        el "body" []
          [el "img" [html.mkAttr "src" "hero.jpg"; html.mkAttr "alt" "Hero"] [];
           el "img" [html.mkAttr "src" "images/logo.svg"; html.mkAttr "alt" "Logo"] [];
           el "script" [html.mkAttr "src" "app.js"] [];
           el "picture" []
             [el "source" [html.mkAttr "srcset" "banner.webp";
                           html.mkAttr "type" "image/webp"] [];
              el "source" [html.mkAttr "srcset" "banner.jpg";
                           html.mkAttr "type" "image/jpeg"] [];
              el "img" [html.mkAttr "src" "banner-fallback.jpg";
                        html.mkAttr "alt" "Banner"] []]]]].

(** The document of [TestCheckAssets] and [TestCheckAssetsAllValid]. *)
Definition testAssetsDoc : html.Node :=
  document
    [el "html" []
       [el "head" []
          [el "link" [html.mkAttr "rel" "stylesheet"; html.mkAttr "href" "style.css"] []];
        el "body" []
          [el "img" [html.mkAttr "src" "hero.jpg"] [];
           el "script" [html.mkAttr "src" "app.js"] []]]].

(** [TestCheckAssets]: [hero.jpg] is missing. *)
Definition testMissingWorld : World :=
  siteWorld (ReadDirOk [File "app.js"; File "index.html"; File "style.css"])
    testAssetsDoc ["/site/index.html"; "/site/style.css"; "/site/app.js"].

(** [TestCheckAssetsAllValid] *)
Definition testAllValidWorld : World :=
  siteWorld
    (ReadDirOk [File "app.js"; File "hero.jpg"; File "index.html"; File "style.css"])
    testAssetsDoc
    ["/site/index.html"; "/site/style.css"; "/site/app.js"; "/site/hero.jpg"].

(** [TestCheckBuild], first half: an empty directory. *)
Definition testEmptyWorld : World := siteWorld (ReadDirOk []) plainDoc [].

(** The document of [TestCheckBuildMissingMeta]. *)
Definition testNoMetaDoc : html.Node :=
  document
    [el "html" []
       [el "head" [] [el "title" [] [text "Test"]];
        el "body" [] [el "h1" [] [text "Hello"]]]].

Definition testNoMetaWorld : World :=
  siteWorld (ReadDirOk [File "index.html"]) testNoMetaDoc ["/site/index.html"].

(** * Further vocabulary *)

(** The error of the first directory, in the order of the walk, that cannot
    be read. *)
Fixpoint firstReadError (d : Listing) : option error :=
  match d with
  | ReadDirErr err => Some err
  | ReadDirOk entries =>
      (fix first (entries : list DirEntry) : option error :=
         match entries with
         | [] => None
         | File _ :: rest => first rest
         | Dir _ sub :: rest =>
             match firstReadError sub with
             | Some err => Some err
             | None => first rest
             end
         end) entries
  end.

(** Two documents, the second of which cannot be opened; the first refers
    to a missing image twice. *)
Definition halfReadableWorld : World :=
  siteWorld (ReadDirOk [File "a.html"; File "b.html"; File "style.css"])
            galleryDoc ["/site/a.html"; "/site/style.css"].

(** A site directory with a style sheet and no document. *)
Definition noDocumentWorld : World :=
  siteWorld (ReadDirOk [Dir "css" (ReadDirOk [File "style.css"]); File "robots.txt"])
            plainDoc ["/site/css/style.css"; "/site/robots.txt"].

(** Induction on a node, with the property at hand for every child. *)
Section NodeInd.
Variable P : html.Node -> Prop.
Hypothesis Hnode : forall type data attrs children,
  Forall P children -> P (html.mkNode type data attrs children).

Fixpoint Node_nested_ind (n : html.Node) : P n :=
  match n with
  | html.mkNode type data attrs children =>
      Hnode type data attrs children
        ((fix all (cs : list html.Node) : Forall P cs :=
            match cs with
            | [] => Forall_nil _
            | c :: cs' => @Forall_cons _ _ c cs' (Node_nested_ind c) (all cs')
            end) children)
  end.
End NodeInd.

(** A [rel] attribute that makes a [link] count: its value is exactly
    [stylesheet], [icon] or [shortcut]. *)
Definition isAssetRel (a : html.Attribute) : bool :=
  (html.Key a =? "rel")
  && ((html.Val a =? "stylesheet") || (html.Val a =? "icon")
      || (html.Val a =? "shortcut")).

(** The URL the extractor reads off one candidate of a [srcset]. *)
Definition candidateURL (part : string) : string :=
  strings.TrimSpace (nth 0 (strings.Split part " "%char) "").

(** The references one node contributes, by element and attribute. *)
Definition nodeRefs (type : html.NodeType) (data : string)
    (attrs : list html.Attribute) : list string :=
  if html.isElement type then
    if data =? "img" then
      map html.Val
        (filter (fun a => (html.Key a =? "src") && negb (html.Val a =? "")
                          && negb (strings.HasPrefix (html.Val a) "data:")) attrs)
    else if data =? "link" then
      if existsb isAssetRel attrs then
        map html.Val
          (filter (fun a => (html.Key a =? "href") && negb (html.Val a =? "")) attrs)
      else []
    else if data =? "script" then
      map html.Val
        (filter (fun a => (html.Key a =? "src") && negb (html.Val a =? "")) attrs)
    else if data =? "source" then
      flat_map (fun a =>
        if (html.Key a =? "srcset") && negb (html.Val a =? "") then
          filter (fun url => negb (url =? ""))
                 (map candidateURL (strings.Split (html.Val a) ","%char))
        else []) attrs
    else []
  else [].

(** The references of a tree in document order: those of the node, then
    those of its children from first to last. *)
Fixpoint refs (n : html.Node) : list string :=
  match n with
  | html.mkNode type data attrs children =>
      (nodeRefs type data attrs ++ flat_map refs children)%list
  end.

(** No byte of [s] is in the class [P]. *)
Fixpoint noneOf (P : ascii -> bool) (s : string) : bool :=
  match s with
  | EmptyString => true
  | String c s' => negb (P c) && noneOf P s'
  end.

(** [s] neither starts nor ends with the bytes of a white-space rune. *)
Definition trimmed (s : string) : bool :=
  forallb (fun rune => negb (strings.HasPrefix s rune)
                       && negb (strings.HasSuffix s rune))
          strings.White_Space.

(** A [srcset] written the compact way: candidates [url descriptor]
    joined by commas, with no space after a comma.  A URL is not empty,
    holds neither a space nor a comma and neither starts nor ends with
    white space; a descriptor holds no comma. *)
Definition wfCandidate (c : string * string) : bool :=
  negb (fst c =? "")
  && noneOf (fun b => Ascii.eqb b " "%char || Ascii.eqb b ","%char) (fst c)
  && trimmed (fst c)
  && noneOf (fun b => Ascii.eqb b ","%char) (snd c).

Definition candidateText (c : string * string) : string :=
  fst c ++ " " ++ snd c.

Definition formatSrcset (candidates : list (string * string)) : string :=
  strings.Join (map candidateText candidates) ",".

(** Some element of the tree, the root included, satisfies [P] (on its tag
    and its attributes). *)
Fixpoint anyElement (P : string -> list html.Attribute -> bool)
    (n : html.Node) : bool :=
  match n with
  | html.mkNode type data attrs children =>
      (html.isElement type && P data attrs) || existsb (anyElement P) children
  end.

(** The value of the last attribute named [key], or the empty string. *)
Definition attrVal (key : string) (attrs : list html.Attribute) : string :=
  fold_left (fun v a => if html.Key a =? key then html.Val a else v) attrs "".

Definition isTag (name data : string) (attrs : list html.Attribute) : bool :=
  data =? name.

(** A [meta] element whose [key] attribute is [value] and whose [content]
    is not empty. *)
Definition isMetaWith (key value data : string)
    (attrs : list html.Attribute) : bool :=
  (data =? "meta") && (attrVal key attrs =? value)
  && negb (attrVal "content" attrs =? "").

(** The messages for the requirements that are not met, in the fixed
    order of the check. *)
Definition missingElements (st : checks.Structure) : list string :=
  map snd
    (filter (fun p => negb (fst p))
       [(checks.hasHTML st, "missing <html> tag");
        (checks.hasHead st, "missing <head> tag");
        (checks.hasBody st, "missing <body> tag");
        (checks.hasTitle st, "missing <title> tag");
        (checks.hasDescription st, "missing meta description");
        (checks.hasOgTitle st, "missing og:title meta tag")]).

(** A page whose [title] stands in the body and whose metas come before the
    head: every requirement is met somewhere in the tree. *)
Definition scrambledDoc : html.Node :=
  document
    [el "meta" [html.mkAttr "content" "Test Site";
                html.mkAttr "property" "og:title"] [];
     el "html" []
       [el "head" [] [];
        el "body" []
          [el "div" []
             [el "title" [] [text "Late title"];
              el "meta" [html.mkAttr "name" "description";
                         html.mkAttr "content" "A test site"] []]]]].

Definition scrambledWorld : World :=
  siteWorld (ReadDirOk [File "index.html"]) scrambledDoc ["/site/index.html"].

(** What [CheckLighthouse] learns from the audit tool: the scores, or the
    error it returns. *)
Definition audit (w : World) : result lighthouseScores :=
  if negb (isLighthouseAvailable w) then
    Err "lighthouse not installed (run: npm install -g lighthouse)"
  else
    match findAvailablePort w with
    | Err err => Err ("failed to find available port: " ++ err)
    | Ok port =>
        match runLighthouse w ("http://localhost:" ++ Itoa port) with
        | Err err => Err ("lighthouse failed: " ++ err)
        | Ok scores => Ok scores
        end
    end.

(** Some score is below its threshold. *)
Definition belowThreshold (scores : lighthouseScores) (perf a11y seo : Z) : Prop :=
  Performance scores < perf \/ Accessibility scores < a11y \/ SEO scores < seo.

(** Every step of [CaptureScreenshots] succeeds. *)
Definition captureSucceeds (w : World) : Prop :=
  MkdirAll w "screenshots" = None /\
  exists port desktopBuf mobileBuf,
    findAvailablePort w = Ok port /\
    chromedp_Run w Desktop ("http://localhost:" ++ Itoa port) = Ok desktopBuf /\
    WriteFile w "screenshots/desktop.png" desktopBuf = None /\
    chromedp_Run w Mobile ("http://localhost:" ++ Itoa port) = Ok mobileBuf /\
    WriteFile w "screenshots/mobile.png" mobileBuf = None.

(** A check that may return an error halts the pipeline when it returns a
    FAIL result and no error. *)
Definition failsWithoutError {A : Type} (status : A -> string)
    (outcome : A * option error) : bool :=
  match outcome with
  | (res, None) => status res =? "FAIL"
  | (_, Some _) => false
  end.

(** [writeReport] gets the report on disk: the encoder and the write of
    [forge-report.json] both succeed. *)
Definition reportWritten (w : World) (rep : report.Report) : bool :=
  match MarshalIndent w rep with
  | Ok data =>
      match WriteFile w "forge-report.json" data with
      | None => true
      | Some _ => false
      end
  | Err _ => false
  end.

(** What [forge-report.json] holds of the run after [writeReport] on
    [rep]. *)
Definition writtenReport (w : World) (rep : report.Report)
  : option report.Report :=
  if reportWritten w rep then Some rep else None.

(** The file system the Vision step finds: the one [CaptureScreenshots]
    leaves. *)
Definition afterScreenshots (w : World) (absDir : string) : World :=
  snd (checks.CaptureScreenshots_fs w absDir).

(** What becomes of the Vision comparison when the run gets to it. *)
Definition visionOutcome (f : cmd.Flags) (w : World) (absDir : string)
  : call (report.VisionResult.t * option error) :=
  checks.CheckVision (afterScreenshots w absDir) (cmd.baseline f) (cmd.threshold f).

(** One of the gates before the screenshots fails: Assets, Build, or a
    Lighthouse audit that ran. *)
Definition earlyGateFails (f : cmd.Flags) (w : World) (absDir : string) : bool :=
  (report.AssetsResult.Status (checks.CheckAssets w absDir) =? "FAIL")
  || (report.BuildResult.Status (checks.CheckBuild w absDir) =? "FAIL")
  || failsWithoutError report.LighthouseResult.Status
       (checks.CheckLighthouse w absDir (cmd.lighthousePerf f)
          (cmd.lighthouseA11y f) (cmd.lighthouseSEO f)).

(** Some gate of the pipeline fails: one of the early gates, or a Vision
    comparison that was asked for and ran. *)
Definition gateFails (f : cmd.Flags) (w : World) (absDir : string) : bool :=
  earlyGateFails f w absDir
  || (negb (cmd.baseline f =? "")
      && match visionOutcome f w absDir with
         | Returns outcome => failsWithoutError report.VisionResult.Status outcome
         | Panics _ => false
         end).

(** The run gets to a Vision comparison that was asked for, and the
    comparison panics. *)
Definition visionPanics (f : cmd.Flags) (w : World) (absDir : string) : bool :=
  negb (earlyGateFails f w absDir)
  && negb (cmd.baseline f =? "")
  && match visionOutcome f w absDir with
     | Returns _ => false
     | Panics _ => true
     end.

(** What [main] records for a soft check: the result as returned, or its
    SKIP form when the check returned an error. *)
Definition recordedLighthouse (outcome : report.LighthouseResult.t * option error)
  : report.LighthouseResult.t :=
  match outcome with
  | (res, Some err) => cmd.Lighthouse_skip err res
  | (res, None) => res
  end.

Definition recordedScreenshots (outcome : report.ScreenshotsResult.t * option error)
  : report.ScreenshotsResult.t :=
  match outcome with
  | (res, Some err) => cmd.Screenshots_skip err res
  | (res, None) => res
  end.

(** For the Vision check: the fixed entry when no baseline is given; when
    the comparison panics nothing is recorded, and the entry is the initial
    one. *)
Definition recordedVision (f : cmd.Flags)
    (outcome : call (report.VisionResult.t * option error))
  : report.VisionResult.t :=
  if negb (cmd.baseline f =? "") then
    match outcome with
    | Returns (res, Some _) => cmd.Vision_skip res
    | Returns (res, None) => res
    | Panics _ => report.VisionResult.mk "SKIP" 0 0 "" ""
    end
  else report.VisionResult.mk "SKIP" 0 (cmd.threshold f) "" "No baseline provided".

(** The same world with another browser automation altogether: another
    outcome of the directory creation, of the captures and of the writes. *)
Definition set_browser (mkdir : string -> option error)
    (run : Viewport -> string -> result string)
    (write : string -> string -> option error)
    (leftover : string -> string -> option os.PathError * result string)
    (w : World) : World :=
  mkWorld (Abs w) (distDir_contents w) (Stat w) (ReadFile w) (Parse w)
    (isLighthouseAvailable w) (findAvailablePort w) (runLighthouse w)
    mkdir run write leftover
    (OPENROUTER_API_KEY w) (EncodeToString w) (chatCompletion w)
    (MarshalIndent w) (Now w).

(** The command line [site-forge --dir /site --baseline /baseline]. *)
Definition baselineFlags : cmd.Flags := cmd.mkFlags "/site" "/baseline" 7 90 90 90.

(** A valid site with a baseline and a credential, no screenshots yet, and
    an API that finds the redesign poor. *)
Definition comparedWorld : World :=
  mkWorld (fun path => Ok path) (ReadDirOk [File "index.html"])
    (statAmong ["/site/index.html"; "/baseline/desktop.png";
                "/baseline/mobile.png"])
    (fun path =>
       if existsb (String.eqb path)
            ["/site/index.html"; "/baseline/desktop.png"; "/baseline/mobile.png"]
       then Ok "<!DOCTYPE html>"
       else Err ("open " ++ path ++ ": no such file or directory"))
    (fun _ => Ok plainDoc)
    false (Ok 40123) (fun _ => Err "exit status 1")
    (fun _ => None) (fun _ _ => Ok "PNG") (fun _ _ => None)
    (fun path _ =>
       (Some os.ENOENT, Err ("open " ++ path ++ ": no such file or directory")))
    "sk-or-v1-0000" (fun data => data)
    (fun _ _ _ _ _ => Ok [["OVERALL: 3/10 ANALYSIS: the hero image is gone"]])
    (fun rep => Ok ("{ report of " ++ report.Directory rep ++ " }"))
    "2026-02-15T05:30:00Z".

(** A browser that cannot be started. *)
Definition noBrowser (viewport : Viewport) (url : string) : result string :=
  Err "exec: chrome: executable file not found in $PATH".

(** An API whose answer has a first choice with no content. *)
Definition emptyAnswerWorld : World :=
  mkWorld (Abs comparedWorld) (distDir_contents comparedWorld)
    (Stat comparedWorld) (ReadFile comparedWorld) (Parse comparedWorld)
    (isLighthouseAvailable comparedWorld) (findAvailablePort comparedWorld)
    (runLighthouse comparedWorld)
    (MkdirAll comparedWorld) (chromedp_Run comparedWorld)
    (WriteFile comparedWorld) (AfterFailedWrite comparedWorld)
    (OPENROUTER_API_KEY comparedWorld) (EncodeToString comparedWorld)
    (fun _ _ _ _ _ => Ok [[]])
    (MarshalIndent comparedWorld) (Now comparedWorld).

(** A disk on which [forge-report.json] cannot be written. *)
Definition readOnlyWorld : World :=
  mkWorld (Abs galleryWorld) (distDir_contents galleryWorld)
    (Stat galleryWorld) (ReadFile galleryWorld) (Parse galleryWorld)
    (isLighthouseAvailable galleryWorld) (findAvailablePort galleryWorld)
    (runLighthouse galleryWorld)
    (MkdirAll galleryWorld) (chromedp_Run galleryWorld)
    (fun path _ => Some ("open " ++ path ++ ": read-only file system"))
    (AfterFailedWrite galleryWorld)
    (OPENROUTER_API_KEY galleryWorld) (EncodeToString galleryWorld)
    (chatCompletion galleryWorld)
    (MarshalIndent galleryWorld) (Now galleryWorld).

(** A site whose audit runs and scores 95, 90 and 89. *)
Definition auditedWorld : World :=
  mkWorld (Abs plainWorld) (distDir_contents plainWorld) (Stat plainWorld)
    (ReadFile plainWorld) (Parse plainWorld)
    true (Ok 40123) (fun _ => Ok (mkScores 95 90 89))
    (MkdirAll plainWorld) (chromedp_Run plainWorld) (WriteFile plainWorld)
    (AfterFailedWrite plainWorld)
    (OPENROUTER_API_KEY plainWorld) (EncodeToString plainWorld)
    (chatCompletion plainWorld) (MarshalIndent plainWorld) (Now plainWorld).

(** [\b([1-9]|10)\b] matches [s] right after [pre], with [num] as its text,
    where [prevWord] tells whether a word byte stands before [s]. *)
Definition numberAt (prevWord : bool) (s pre num : string) : Prop :=
  exists post,
    s = pre ++ num ++ post /\ standaloneNumber num = true /\
    lastIsWord prevWord pre = false /\ checks.startsWithWord post = false.

(** [num] is the leftmost standalone number of the text. *)
Definition firstNumber (analysis num : string) : Prop :=
  exists pre, numberAt false analysis pre num /\
    forall pre' num', numberAt false analysis pre' num' ->
                      (String.length pre <= String.length pre')%nat.

(** * Properties: strings *)

Lemma HasPrefix_app : forall p post, strings.HasPrefix (p ++ post) p = true.
Proof.
  induction p as [|c p IH]; intros post; simpl; [reflexivity|].
  now rewrite Ascii.eqb_refl, IH.
Qed.

Lemma HasPrefix_inv : forall p s,
  strings.HasPrefix s p = true -> s = p ++ drop (String.length p) s.
Proof.
  induction p as [|c p IH]; intros s H; simpl in *; [reflexivity|].
  destruct s as [|d s]; [discriminate|].
  apply andb_true_iff in H as [Hc Hp].
  apply Ascii.eqb_eq in Hc. subst d. simpl. f_equal. now apply IH.
Qed.

Lemma HasPrefix_spec : forall s p,
  strings.HasPrefix s p = true <-> exists post, s = p ++ post.
Proof.
  intros s p; split.
  - intros H. eexists. now apply HasPrefix_inv.
  - intros [post ->]. apply HasPrefix_app.
Qed.

Lemma drop_app : forall pre s, drop (String.length pre) (pre ++ s) = s.
Proof. induction pre as [|c pre IH]; intros s; simpl; auto. Qed.

Lemma Index_unfold : forall s substr,
  strings.Index s substr =
  if strings.HasPrefix s substr then 0
  else match s with
       | EmptyString => -1
       | String _ s' => let i := strings.Index s' substr in
                        if (i <? 0)%Z then -1 else i + 1
       end.
Proof. intros [|c s] substr; reflexivity. Qed.

Lemma Index_spec : forall substr s,
  (strings.Index s substr = -1 /\ ~ contains s substr) \/
  (exists pre post, firstAt s substr pre post /\
                    strings.Index s substr = Z.of_nat (String.length pre)).
Proof.
  intros substr s. induction s as [|c s IH]; rewrite Index_unfold.
  - destruct (strings.HasPrefix "" substr) eqn:Hp.
    + right. apply HasPrefix_spec in Hp as [post Hp].
      exists "", post. repeat split; simpl; auto. intros; lia.
    + left. split; [reflexivity|]. intros (pre & post & E).
      destruct pre; [|discriminate]. simpl in E.
      rewrite E, HasPrefix_app in Hp. discriminate.
  - destruct (strings.HasPrefix (String c s) substr) eqn:Hp.
    + right. apply HasPrefix_spec in Hp as [post Hp].
      exists "", post. repeat split; simpl; auto. intros; lia.
    + assert (Hnil : forall pre post, String c s = pre ++ substr ++ post ->
                exists pre', pre = String c pre' /\ s = pre' ++ substr ++ post).
      { intros pre post E. destruct pre as [|d pre].
        - simpl in E. rewrite E, HasPrefix_app in Hp. discriminate.
        - simpl in E. injection E as -> E. eauto. }
      destruct IH as [[Hi Hn] | (pre & post & [E Hmin] & Hi)]; cbv zeta; rewrite Hi.
      * left. split; [reflexivity|]. intros (pre & post & E).
        apply Hnil in E as (pre' & -> & E). apply Hn. now exists pre', post.
      * right. exists (String c pre), post.
        destruct (Z.ltb_spec (Z.of_nat (String.length pre)) 0); [lia|].
        repeat split.
        -- simpl. now rewrite E.
        -- intros pre2 post2 E2. apply Hnil in E2 as (pre' & -> & E2).
           simpl. apply Hmin in E2. lia.
        -- simpl String.length. lia.
Qed.

Lemma firstAt_Index : forall s substr pre post,
  firstAt s substr pre post ->
  strings.Index s substr = Z.of_nat (String.length pre).
Proof.
  intros s substr pre post [E Hmin].
  destruct (Index_spec substr s) as [[_ Hn] | (pre2 & post2 & [E2 Hmin2] & Hi)].
  - exfalso. apply Hn. now exists pre, post.
  - rewrite Hi. f_equal.
    apply Hmin in E2. apply Hmin2 in E. lia.
Qed.

Lemma absent_Index : forall s substr,
  ~ contains s substr -> strings.Index s substr = -1.
Proof.
  intros s substr Hn.
  destruct (Index_spec substr s) as [[Hi _] | (pre & post & [E _] & _)]; auto.
  exfalso. apply Hn. now exists pre, post.
Qed.

Lemma contains_firstAt : forall s substr,
  contains s substr -> exists pre post, firstAt s substr pre post.
Proof.
  intros s substr Hc.
  destruct (Index_spec substr s) as [[_ Hn] | (pre & post & Hf & _)]; [tauto|eauto].
Qed.

Lemma Index_absent : forall s substr,
  strings.Index s substr = -1 -> ~ contains s substr.
Proof.
  intros s substr Hi.
  destruct (Index_spec substr s) as [[_ Hn] | (pre & post & _ & Hi2)]; auto.
  rewrite Hi in Hi2. lia.
Qed.

Lemma Index_firstAt : forall s substr pre post,
  s = pre ++ substr ++ post ->
  strings.Index s substr = Z.of_nat (String.length pre) ->
  firstAt s substr pre post.
Proof.
  intros s substr pre post E Hi. split; [exact E|].
  destruct (Index_spec substr s) as [[Hi2 _] | (pre2 & post2 & [_ Hmin] & Hi2)].
  - rewrite Hi in Hi2. lia.
  - intros pre' post' E'. apply Hmin in E'. rewrite Hi in Hi2. lia.
Qed.

Lemma take_drop : forall n s, s = substring 0 n s ++ drop n s.
Proof.
  induction n as [|n IH]; intros [|c s]; simpl; try reflexivity.
  f_equal. apply IH.
Qed.

Lemma length_app_string : forall a b,
  String.length (a ++ b) = (String.length a + String.length b)%nat.
Proof. induction a as [|c a IH]; intros b; simpl; [reflexivity|]. now rewrite IH. Qed.

Lemma HasSuffix_spec : forall s suffix,
  strings.HasSuffix s suffix = true <-> exists stem, s = stem ++ suffix.
Proof.
  intros s suffix. unfold strings.HasSuffix. split.
  - intros H. apply andb_true_iff in H as [_ H]. apply String.eqb_eq in H.
    exists (substring 0 (String.length s - String.length suffix) s).
    pose proof (take_drop (String.length s - String.length suffix) s) as E.
    now rewrite H in E.
  - intros [stem ->]. rewrite length_app_string.
    replace (String.length stem + String.length suffix - String.length suffix)%nat
      with (String.length stem) by lia.
    rewrite drop_app, String.eqb_refl, andb_true_r.
    apply Nat.leb_le. lia.
Qed.

Lemma append_nil_r : forall s : string, s ++ "" = s.
Proof. induction s as [|c s IH]; simpl; [reflexivity|]. now rewrite IH. Qed.

Lemma append_assoc : forall a b c : string, (a ++ b) ++ c = a ++ b ++ c.
Proof. induction a as [|x a IH]; intros b c; simpl; [reflexivity|]. now rewrite IH. Qed.

Lemma reverse_app : forall a b, reverse (a ++ b) = reverse b ++ reverse a.
Proof.
  induction a as [|c a IH]; intros b; simpl.
  - now rewrite append_nil_r.
  - now rewrite IH, append_assoc.
Qed.

Lemma reverse_involutive : forall s, reverse (reverse s) = s.
Proof.
  induction s as [|c s IH]; simpl; [reflexivity|].
  rewrite reverse_app, IH. reflexivity.
Qed.

(** * The resolver *)

(** C4.  For a reference that starts with a slash the candidate path is the
    site root with a suffix of the reference appended as a string: the
    suffix that starts at the first ["/images/"] when there is one, else the
    suffix that starts at the first ["/_astro/"] when there is one, else the
    whole reference (a reference starting with ["/favicon"] included). *)
Theorem assetPath_root_relative : forall distDir asset,
  strings.HasPrefix asset "/" = true ->
  (forall pre post, firstAt asset "/images/" pre post ->
     checks.assetPath distDir asset = distDir ++ "/images/" ++ post) /\
  (forall pre post, ~ contains asset "/images/" ->
     firstAt asset "/_astro/" pre post ->
     checks.assetPath distDir asset = distDir ++ "/_astro/" ++ post) /\
  (~ contains asset "/images/" -> ~ contains asset "/_astro/" ->
     checks.assetPath distDir asset = distDir ++ asset) /\
  (contains asset "/images/" \/ contains asset "/_astro/" ->
     exists pre rel,
       asset = pre ++ rel /\
       (strings.HasPrefix rel "/images/" = true \/
        strings.HasPrefix rel "/_astro/" = true) /\
       checks.assetPath distDir asset = distDir ++ rel).
Proof.
  intros distDir asset Hslash.
  assert (H3 :
    (forall pre post, firstAt asset "/images/" pre post ->
       checks.assetPath distDir asset = distDir ++ "/images/" ++ post) /\
    (forall pre post, ~ contains asset "/images/" ->
       firstAt asset "/_astro/" pre post ->
       checks.assetPath distDir asset = distDir ++ "/_astro/" ++ post) /\
    (~ contains asset "/images/" -> ~ contains asset "/_astro/" ->
       checks.assetPath distDir asset = distDir ++ asset)).
  2:{ destruct H3 as (Himg & Hastro & Hplain).
      repeat (split; [assumption|]).
      intros Hc.
      destruct (Index_spec "/images/" asset)
        as [[_ Hno] | (pre & post & Hf & _)].
      - destruct Hc as [Hc | Hc]; [contradiction|].
        destruct (contains_firstAt _ _ Hc) as (pre & post & Hf).
        exists pre, ("/_astro/" ++ post). split; [apply Hf|].
        split; [right; reflexivity|]. now apply Hastro with pre.
      - exists pre, ("/images/" ++ post). split; [apply Hf|].
        split; [left; reflexivity|]. now apply Himg with pre. }
  unfold checks.assetPath. rewrite Hslash.
  split; [|split].
  - intros pre post Hf. pose proof (firstAt_Index _ _ _ _ Hf) as Hi.
    destruct Hf as [E _]. rewrite Hi.
    destruct (Z.leb_spec 0 (Z.of_nat (String.length pre))); [|lia].
    rewrite Nat2Z.id. rewrite E at 1. now rewrite drop_app.
  - intros pre post Hn Hf. rewrite (absent_Index _ _ Hn).
    pose proof (firstAt_Index _ _ _ _ Hf) as Hi.
    destruct Hf as [E _]. cbn -[strings.Index drop]. rewrite Hi.
    destruct (Z.leb_spec 0 (Z.of_nat (String.length pre))); [|lia].
    rewrite Nat2Z.id. rewrite E at 1. now rewrite drop_app.
  - intros Hn1 Hn2. rewrite (absent_Index _ _ Hn1), (absent_Index _ _ Hn2).
    cbn -[strings.HasPrefix]. now destruct (strings.HasPrefix asset "/favicon").
Qed.

(** C4 at three references: under a base path, under [_astro], and a
    favicon. *)
Lemma assetPath_root_relative_witness :
  checks.assetPath "/site" "/the-farm-house-demo/images/foo.jpg" = "/site/images/foo.jpg"
  /\ checks.assetPath "/site" "/demo/_astro/index.css" = "/site/_astro/index.css"
  /\ checks.assetPath "/site" "/favicon.ico" = "/site/favicon.ico".
Proof.
  pose proof (assetPath_root_relative "/site"
                "/the-farm-house-demo/images/foo.jpg" eq_refl) as (H1 & _).
  pose proof (assetPath_root_relative "/site"
                "/demo/_astro/index.css" eq_refl) as (_ & H2 & _).
  pose proof (assetPath_root_relative "/site"
                "/favicon.ico" eq_refl) as (_ & _ & H3 & _).
  split; [|split].
  - apply (H1 "/the-farm-house-demo" "foo.jpg"). now apply Index_firstAt.
  - apply (H2 "/demo" "index.css").
    + now apply Index_absent.
    + now apply Index_firstAt.
  - apply H3; now apply Index_absent.
Defined.

(** * The tree walker *)

Lemma findHTMLFiles_unfold : forall dir entries,
  checks.findHTMLFiles dir (ReadDirOk entries) =
  (fix range (entries : list DirEntry) (files : list string) {struct entries}
     : result (list string) :=
     match entries with
     | [] => Ok files
     | entry :: rest =>
         let path := filepath.Join [dir; Name entry] in
         match entry with
         | Dir _ sub =>
             match checks.findHTMLFiles path sub with
             | Err err => Err err
             | Ok subFiles => range rest (files ++ subFiles)%list
             end
         | File name =>
             if strings.HasSuffix name ".html" || strings.HasSuffix name ".htm"
             then range rest (files ++ [path])%list
             else range rest files
         end
     end) entries [].
Proof. reflexivity. Qed.

Lemma findHTMLFiles_listingOrder : forall d dir,
  readable d = true ->
  checks.findHTMLFiles dir d = Ok (listingOrder dir d).
Proof.
  induction d as [err | entries IH] using Listing_nested_ind; intros dir Hr.
  - discriminate.
  - rewrite findHTMLFiles_unfold. simpl in Hr. simpl listingOrder.
    match goal with
    | |- ?F entries [] = Ok ?L =>
        enough (G : forall files, F entries files = Ok (files ++ L)%list)
          by exact (G [])
    end.
    revert IH Hr. induction entries as [|entry rest IHrest]; intros IH Hr files.
    + simpl. now rewrite app_nil_r.
    + simpl in Hr. apply andb_true_iff in Hr as [Hentry Hrest].
      inversion IH as [|? ? IHentry IHtail]; subst.
      specialize (IHrest IHtail Hrest).
      destruct entry as [name | name sub].
      * cbn [Name flat_map]. fold (isHTMLName name).
        destruct (isHTMLName name).
        -- rewrite IHrest. now rewrite <- app_assoc.
        -- rewrite IHrest. reflexivity.
      * cbn [Name flat_map]. rewrite (IHentry _ Hentry).
        rewrite IHrest. now rewrite <- app_assoc.
Qed.

Lemma listingOrder_HTMLFileUnder : forall d dir path,
  In path (listingOrder dir d) <-> HTMLFileUnder dir d path.
Proof.
  induction d as [err | entries IH] using Listing_nested_ind; intros dir path.
  - simpl. split; [tauto | inversion 1].
  - simpl listingOrder. rewrite in_flat_map. split.
    + intros (entry & Hin & Hp).
      rewrite Forall_forall in IH. specialize (IH entry Hin).
      destruct entry as [name | name sub].
      * destruct (isHTMLName name) eqn:Hn; [|contradiction].
        destruct Hp as [<- | []]. now apply HTMLChild.
      * apply IH in Hp. now apply HTMLBelow with name sub.
    + rewrite Forall_forall in IH.
      inversion 1 as [? ? name Hin Hn | ? ? name sub ? Hin Hsub]; subst.
      * exists (File name). split; [assumption|]. rewrite Hn. now left.
      * exists (Dir name sub). split; [assumption|].
        now apply (IH _ Hin).
Qed.

(** C7 (as amended).  On a tree whose directories can all be read,
    [findHTMLFiles] succeeds, returns exactly the non-directory entries
    whose names end in [.html] or [.htm], and lists them in the order of
    the directory listings, with the files of a subdirectory standing at the
    place of the subdirectory among its siblings. *)
Theorem findHTMLFiles_exact_in_listing_order : forall dir d,
  readable d = true ->
  checks.findHTMLFiles dir d = Ok (listingOrder dir d) /\
  (forall path, In path (listingOrder dir d) <-> HTMLFileUnder dir d path).
Proof.
  intros dir d Hr. split.
  - now apply findHTMLFiles_listingOrder.
  - intros path. apply listingOrder_HTMLFileUnder.
Qed.

(** C7 on the site with a blog. *)
Lemma findHTMLFiles_exact_in_listing_order_witness :
  checks.findHTMLFiles "/site" blogSite
    = Ok ["/site/blog/post.html"; "/site/index.html"]
  /\ HTMLFileUnder "/site" blogSite "/site/blog/post.html".
Proof.
  destruct (findHTMLFiles_exact_in_listing_order "/site" blogSite eq_refl)
    as [Hfind Hmem].
  split.
  - exact Hfind.
  - apply Hmem. vm_compute. now left.
Defined.

(** C7, counterexample.  The site lists the directory [blog] before the
    file [index.html]; the file found under [blog] comes first in the
    result, while the order of the specification puts [index.html] first. *)
Lemma findHTMLFiles_not_files_first :
  readable blogSite = true /\ wellListed blogSite = true /\
  checks.findHTMLFiles "/site" blogSite
    = Ok ["/site/blog/post.html"; "/site/index.html"] /\
  filesFirstOrder "/site" blogSite
    = ["/site/index.html"; "/site/blog/post.html"] /\
  checks.findHTMLFiles "/site" blogSite <> Ok (filesFirstOrder "/site" blogSite).
Proof. repeat split; try reflexivity. vm_compute. discriminate. Qed.

(** * The Assets check *)

Lemma len_cons : forall (A : Type) (a : A) (l : list A), len (a :: l) = 1 + len l.
Proof. intros. unfold len. simpl List.length. lia. Qed.

Lemma len_app : forall (A : Type) (l1 l2 : list A),
  len (l1 ++ l2)%list = len l1 + len l2.
Proof. intros. unfold len. rewrite length_app. lia. Qed.

Lemma len_zero : forall (A : Type) (l : list A), (len l =? 0)%Z = true <-> l = [].
Proof.
  intros A [|a l]; split; intros H; try reflexivity; discriminate.
Qed.

Lemma len_pos : forall (A : Type) (l : list A), (len l >? 0)%Z = true <-> l <> [].
Proof.
  intros A [|a l]; split; intros H; try discriminate; try congruence.
  reflexivity.
Qed.

Lemma fold_checkAsset : forall w distDir assets missing total,
  fold_left (checks.checkAsset w distDir) assets (missing, total) =
  ((missing ++ filter (missingOnDisk w distDir) assets)%list, total + len assets).
Proof.
  intros w distDir. induction assets as [|asset rest IH]; intros missing total.
  - simpl. rewrite app_nil_r. f_equal. unfold len. simpl List.length. lia.
  - cbn [fold_left filter]. unfold checks.checkAsset at 2.
    fold (missingOnDisk w distDir asset).
    destruct (missingOnDisk w distDir asset); rewrite IH, len_cons.
    + f_equal; [now rewrite <- app_assoc | lia].
    + f_equal. lia.
Qed.

Lemma rangeHTMLFiles_discovered : forall w distDir htmlFiles refs missing total,
  discovered w distDir htmlFiles = Ok refs ->
  checks.rangeHTMLFiles w distDir htmlFiles (missing, total) =
  Next ((missing ++ filter (missingOnDisk w distDir) refs)%list, total + len refs).
Proof.
  intros w distDir. induction htmlFiles as [|htmlFile rest IH];
    intros refs missing total Hd; simpl in Hd.
  - injection Hd as <-. simpl. rewrite app_nil_r. do 2 f_equal.
    unfold len. simpl List.length. lia.
  - simpl. destruct (checks.extractAssets w htmlFile distDir) as [assets|err];
      [|discriminate].
    destruct (discovered w distDir rest) as [more|err]; [|discriminate].
    injection Hd as <-. rewrite fold_checkAsset.
    rewrite (IH more _ _ eq_refl), filter_app, len_app, <- app_assoc.
    do 2 f_equal. lia.
Qed.

Lemma rangeHTMLFiles_error : forall w distDir htmlFiles err st,
  discovered w distDir htmlFiles = Err err ->
  exists details,
    checks.rangeHTMLFiles w distDir htmlFiles st =
    Return (report.AssetsResult.mk "FAIL" 0 [] details).
Proof.
  intros w distDir. induction htmlFiles as [|htmlFile rest IH];
    intros err st Hd; simpl in Hd; [discriminate|].
  simpl. destruct (checks.extractAssets w htmlFile distDir) as [assets|err'].
  - destruct (discovered w distDir rest) as [more|err'']; [discriminate|].
    eapply IH. reflexivity.
  - eauto.
Qed.

(** The result of [CheckAssets] once the documents are found and read. *)
Lemma CheckAssets_scanned : forall w distDir htmlFiles refs,
  checks.findHTMLFiles distDir (distDir_contents w) = Ok htmlFiles ->
  htmlFiles <> [] ->
  discovered w distDir htmlFiles = Ok refs ->
  let missing := filter (missingOnDisk w distDir) refs in
  checks.CheckAssets w distDir =
  if (len missing >? 0)%Z then
    report.AssetsResult.mk "FAIL" (len refs) missing
      ("Missing " ++ Itoa (len missing) ++ " assets")
  else
    report.AssetsResult.mk "PASS" (len refs) missing
      (Itoa (len refs) ++ "/" ++ Itoa (len refs) ++ " assets verified").
Proof.
  intros w distDir htmlFiles refs Hfind Hne Hd missing.
  unfold checks.CheckAssets. rewrite Hfind.
  destruct (len htmlFiles =? 0)%Z eqn:Hz; [apply len_zero in Hz; contradiction|].
  rewrite (rangeHTMLFiles_discovered _ _ _ _ _ _ Hd). reflexivity.
Qed.

(** C2 (as amended).  [CheckAssets] returns PASS exactly when at least one
    document is found, every document is read and parsed, and no reference
    is missing (resolves to a path that [os.Stat] reports as not existing);
    the number of references may be zero.
    Every other result is FAIL, and a result with a non-zero total and an
    empty missing list is PASS. *)
Theorem CheckAssets_PASS_iff : forall w distDir,
  (report.AssetsResult.Status (checks.CheckAssets w distDir) = "PASS" <->
   exists htmlFiles refs,
     checks.findHTMLFiles distDir (distDir_contents w) = Ok htmlFiles /\
     htmlFiles <> [] /\
     discovered w distDir htmlFiles = Ok refs /\
     filter (missingOnDisk w distDir) refs = []) /\
  (report.AssetsResult.Status (checks.CheckAssets w distDir) = "PASS" \/
   report.AssetsResult.Status (checks.CheckAssets w distDir) = "FAIL") /\
  (report.AssetsResult.Total (checks.CheckAssets w distDir) <> 0 /\
   report.AssetsResult.Missing (checks.CheckAssets w distDir) = [] ->
   report.AssetsResult.Status (checks.CheckAssets w distDir) = "PASS").
Proof.
  intros w distDir.
  destruct (checks.findHTMLFiles distDir (distDir_contents w))
    as [htmlFiles|err] eqn:Hfind.
  2:{ unfold checks.CheckAssets. rewrite Hfind. cbn. repeat split.
      - discriminate.
      - intros (? & ? & ? & _). discriminate.
      - now right.
      - intros [H _]. now elim H. }
  destruct htmlFiles as [|htmlFile rest].
  { unfold checks.CheckAssets. rewrite Hfind. cbn. repeat split.
    - discriminate.
    - intros (? & ? & E & Hne & _). injection E as <-. now elim Hne.
    - now right.
    - intros [H _]. now elim H. }
  destruct (discovered w distDir (htmlFile :: rest)) as [refs|err] eqn:Hd.
  2:{ unfold checks.CheckAssets. rewrite Hfind.
      destruct (rangeHTMLFiles_error _ _ _ _ ([], 0) Hd) as [details ->].
      cbn. repeat split.
      - discriminate.
      - intros (? & ? & E & _ & Hd' & _). injection E as <-.
        rewrite Hd in Hd'. discriminate.
      - now right.
      - intros [H _]. now elim H. }
  rewrite (CheckAssets_scanned _ _ _ _ Hfind ltac:(discriminate) Hd).
  destruct (len (filter (missingOnDisk w distDir) refs) >? 0)%Z eqn:Hm; cbn.
  - apply len_pos in Hm. repeat split.
    + discriminate.
    + intros (? & ? & E & _ & Hd' & Hnone). injection E as <-.
      rewrite Hd in Hd'. injection Hd' as <-. contradiction.
    + now right.
    + intros [_ H]. contradiction.
  - assert (Hnone : filter (missingOnDisk w distDir) refs = []).
    { destruct (filter (missingOnDisk w distDir) refs); [reflexivity|].
      rewrite len_cons in Hm. unfold len in Hm.
      rewrite Z.gtb_ltb in Hm. apply Z.ltb_ge in Hm. lia. }
    repeat split; auto.
    intros _. exists (htmlFile :: rest), refs. repeat split; auto. discriminate.
Qed.

(** C2, counterexample.  A site whose only document refers to no asset:
    the total is zero and the result is PASS. *)
Lemma CheckAssets_PASS_with_zero_references :
  discovered plainWorld "/site" ["/site/index.html"] = Ok [] /\
  report.AssetsResult.Total (checks.CheckAssets plainWorld "/site") = 0 /\
  report.AssetsResult.Missing (checks.CheckAssets plainWorld "/site") = [] /\
  report.AssetsResult.Status (checks.CheckAssets plainWorld "/site") = "PASS" /\
  report.AssetsResult.Status (checks.CheckAssets plainWorld "/site") <> "FAIL".
Proof. repeat split; try reflexivity. vm_compute. discriminate. Qed.







(** * The Build check *)

(** C9.  When the walk over the site directory fails, [CheckBuild] drops
    the error: it reports zero pages, the result is the one it gives for a
    site directory with an empty listing, and a root document that meets
    the six structural requirements still yields PASS. *)
Theorem CheckBuild_discards_walk_error : forall w distDir err,
  checks.findHTMLFiles distDir (distDir_contents w) = Err err ->
  report.BuildResult.Pages (checks.CheckBuild w distDir) = 0 /\
  checks.CheckBuild w distDir
    = checks.CheckBuild (set_contents (ReadDirOk []) w) distDir /\
  (forall data doc,
     NotExist w (filepath.Join [distDir; "index.html"]) = false ->
     ReadFile w (filepath.Join [distDir; "index.html"]) = Ok data ->
     Parse w data = Ok doc ->
     checks.check doc nothingSeen = allSeen ->
     checks.CheckBuild w distDir
       = report.BuildResult.mk "PASS" 0 "Valid HTML, 0 page(s), meta tags present").
Proof.
  intros w distDir err Hwalk.
  split; [|split].
  - unfold checks.CheckBuild. rewrite Hwalk.
    destruct (NotExist w _); [reflexivity|].
    destruct (ReadFile w _) as [data|e]; [|reflexivity].
    destruct (Parse w data) as [doc|e]; [|reflexivity].
    cbv zeta. destruct (len (checks.structureErrors _) >? 0)%Z; reflexivity.
  - unfold checks.CheckBuild. rewrite Hwalk. reflexivity.
  - intros data doc Hstat Hread Hparse Hall.
    unfold checks.CheckBuild. rewrite Hstat, Hread, Hparse, Hwalk.
    fold nothingSeen. rewrite Hall. reflexivity.
Qed.

(** C9 on a valid site with an unreadable subdirectory. *)
Lemma CheckBuild_discards_walk_error_witness :
  checks.findHTMLFiles "/site" (distDir_contents lockedWorld)
    = Err "open /site/private: permission denied" /\
  checks.CheckBuild lockedWorld "/site"
    = report.BuildResult.mk "PASS" 0 "Valid HTML, 0 page(s), meta tags present".
Proof.
  split; [reflexivity|].
  destruct (CheckBuild_discards_walk_error lockedWorld "/site"
              "open /site/private: permission denied" eq_refl)
    as (_ & _ & Hpass).
  apply (Hpass "<!DOCTYPE html>" plainDoc); reflexivity.
Defined.

(** * The extractor *)

(** [strings.Split] returns at least one piece, so the index [[0]] of the
    [source] case is always in range. *)
Lemma Split_nonempty : forall s sep, strings.Split s sep <> [].
Proof.
  induction s as [|c s IH]; intros sep; simpl; [discriminate|].
  destruct (Ascii.eqb c sep); [discriminate|].
  destruct (strings.Split s sep); discriminate.
Qed.

(** [TrimSpace] takes a no-break space (U+00A0) off both ends, and leaves
    alone the bytes of one that are cut in two. *)
Example TrimSpace_trims_Unicode_white_space :
  let nbsp := String (ascii_of_nat 194) (String (ascii_of_nat 160) "") in
  strings.TrimSpace (nbsp ++ " a.webp" ++ nbsp) = "a.webp" /\
  strings.TrimSpace (String (ascii_of_nat 160) "a.webp") = String (ascii_of_nat 160) "a.webp".
Proof. split; reflexivity. Qed.

(** C6, the defect.  On [srcset="a.webp, b.jpg 2x"] the extractor yields
    [a.webp] only, where the rule of the specification yields both URLs:
    a candidate that starts with a space is dropped, whatever follows the
    space, because the candidate is cut at its first space before it is
    trimmed. *)
Theorem extract_srcset_drops_spaced_candidate :
  checks.extract spacedSource [] = ["a.webp"] /\
  srcsetURLs_spec "a.webp, b.jpg 2x" = ["a.webp"; "b.jpg"] /\
  (forall assets rest, checks.srcsetPart assets (String " " rest) = assets).
Proof.
  split; [reflexivity|]. split; [reflexivity|].
  intros assets rest. unfold checks.srcsetPart. simpl strings.Split.
  reflexivity.
Qed.

(** * The orchestrator *)

Lemma writeReport_run : forall w p,
  cmd.writeReport w p =
  (cmd.Continue tt,
   cmd.mkProcess (cmd.set_Timestamp (Now w) (cmd.r p))
     (if reportWritten w (cmd.set_Timestamp (Now w) (cmd.r p))
      then Some (cmd.set_Timestamp (Now w) (cmd.r p))
      else cmd.serialized p)).
Proof.
  intros w [rep ser].
  unfold cmd.writeReport, cmd.bind, cmd.assign, reportWritten.
  cbn [cmd.r cmd.serialized].
  destruct (MarshalIndent w _) as [data|e]; [|reflexivity].
  destruct (WriteFile w _ data); reflexivity.
Qed.

Lemma bind_run : forall (A B : Type) (m : cmd.M A) (k : A -> cmd.M B) p,
  cmd.bind m k p =
  match m p with
  | (cmd.Exit code, p') => (cmd.Exit code, p')
  | (cmd.Continue a, p') => k a p'
  end.
Proof. reflexivity. Qed.

Lemma assign_run : forall g p,
  cmd.assign g p
  = (cmd.Continue tt, cmd.mkProcess (g (cmd.r p)) (cmd.serialized p)).
Proof. reflexivity. Qed.

Lemma printSummary_run : forall p,
  cmd.printSummary p
  = (cmd.Continue tt,
     cmd.mkProcess (cmd.set_Overall "FAIL" (cmd.r p)) (cmd.serialized p)).
Proof. reflexivity. Qed.

Lemma os_Exit_run : forall (A : Type) code p,
  @cmd.os_Exit A code p = (cmd.Exit code, p).
Proof. reflexivity. Qed.

Lemma ret_run : forall (A : Type) (a : A) p, cmd.ret a p = (cmd.Continue a, p).
Proof. reflexivity. Qed.

Lemma panic_run : forall (A : Type) msg p, @cmd.panic A msg p = (cmd.Exit 2, p).
Proof. reflexivity. Qed.

Create Rewrite HintDb run.
#[local] Hint Rewrite bind_run assign_run printSummary_run os_Exit_run ret_run
  panic_run writeReport_run : run.

(** The steps of [main] laid open, and run as far as they go. *)
Ltac open_pipeline :=
  unfold cmd.pipeline, cmd.check_ASSETS, cmd.check_BUILD, cmd.check_LIGHTHOUSE,
    cmd.check_SCREENSHOTS, cmd.check_VISION, cmd.allPassed,
    checks.CaptureScreenshots.

Ltac run_steps :=
  repeat (progress (autorewrite with run;
                    cbn beta iota delta [cmd.r cmd.serialized fst snd negb])).

Ltac split_gates :=
  repeat (run_steps;
          match goal with
          | |- context [?s =? "FAIL"] => destruct (s =? "FAIL")
          | |- context [negb (?s =? "")] => destruct (s =? "")
          | |- context [match ?e with Some _ => _ | None => _ end] =>
              is_var e; destruct e
          end);
  run_steps.

Lemma pipeline_failStamped : forall f w absDir p,
  cmd.serialized p = None ->
  failStamped (snd (cmd.pipeline f w absDir p)).
Proof.
  intros f w absDir [rep ser] Hser. simpl in Hser. subst ser.
  open_pipeline.
  destruct (checks.CheckLighthouse w absDir _ _ _) as [lr lerr].
  destruct (checks.CaptureScreenshots_fs w absDir) as [[sr serr] fs].
  cbn [fst snd].
  destruct (checks.CheckVision fs _ _) as [[vr verr]|msg];
    generalize (checks.CheckAssets w absDir) (checks.CheckBuild w absDir);
    intros ar br; unfold failStamped;
    split_gates; try exact I; try now destruct (reportWritten _ _).
Qed.

(** C1, the defect.  Every report the program serializes carries the
    verdict FAIL: [printSummary] overwrites the verdict on the way to
    [writeReport], also after [main] has set it to PASS.  On the plain
    valid site every gate passes and the program exits with code 0, and the
    serialized verdict is FAIL. *)
Theorem serialized_verdict_is_always_FAIL :
  (forall f w, overallOf (cmd.main f w) <> Some "PASS") /\
  cmd.exitCode (cmd.main defaultFlags plainWorld) = 0 /\
  option_map (fun rep =>
      (report.AssetsResult.Status (report.Assets (report.Checks rep)),
       report.BuildResult.Status (report.Build (report.Checks rep)),
       report.LighthouseResult.Status (report.Lighthouse (report.Checks rep)),
       report.ScreenshotsResult.Status (report.Screenshots (report.Checks rep)),
       report.VisionResult.Status (report.Vision (report.Checks rep))))
    (cmd.reportFile (cmd.main defaultFlags plainWorld))
    = Some ("PASS", "PASS", "SKIP", "PASS", "SKIP") /\
  overallOf (cmd.main defaultFlags plainWorld) = Some "FAIL".
Proof.
  split; [|repeat split; reflexivity].
  intros f w. unfold overallOf, cmd.main.
  destruct (cmd.dir f =? ""); [discriminate|].
  destruct (Abs w (cmd.dir f)) as [absDir|e]; [|discriminate].
  pose proof (pipeline_failStamped f w absDir
                (cmd.mkProcess (report.NewReport absDir) None) eq_refl) as Hinv.
  destruct (cmd.pipeline f w absDir _) as [[code|[]] p];
    unfold failStamped in Hinv; simpl in *;
    destruct (cmd.serialized p) as [rep|]; simpl; try discriminate;
    rewrite Hinv; discriminate.
Qed.

Lemma CaptureScreenshots_outcome : forall w distDir,
  (exists err details,
     checks.CaptureScreenshots w distDir
       = (report.ScreenshotsResult.mk "FAIL" "" "" details, Some err)) \/
  checks.CaptureScreenshots w distDir
    = (report.ScreenshotsResult.mk "PASS" "screenshots/desktop.png"
         "screenshots/mobile.png" "", None).
Proof.
  intros w distDir.
  unfold checks.CaptureScreenshots, checks.CaptureScreenshots_fs, os_WriteFile.
  destruct (MkdirAll w _) as [e|]; [left; cbn [fst]; eauto|].
  destruct (findAvailablePort w) as [port|e]; [|left; cbn [fst]; eauto].
  destruct (chromedp_Run w Desktop _) as [buf|e]; [|left; cbn [fst]; eauto].
  destruct (WriteFile w _ buf) as [e|]; [left; cbn [fst]; eauto|].
  cbn [setFile chromedp_Run WriteFile AfterFailedWrite].
  destruct (chromedp_Run w Mobile _) as [buf'|e]; [|left; cbn [fst]; eauto].
  destruct (WriteFile w _ buf') as [e|]; [left; cbn [fst]; eauto|].
  right. reflexivity.
Qed.

(** C3 (as amended).  The Screenshots step never halts the pipeline and
    never serializes a report.  When [CaptureScreenshots] returns an error,
    whatever step of it failed, the step records the result with Status
    SKIP and the error text as Details, over the FAIL result the check
    returned with the error; otherwise it records the PASS result.  The
    step never leaves Status FAIL in the report. *)
Theorem check_SCREENSHOTS_never_halts_and_skips_on_error : forall w absDir p,
  exists p',
    cmd.check_SCREENSHOTS w absDir p = (cmd.Continue tt, p') /\
    cmd.serialized p' = cmd.serialized p /\
    report.Screenshots (report.Checks (cmd.r p')) =
      match checks.CaptureScreenshots w absDir with
      | (res, Some err) =>
          report.ScreenshotsResult.mk "SKIP"
            (report.ScreenshotsResult.Desktop res)
            (report.ScreenshotsResult.Mobile res) err
      | (res, None) => res
      end /\
    (forall err, snd (checks.CaptureScreenshots w absDir) = Some err <->
       report.ScreenshotsResult.Status
         (report.Screenshots (report.Checks (cmd.r p'))) = "SKIP" /\
       report.ScreenshotsResult.Details
         (report.Screenshots (report.Checks (cmd.r p'))) = err) /\
    (forall err, snd (checks.CaptureScreenshots w absDir) = Some err ->
       report.ScreenshotsResult.Status (fst (checks.CaptureScreenshots w absDir))
       = "FAIL") /\
    report.ScreenshotsResult.Status
      (report.Screenshots (report.Checks (cmd.r p'))) <> "FAIL".
Proof.
  intros w absDir [rep ser]. unfold cmd.check_SCREENSHOTS.
  destruct (CaptureScreenshots_outcome w absDir)
    as [(err & details & ->) | ->];
    eexists; (split; [reflexivity|]); cbn; repeat split; try discriminate.
  - congruence.
  - intros [_ <-]. reflexivity.
  - intros [H _]. discriminate.
Qed.

(** C3, counterexample.  The browser is there and captures the desktop
    view; the mobile capture then fails.  [CaptureScreenshots] returns a
    FAIL result with the error, and the report of the run records
    Screenshots as SKIP; the run exits with code 0. *)
Lemma capture_failure_is_recorded_as_SKIP :
  chromedp_Run mobileFailsWorld Desktop "http://localhost:40123" = Ok "PNG" /\
  checks.CaptureScreenshots mobileFailsWorld "/site"
    = (report.ScreenshotsResult.mk "FAIL" "" ""
         "Mobile screenshot failed: context deadline exceeded",
       Some "context deadline exceeded") /\
  screenshotsStatusOf (cmd.main defaultFlags mobileFailsWorld) = Some "SKIP" /\
  screenshotsStatusOf (cmd.main defaultFlags mobileFailsWorld) <> Some "FAIL" /\
  cmd.exitCode (cmd.main defaultFlags mobileFailsWorld) = 0.
Proof. repeat split; try reflexivity. vm_compute. discriminate. Qed.

(** * The Vision step *)








(** * The score parser *)

Ltac ascii_cases c := destruct c as [[] [] [] [] [] [] [] []].

Lemma digit_not_space : forall c,
  strconv.isDigit c = true -> checks.reSpace c = false.
Proof. intros c. ascii_cases c; vm_compute; congruence. Qed.

Lemma digit_is_word : forall c, strconv.isDigit c = true -> checks.reWord c = true.
Proof. intros c. ascii_cases c; vm_compute; congruence. Qed.

Lemma skipSpaces_app : forall ws s,
  allSpaces ws = true -> checks.skipSpaces (ws ++ s) = checks.skipSpaces s.
Proof.
  induction ws as [|c ws IH]; intros s H; simpl in *; [reflexivity|].
  apply andb_true_iff in H as [Hc Hws]. rewrite Hc. now apply IH.
Qed.

Lemma skipSpaces_fixed : forall s,
  headIs checks.reSpace s = false -> checks.skipSpaces s = s.
Proof. intros [|c s] H; simpl in *; [reflexivity|]. now rewrite H. Qed.

Lemma skipSpaces_split : forall s,
  exists ws, s = ws ++ checks.skipSpaces s /\ allSpaces ws = true /\
             headIs checks.reSpace (checks.skipSpaces s) = false.
Proof.
  induction s as [|c s (ws & E & Hws & Hh)]; simpl.
  - exists "". auto.
  - destruct (checks.reSpace c) eqn:Hc.
    + exists (String c ws). simpl. rewrite Hc, Hws. repeat split; auto.
      now f_equal.
    + exists "". simpl. now rewrite Hc.
Qed.

Lemma spanDigits_app : forall X s,
  strconv.allDigits X = true -> headIs strconv.isDigit s = false ->
  checks.spanDigits (X ++ s) = (X, s).
Proof.
  induction X as [|c X IH]; intros s HX Hs; simpl in *.
  - destruct s as [|d s]; simpl in *; [reflexivity|]. now rewrite Hs.
  - apply andb_true_iff in HX as [Hc HX]. rewrite Hc. now rewrite IH.
Qed.

Lemma spanDigits_split : forall s digits rest,
  checks.spanDigits s = (digits, rest) ->
  s = digits ++ rest /\ strconv.allDigits digits = true /\
  headIs strconv.isDigit rest = false.
Proof.
  induction s as [|c s IH]; intros digits rest H; simpl in H.
  - injection H as <- <-. auto.
  - destruct (strconv.isDigit c) eqn:Hc.
    + destruct (checks.spanDigits s) as [d r]. injection H as <- <-.
      destruct (IH d r eq_refl) as (E & Hd & Hr).
      simpl. rewrite Hc, Hd. repeat split; auto. now f_equal.
    + injection H as <- <-. simpl. now rewrite Hc.
Qed.

Lemma stripPrefix_spec : forall p s rest,
  checks.stripPrefix p s = Some rest <-> s = p ++ rest.
Proof.
  intros p s rest. unfold checks.stripPrefix. split.
  - destruct (strings.HasPrefix s p) eqn:H; [|discriminate].
    injection 1 as <-. now apply HasPrefix_inv.
  - intros ->. now rewrite HasPrefix_app, drop_app.
Qed.

Lemma headIs_app_space : forall ws s,
  allSpaces ws = true -> headIs strconv.isDigit s = false ->
  headIs strconv.isDigit (ws ++ s) = false.
Proof.
  intros [|d ws] s H Hs; simpl in *; [assumption|].
  apply andb_true_iff in H as [Hd _].
  destruct (strconv.isDigit d) eqn:E; [|reflexivity].
  apply digit_not_space in E. congruence.
Qed.

Lemma headIs_digits : forall X s,
  strconv.allDigits X = true -> X <> "" ->
  headIs checks.reSpace (X ++ s) = false.
Proof.
  intros [|c X] s H Hne; [congruence|]. simpl in *.
  apply andb_true_iff in H as [Hc _]. now apply digit_not_space.
Qed.

(** The matcher at one position agrees with the pattern. *)
Lemma matchOverall_complete : forall ws1 X ws2 ws3 post,
  allSpaces ws1 = true -> allSpaces ws2 = true -> allSpaces ws3 = true ->
  strconv.allDigits X = true -> X <> "" ->
  checks.matchOverall
    ("OVERALL:" ++ ws1 ++ X ++ ws2 ++ "/" ++ ws3 ++ "10" ++ post)
  = Some (X, post).
Proof.
  intros ws1 X ws2 ws3 post H1 H2 H3 HX Hne. unfold checks.matchOverall.
  rewrite (proj2 (stripPrefix_spec "OVERALL:" _ _) eq_refl).
  rewrite (skipSpaces_app _ _ H1).
  rewrite (skipSpaces_fixed _ (headIs_digits _ _ HX Hne)).
  rewrite (spanDigits_app _ _ HX (headIs_app_space ws2 ("/" ++ ws3 ++ "10" ++ post) H2 eq_refl)).
  destruct (X =? "") eqn:E; [apply String.eqb_eq in E; contradiction|].
  rewrite (skipSpaces_app _ _ H2).
  rewrite (skipSpaces_fixed ("/" ++ _) eq_refl).
  rewrite (proj2 (stripPrefix_spec "/" _ _) eq_refl).
  rewrite (skipSpaces_app _ _ H3).
  rewrite (skipSpaces_fixed ("10" ++ _) eq_refl).
  now rewrite (proj2 (stripPrefix_spec "10" _ _) eq_refl).
Qed.

Lemma matchOverall_sound : forall s X rest,
  checks.matchOverall s = Some (X, rest) -> overallAt s "" X.
Proof.
  intros s X rest. unfold checks.matchOverall.
  destruct (checks.stripPrefix "OVERALL:" s) as [s1|] eqn:E1; [|discriminate].
  apply stripPrefix_spec in E1.
  destruct (skipSpaces_split s1) as (ws1 & Es1 & Hws1 & _).
  destruct (checks.spanDigits (checks.skipSpaces s1)) as [digits s2] eqn:Esp.
  apply spanDigits_split in Esp as (Ed & Hd & _).
  destruct (digits =? "") eqn:Hne; [discriminate|].
  destruct (skipSpaces_split s2) as (ws2 & Es2 & Hws2 & _).
  destruct (checks.stripPrefix "/" (checks.skipSpaces s2)) as [s3|] eqn:E3;
    [|discriminate].
  apply stripPrefix_spec in E3.
  destruct (skipSpaces_split s3) as (ws3 & Es3 & Hws3 & _).
  destruct (checks.stripPrefix "10" (checks.skipSpaces s3)) as [rest'|] eqn:E4;
    [|discriminate].
  apply stripPrefix_spec in E4.
  injection 1 as <- <-.
  exists ws1, ws2, ws3, rest'. repeat split; auto.
  - rewrite E1, Es1, Ed, Es2, E3, Es3, E4. reflexivity.
  - intros ->. discriminate.
Qed.

Lemma findOverall_unfold : forall s,
  checks.findOverall s =
  match checks.matchOverall s with
  | Some (digits, rest) =>
      [substring 0 (String.length s - String.length rest) s; digits]
  | None =>
      match s with
      | String _ s' => checks.findOverall s'
      | EmptyString => []
      end
  end.
Proof. intros [|c s]; reflexivity. Qed.

Lemma overallAt_cons : forall c s pre X,
  overallAt s pre X -> overallAt (String c s) (String c pre) X.
Proof.
  intros c s pre X (ws1 & ws2 & ws3 & post & E & H).
  exists ws1, ws2, ws3, post. split; [|exact H]. simpl. now f_equal.
Qed.

Lemma overallAt_cons_inv : forall c d s pre X,
  overallAt (String c s) (String d pre) X -> overallAt s pre X.
Proof.
  intros c d s pre X (ws1 & ws2 & ws3 & post & E & H).
  exists ws1, ws2, ws3, post. split; [|exact H]. simpl in E. now injection E.
Qed.

Lemma overallAt_nil : forall s X,
  overallAt s "" X -> exists rest, checks.matchOverall s = Some (X, rest).
Proof.
  intros s X (ws1 & ws2 & ws3 & post & E & H1 & H2 & H3 & HX & Hne).
  exists post. rewrite E. now apply matchOverall_complete.
Qed.

Lemma overallAt_nonempty : forall pre X, ~ overallAt "" pre X.
Proof.
  intros pre X (ws1 & ws2 & ws3 & post & E & _).
  destruct pre; discriminate.
Qed.

(** [findOverall] finds the leftmost occurrence, or nothing when the
    pattern does not occur. *)
Lemma findOverall_cases : forall s,
  (checks.findOverall s = [] /\ ~ overallOccurs s) \/
  (exists whole X, checks.findOverall s = [whole; X] /\ firstOverall s X).
Proof.
  induction s as [|c s IH]; rewrite findOverall_unfold.
  - destruct (checks.matchOverall "") as [[X rest]|] eqn:Em.
    + apply matchOverall_sound in Em. now apply overallAt_nonempty in Em.
    + left. split; [reflexivity|]. intros (pre & X & H).
      now apply overallAt_nonempty in H.
  - destruct (checks.matchOverall (String c s)) as [[X rest]|] eqn:Em.
    + right. do 2 eexists. split; [reflexivity|].
      exists "". split; [now apply matchOverall_sound in Em|].
      intros; simpl; lia.
    + assert (Hhead : forall X, ~ overallAt (String c s) "" X).
      { intros X H. apply overallAt_nil in H as [rest H]. congruence. }
      destruct IH as [[Hnil Hno] | (whole & X & Hf & pre & Hat & Hmin)].
      * left. split; [assumption|]. intros ([|d pre] & X & H).
        -- now apply Hhead in H.
        -- apply overallAt_cons_inv in H. apply Hno. now exists pre, X.
      * right. exists whole, X. split; [assumption|].
        exists (String c pre). split; [now apply overallAt_cons|].
        intros [|d pre'] X' H.
        -- now apply Hhead in H.
        -- apply overallAt_cons_inv in H. apply Hmin in H. simpl. lia.
Qed.

Lemma firstOverall_unique : forall s X X',
  firstOverall s X -> firstOverall s X' -> X = X'.
Proof.
  induction s as [|c s IH]; intros X X' (pre & Hat & Hmin) (pre' & Hat' & Hmin').
  - now apply overallAt_nonempty in Hat.
  - pose proof (Hmin _ _ Hat') as H1. pose proof (Hmin' _ _ Hat) as H2.
    destruct pre as [|d pre], pre' as [|d' pre']; simpl in H1, H2; try lia.
    + apply overallAt_nil in Hat as [rest E]. apply overallAt_nil in Hat' as [rest' E'].
      congruence.
    + apply overallAt_cons_inv in Hat, Hat'.
      apply (IH X X').
      * exists pre. split; [assumption|]. intros p Y HY.
        apply (overallAt_cons c) in HY. apply Hmin in HY. simpl in HY. lia.
      * exists pre'. split; [assumption|]. intros p Y HY.
        apply (overallAt_cons c) in HY. apply Hmin' in HY. simpl in HY. lia.
Qed.

Lemma digit_value : forall c,
  strconv.isDigit c = true -> 0 <= Z.of_nat (nat_of_ascii c) - 48 <= 9.
Proof.
  intros c H. unfold strconv.isDigit in H. cbv zeta in H.
  apply andb_true_iff in H as [H1 H2].
  apply Nat.leb_le in H1, H2. lia.
Qed.

Lemma digitsValue_nonneg : forall X acc,
  strconv.allDigits X = true -> 0 <= acc -> 0 <= strconv.digitsValue acc X.
Proof.
  induction X as [|c X IH]; intros acc H Hacc;
    cbn [strconv.digitsValue strconv.allDigits] in *; [assumption|].
  apply andb_true_iff in H as [Hc HX]. apply IH; [assumption|].
  pose proof (digit_value c Hc). lia.
Qed.

Lemma Atoi_digits : forall X,
  strconv.allDigits X = true -> X <> "" ->
  (strconv.digitsValue 0 X <= strconv.maxInt ->
   strconv.Atoi X = Ok (strconv.digitsValue 0 X)) /\
  (strconv.maxInt < strconv.digitsValue 0 X -> exists e, strconv.Atoi X = Err e).
Proof.
  intros X HX Hne. pose proof (digitsValue_nonneg X 0 HX ltac:(lia)) as Hpos.
  assert (E : strconv.Atoi X =
              if (strconv.maxInt <? strconv.digitsValue 0 X)%Z
              then Err ("strconv.Atoi: parsing " ++ X ++ ": value out of range")
              else Ok (strconv.digitsValue 0 X)).
  { destruct X as [|c X]; [congruence|].
    assert (Hbody : (String c X =? "") || negb (strconv.allDigits (String c X)) = false)
      by now rewrite HX.
    assert (Hmin : (strconv.digitsValue 0 (String c X) <? strconv.minInt)%Z = false).
    { apply Z.ltb_ge. unfold strconv.minInt. lia. }
    unfold strconv.Atoi.
    simpl in HX. apply andb_true_iff in HX as [Hc _].
    ascii_cases c; try discriminate Hc; rewrite Hbody, Hmin; reflexivity. }
  rewrite E. split; intros H.
  - destruct (Z.ltb_spec strconv.maxInt (strconv.digitsValue 0 X)); [lia|reflexivity].
  - destruct (Z.ltb_spec strconv.maxInt (strconv.digitsValue 0 X)); [eauto|lia].
Qed.

Lemma standalone_Atoi : forall m,
  standaloneNumber m = true -> exists v, strconv.Atoi m = Ok v /\ 1 <= v <= 10.
Proof.
  intros [|c [|d [|e m]]] H; try discriminate.
  - ascii_cases c; try discriminate H;
      (eexists; split; [vm_compute; reflexivity | lia]).
  - ascii_cases c; cbn in H; try discriminate H;
      ascii_cases d; cbn in H; try discriminate H;
      (eexists; split; [vm_compute; reflexivity | lia]).
Qed.

Lemma standalone_shape : forall m,
  standaloneNumber m = true ->
  (exists c, m = String c "" /\
             ((49 <=? nat_of_ascii c) && (nat_of_ascii c <=? 57))%nat = true) \/
  m = "10".
Proof.
  intros [|c [|d [|e m]]] H; try discriminate.
  - left. eauto.
  - right. simpl in H. apply andb_true_iff in H as [Hc Hd].
    apply Nat.eqb_eq in Hc, Hd.
    rewrite <- (ascii_nat_embedding c), <- (ascii_nat_embedding d), Hc, Hd.
    reflexivity.
Qed.

Lemma matchNumber_sound : forall prevWord s m,
  checks.matchNumber prevWord s = Some m ->
  prevWord = false /\ standaloneNumber m = true /\
  exists post, s = m ++ post /\ checks.startsWithWord post = false.
Proof.
  intros prevWord s m. unfold checks.matchNumber.
  destruct prevWord; [discriminate|]. destruct s as [|c s]; [discriminate|].
  cbv zeta.
  destruct (((49 <=? nat_of_ascii c) && (nat_of_ascii c <=? 57))%nat
            && negb (checks.startsWithWord s)) eqn:E1.
  - injection 1 as <-. apply andb_true_iff in E1 as [Hr Hw].
    apply negb_true_iff in Hw. repeat split; auto. now exists s.
  - destruct ((nat_of_ascii c =? 49)%nat && strings.HasPrefix s "0"
              && negb (checks.startsWithWord (drop 1 s))) eqn:E2; [|discriminate].
    injection 1 as <-.
    apply andb_true_iff in E2 as [E2 Hw]. apply andb_true_iff in E2 as [Hc Hp].
    apply negb_true_iff in Hw. apply Nat.eqb_eq in Hc.
    apply HasPrefix_inv in Hp. repeat split; auto.
    exists (drop 1 s). split; [|assumption].
    rewrite <- (ascii_nat_embedding c), Hc. simpl. f_equal. exact Hp.
Qed.

Lemma matchNumber_complete : forall m post,
  standaloneNumber m = true -> checks.startsWithWord post = false ->
  checks.matchNumber false (m ++ post) = Some m.
Proof.
  intros m post Hm Hpost.
  destruct (standalone_shape m Hm) as [(c & -> & Hr) | ->].
  - unfold checks.matchNumber. cbn [append]. cbv zeta. now rewrite Hr, Hpost.
  - simpl. now rewrite Hpost.
Qed.

Lemma findNumber_unfold : forall prevWord s,
  checks.findNumber prevWord s =
  match checks.matchNumber prevWord s with
  | Some m => [m; m]
  | None =>
      match s with
      | String c s' => checks.findNumber (checks.reWord c) s'
      | EmptyString => []
      end
  end.
Proof. intros prevWord [|c s]; reflexivity. Qed.

(** [findNumber] finds a standalone number exactly when one occurs. *)
Lemma findNumber_cases : forall s prevWord,
  (checks.findNumber prevWord s = [] /\ ~ numberOccursAfter prevWord s) \/
  (exists m, checks.findNumber prevWord s = [m; m] /\
             standaloneNumber m = true /\ numberOccursAfter prevWord s).
Proof.
  induction s as [|c s IH]; intros prevWord; rewrite findNumber_unfold;
    destruct (checks.matchNumber prevWord _) as [m|] eqn:Em.
  - right. apply matchNumber_sound in Em as (-> & Hm & post & E & Hp).
    exists m. repeat split; auto. exists "", m, post. auto.
  - left. split; [reflexivity|]. intros (pre & num & post & E & Hn & _).
    destruct pre; [|discriminate]. destruct num; discriminate.
  - right. apply matchNumber_sound in Em as (-> & Hm & post & E & Hp).
    exists m. repeat split; auto. exists "", m, post. auto.
  - destruct (IH (checks.reWord c)) as [[Hnil Hno] | (m & Hf & Hm & Hocc)].
    + left. split; [assumption|].
      intros ([|d pre] & num & post & E & Hn & Hl & Hp).
      * simpl in E, Hl. subst prevWord.
        rewrite E, (matchNumber_complete _ _ Hn Hp) in Em. discriminate.
      * simpl in E, Hl. injection E as <- E. apply Hno.
        now exists pre, num, post.
    + right. exists m. repeat split; auto.
      destruct Hocc as (pre & num & post & E & Hn & Hl & Hp).
      exists (String c pre), num, post. simpl. rewrite E. auto.
Qed.

Lemma parseScore_unfold : forall analysis,
  checks.parseScoreFromAnalysis analysis =
  let matches := checks.findOverall analysis in
  if (len matches >? 1)%Z then
    match strconv.Atoi (nth 1 matches "") with
    | Ok score => score
    | Err _ => fallbackScore analysis
    end
  else fallbackScore analysis.
Proof. reflexivity. Qed.

Lemma fallbackScore_cases : forall analysis,
  (fallbackScore analysis = 0 /\ ~ numberOccurs analysis) \/
  (1 <= fallbackScore analysis <= 10 /\ numberOccurs analysis).
Proof.
  intros analysis. unfold fallbackScore, numberOccurs.
  destruct (findNumber_cases analysis false) as [[-> Hno] | (m & -> & Hm & Hocc)].
  - left. auto.
  - right. destruct (standalone_Atoi m Hm) as (v & Hv & Hrange).
    cbn [nth]. change (len [m; m] >? 1)%Z with true. cbv iota zeta.
    rewrite Hv. auto.
Qed.

Lemma firstOverall_digits : forall analysis X,
  firstOverall analysis X -> strconv.allDigits X = true /\ X <> "".
Proof.
  intros analysis X (pre & (ws1 & ws2 & ws3 & post & _ & _ & _ & _ & HX & Hne) & _).
  auto.
Qed.

Lemma firstOverall_occurs : forall analysis X,
  firstOverall analysis X -> overallOccurs analysis.
Proof. intros analysis X (pre & Hat & _). now exists pre, X. Qed.

Lemma parseScore_first : forall analysis X,
  firstOverall analysis X ->
  checks.parseScoreFromAnalysis analysis =
  if (strconv.digitsValue 0 X <=? strconv.maxInt)%Z
  then strconv.digitsValue 0 X
  else fallbackScore analysis.
Proof.
  intros analysis X Hfirst. rewrite parseScore_unfold.
  destruct (findOverall_cases analysis) as [[_ Hno] | (whole & X' & -> & Hfirst')].
  - elim Hno. now apply firstOverall_occurs with X.
  - rewrite (firstOverall_unique _ _ _ Hfirst' Hfirst).
    cbn [nth]. change (len [whole; X] >? 1)%Z with true. cbv iota zeta.
    destruct (firstOverall_digits _ _ Hfirst) as [HX Hne].
    destruct (Atoi_digits X HX Hne) as [Hok Herr].
    destruct (Z.leb_spec (strconv.digitsValue 0 X) strconv.maxInt) as [Hle|Hgt].
    + now rewrite (Hok Hle).
    + destruct (Herr Hgt) as [e ->]. reflexivity.
Qed.

Lemma parseScore_no_overall : forall analysis,
  ~ overallOccurs analysis ->
  checks.parseScoreFromAnalysis analysis = fallbackScore analysis.
Proof.
  intros analysis Hno. rewrite parseScore_unfold.
  destruct (findOverall_cases analysis) as [[-> _] | (whole & X & _ & Hfirst)].
  - reflexivity.
  - elim Hno. now apply firstOverall_occurs with X.
Qed.

Lemma overallOccurs_first : forall analysis,
  overallOccurs analysis -> exists X, firstOverall analysis X.
Proof.
  intros analysis Hocc.
  destruct (findOverall_cases analysis) as [[_ Hno] | (whole & X & _ & Hfirst)];
    [contradiction | eauto].
Qed.

(** C10 (as amended).  The number [X] of the leftmost [OVERALL: X/10] is
    returned as it is, without clamping, whenever it fits an [int]: 42 for
    ["OVERALL: 42/10"], which [CheckVision] records as the Score.  The
    result is 0 exactly when that number is itself zero, or when no such
    number is usable (the pattern does not occur, or its number exceeds the
    range of [int]) and no standalone number 1-10 occurs either. *)
Theorem parseScoreFromAnalysis_unclamped :
  (forall analysis X,
     firstOverall analysis X /\ strconv.digitsValue 0 X <= strconv.maxInt ->
     checks.parseScoreFromAnalysis analysis = strconv.digitsValue 0 X) /\
  checks.parseScoreFromAnalysis "OVERALL: 42/10" = 42 /\
  checks.CheckVision visionWorld "/baseline" 7
  = Returns (report.VisionResult.mk "PASS" 42 7
               "VISUAL_POLISH: 9/10 OVERALL: 42/10 ANALYSIS: bolder" "",
             None) /\
  (forall analysis,
     checks.parseScoreFromAnalysis analysis = 0 <->
     (exists X, firstOverall analysis X /\ strconv.digitsValue 0 X = 0) \/
     ((~ overallOccurs analysis \/
       exists X, firstOverall analysis X /\
                 strconv.maxInt < strconv.digitsValue 0 X) /\
      ~ numberOccurs analysis)).
Proof.
  split; [|split; [reflexivity|split; [reflexivity|]]].
  - intros analysis X [Hfirst Hle]. rewrite (parseScore_first _ _ Hfirst).
    destruct (Z.leb_spec (strconv.digitsValue 0 X) strconv.maxInt); [reflexivity|lia].
  - intros analysis.
    assert (Hmax : 0 < strconv.maxInt) by reflexivity.
    destruct (findOverall_cases analysis) as [[_ Hno] | (whole & X & _ & Hfirst)].
    + rewrite (parseScore_no_overall _ Hno).
      destruct (fallbackScore_cases analysis) as [[-> Hn] | [Hr Hn]]; split.
      * intros _. right. auto.
      * reflexivity.
      * intros E. lia.
      * intros [(X & Hf & _) | [_ Hn']]; [|contradiction].
        elim Hno. now apply firstOverall_occurs with X.
    + rewrite (parseScore_first _ _ Hfirst).
      pose proof (firstOverall_occurs _ _ Hfirst) as Hocc.
      destruct (Z.leb_spec (strconv.digitsValue 0 X) strconv.maxInt) as [Hle|Hgt].
      * split.
        -- intros E. left. eauto.
        -- intros [(X' & Hf & E) | [[Hno | (X' & Hf & Hbig)] _]].
           ++ now rewrite (firstOverall_unique _ _ _ Hfirst Hf).
           ++ contradiction.
           ++ rewrite <- (firstOverall_unique _ _ _ Hfirst Hf) in Hbig. lia.
      * destruct (fallbackScore_cases analysis) as [[-> Hn] | [Hr Hn]]; split.
        -- intros _. right. split; [right; eauto | assumption].
        -- reflexivity.
        -- intros E. lia.
        -- intros [(X' & Hf & E) | [_ Hn']]; [|contradiction].
           rewrite <- (firstOverall_unique _ _ _ Hfirst Hf) in E. lia.
Qed.

(** C10, counterexample.  On ["OVERALL: 0/10"] both patterns occur and
    the result is 0; and a number beyond the range of [int] is not
    returned: the fallback answers with the [10] that follows the slash. *)
Lemma parseScoreFromAnalysis_zero_with_both_patterns :
  checks.parseScoreFromAnalysis "OVERALL: 0/10" = 0 /\
  overallOccurs "OVERALL: 0/10" /\
  numberOccurs "OVERALL: 0/10" /\
  checks.parseScoreFromAnalysis "OVERALL: 9223372036854775808/10" = 10 /\
  strconv.digitsValue 0 "9223372036854775808" = 9223372036854775808.
Proof.
  split; [reflexivity|]. split; [|split; [|split; reflexivity]].
  - exists "", "0", " ", "", "", "". repeat split. discriminate.
  - exists "OVERALL: 0/", "10", "". repeat split.
Qed.

(** * The repository's tests, replayed on the embedding *)

Example TestFindHTMLFiles :
  checks.findHTMLFiles "/tmp/site"
    (ReadDirOk [File "index.html"; Dir "subdir" (ReadDirOk [File "about.html"])])
  = Ok ["/tmp/site/index.html"; "/tmp/site/subdir/about.html"].
Proof. reflexivity. Qed.

Example TestExtractAssets :
  checks.extract testExtractDoc []
  = ["style.css"; "favicon.ico"; "hero.jpg"; "images/logo.svg"; "app.js";
     "banner.webp"; "banner.jpg"; "banner-fallback.jpg"].
Proof. reflexivity. Qed.

Example TestCheckAssets :
  checks.CheckAssets testMissingWorld "/site"
  = report.AssetsResult.mk "FAIL" 3 ["hero.jpg"] "Missing 1 assets".
Proof. reflexivity. Qed.

Example TestCheckAssetsAllValid :
  checks.CheckAssets testAllValidWorld "/site"
  = report.AssetsResult.mk "PASS" 3 [] "3/3 assets verified".
Proof. reflexivity. Qed.

Example TestCheckBuild :
  checks.CheckBuild testEmptyWorld "/site"
    = report.BuildResult.mk "FAIL" 0 "index.html not found" /\
  checks.CheckBuild plainWorld "/site"
    = report.BuildResult.mk "PASS" 1 "Valid HTML, 1 page(s), meta tags present".
Proof. split; reflexivity. Qed.

Example TestCheckBuildMissingMeta :
  checks.CheckBuild testNoMetaWorld "/site"
  = report.BuildResult.mk "FAIL" 1
      "missing meta description, missing og:title meta tag".
Proof. reflexivity. Qed.

Example filepath_Join_cleans :
  filepath.Join ["/site"; "/css//a.css"] = "/site/css/a.css" /\
  filepath.Join ["/site"; "../x/./y"] = "/x/y" /\
  filepath.Join ["screenshots"; "desktop.png"] = "screenshots/desktop.png".
Proof. repeat split. Qed.

(** The root-relative branch does not clean what it builds, where a path
    join would. *)
Example assetPath_is_plain_concatenation :
  checks.assetPath "/site/" "/x/images/../a.png" = "/site//images/../a.png" /\
  filepath.Join ["/site/"; "/images/../a.png"] = "/site/a.png".
Proof. split; reflexivity. Qed.

(** * Further properties: the tree walker *)

Lemma firstReadError_unfold : forall entries,
  firstReadError (ReadDirOk entries) =
  (fix first (entries : list DirEntry) : option error :=
     match entries with
     | [] => None
     | File _ :: rest => first rest
     | Dir _ sub :: rest =>
         match firstReadError sub with
         | Some err => Some err
         | None => first rest
         end
     end) entries.
Proof. reflexivity. Qed.

Lemma findHTMLFiles_walk : forall d dir,
  checks.findHTMLFiles dir d =
    match firstReadError d with
    | Some err => Err err
    | None => Ok (listingOrder dir d)
    end /\
  (firstReadError d = None <-> readable d = true).
Proof.
  induction d as [err | entries IH] using Listing_nested_ind; intros dir.
  - split; [reflexivity|]. split; discriminate.
  - rewrite findHTMLFiles_unfold, firstReadError_unfold.
    simpl listingOrder. simpl readable.
    match goal with
    | |- ?F entries [] = match ?G entries with _ => _ end /\ _ =>
        enough (H : forall files,
                  F entries files =
                  match G entries with
                  | Some err => Err err
                  | None => Ok (files ++ flat_map
                      (fun entry => match entry with
                         | File name =>
                             if isHTMLName name
                             then [filepath.Join [dir; name]] else []
                         | Dir name sub =>
                             listingOrder (filepath.Join [dir; name]) sub
                         end) entries)%list
                  end /\
                  (G entries = None <->
                   forallb (fun entry => match entry with
                                         | File _ => true
                                         | Dir _ sub => readable sub
                                         end) entries = true))
          by exact (H [])
    end.
    induction entries as [|entry rest IHrest]; intros files.
    + simpl. rewrite app_nil_r. split; [reflexivity|]. split; reflexivity.
    + inversion IH as [|? ? IHentry IHtail]; subst.
      specialize (IHrest IHtail).
      destruct entry as [name | name sub].
      * cbn [Name flat_map forallb andb]. fold (isHTMLName name).
        destruct (isHTMLName name).
        -- destruct (IHrest (files ++ [filepath.Join [dir; name]])%list)
             as [Heq Hiff].
           split; [|exact Hiff]. etransitivity; [exact Heq|].
           now rewrite <- app_assoc.
        -- destruct (IHrest files) as [Heq Hiff]. split; [exact Heq|exact Hiff].
      * cbn [Name flat_map forallb].
        destruct (IHentry (filepath.Join [dir; name])) as [-> Hsub].
        destruct (firstReadError sub) as [err|].
        -- split; [reflexivity|]. split; [discriminate|].
           intros H. apply andb_true_iff in H as [H _].
           apply Hsub in H. discriminate.
        -- destruct (IHrest (files ++ listingOrder (filepath.Join [dir; name]) sub)%list)
             as [Heq Hiff].
           split.
           ++ etransitivity; [exact Heq|]. now rewrite <- app_assoc.
           ++ rewrite (proj1 Hsub eq_refl). exact Hiff.
Qed.

(** X1.  [findHTMLFiles] fails exactly when some directory of the tree
    cannot be read: it then returns the error of the first such directory
    in the order of the walk, and none of the files it had found; when
    every directory can be read it returns the files in listing order. *)
Theorem findHTMLFiles_first_error : forall dir d,
  (readable d = false <-> exists err, checks.findHTMLFiles dir d = Err err) /\
  (forall err, checks.findHTMLFiles dir d = Err err <-> firstReadError d = Some err) /\
  (readable d = true -> checks.findHTMLFiles dir d = Ok (listingOrder dir d)).
Proof.
  intros dir d. destruct (findHTMLFiles_walk d dir) as [E Hiff].
  rewrite E. destruct (firstReadError d) as [err|].
  - assert (Hr : readable d = false).
    { apply not_true_is_false. intros H. apply Hiff in H. discriminate. }
    split; [|split].
    + split; [eauto | intros _; exact Hr].
    + intros err'. split; congruence.
    + rewrite Hr. discriminate.
  - rewrite (proj1 Hiff eq_refl). split; [|split].
    + split; [discriminate | intros [err H]; discriminate].
    + intros err'. split; discriminate.
    + reflexivity.
Qed.

(** * Further properties: the Assets check *)

(** X2.  When the walk over the site directory fails, [CheckAssets]
    returns FAIL with a zero total, no missing list and the error of the
    first unreadable directory in its details. *)
Theorem CheckAssets_walk_error : forall w distDir err,
  firstReadError (distDir_contents w) = Some err ->
  checks.CheckAssets w distDir
  = report.AssetsResult.mk "FAIL" 0 [] ("Error finding HTML files: " ++ err).
Proof.
  intros w distDir err H. unfold checks.CheckAssets.
  destruct (findHTMLFiles_walk (distDir_contents w) distDir) as [-> _].
  now rewrite H.
Qed.

(** X2 on the site with the locked subdirectory. *)
Lemma CheckAssets_walk_error_witness :
  checks.CheckAssets lockedWorld "/site"
  = report.AssetsResult.mk "FAIL" 0 []
      "Error finding HTML files: open /site/private: permission denied".
Proof.
  exact (CheckAssets_walk_error lockedWorld "/site"
           "open /site/private: permission denied" eq_refl).
Defined.

(** X3.  On a readable tree that holds no entry with an HTML name,
    [CheckAssets] returns FAIL with a zero total and the detail
    ["No HTML files found in dist directory"], whatever else the tree
    holds. *)
Theorem CheckAssets_no_documents : forall w distDir,
  readable (distDir_contents w) = true ->
  (forall path, ~ HTMLFileUnder distDir (distDir_contents w) path) ->
  checks.CheckAssets w distDir
  = report.AssetsResult.mk "FAIL" 0 [] "No HTML files found in dist directory".
Proof.
  intros w distDir Hr Hnone. unfold checks.CheckAssets.
  rewrite (findHTMLFiles_listingOrder _ _ Hr).
  destruct (listingOrder distDir (distDir_contents w)) as [|path rest] eqn:E.
  - reflexivity.
  - exfalso. apply (Hnone path). apply listingOrder_HTMLFileUnder.
    rewrite E. now left.
Qed.

Lemma noDocumentWorld_has_no_document : forall path,
  ~ HTMLFileUnder "/site" (distDir_contents noDocumentWorld) path.
Proof.
  intros path H. apply listingOrder_HTMLFileUnder in H. exact H.
Qed.

(** X3 on a site with a style sheet and a text file only. *)
Lemma CheckAssets_no_documents_witness :
  checks.CheckAssets noDocumentWorld "/site"
  = report.AssetsResult.mk "FAIL" 0 [] "No HTML files found in dist directory".
Proof.
  exact (CheckAssets_no_documents noDocumentWorld "/site" eq_refl
           noDocumentWorld_has_no_document).
Defined.

Lemma rangeHTMLFiles_app : forall w distDir before rest refs missing total,
  discovered w distDir before = Ok refs ->
  checks.rangeHTMLFiles w distDir (before ++ rest) (missing, total) =
  checks.rangeHTMLFiles w distDir rest
    ((missing ++ filter (missingOnDisk w distDir) refs)%list, total + len refs).
Proof.
  intros w distDir. induction before as [|htmlFile before IH];
    intros rest refs missing total Hd; simpl in Hd.
  - injection Hd as <-. simpl. rewrite app_nil_r. do 2 f_equal.
    unfold len. simpl List.length. lia.
  - simpl. destruct (checks.extractAssets w htmlFile distDir) as [assets|err];
      [|discriminate].
    destruct (discovered w distDir before) as [more|err]; [|discriminate].
    injection Hd as <-. rewrite fold_checkAsset.
    rewrite (IH rest more _ _ eq_refl), filter_app, len_app, <- app_assoc.
    do 2 f_equal. lia.
Qed.

(** X4.  When a document cannot be read or parsed, [CheckAssets] returns
    at once with FAIL, the name of that document and the error in the
    details, and with a zero total and no missing list: what the documents
    before it yielded, missing references included, is not reported. *)
Theorem CheckAssets_unreadable_document :
  forall w distDir before htmlFile after refs err,
  checks.findHTMLFiles distDir (distDir_contents w)
    = Ok (before ++ htmlFile :: after)%list ->
  discovered w distDir before = Ok refs ->
  checks.extractAssets w htmlFile distDir = Err err ->
  checks.CheckAssets w distDir
  = report.AssetsResult.mk "FAIL" 0 []
      ("Error parsing " ++ htmlFile ++ ": " ++ err).
Proof.
  intros w distDir before htmlFile after refs err Hfind Hd Herr.
  unfold checks.CheckAssets. rewrite Hfind.
  destruct (len (before ++ htmlFile :: after) =? 0)%Z eqn:Hz.
  - apply len_zero in Hz. destruct before; discriminate.
  - rewrite (rangeHTMLFiles_app _ _ _ _ _ _ _ Hd). simpl. now rewrite Herr.
Qed.

(** X4 on a site whose first document misses an image twice and whose
    second document cannot be opened. *)
Lemma CheckAssets_unreadable_document_witness :
  filter (missingOnDisk halfReadableWorld "/site")
         ["style.css"; "/images/foo.jpg"; "/images/foo.jpg"]
    = ["/images/foo.jpg"; "/images/foo.jpg"] /\
  checks.CheckAssets halfReadableWorld "/site"
  = report.AssetsResult.mk "FAIL" 0 []
      "Error parsing /site/b.html: open /site/b.html: no such file or directory".
Proof.
  split; [reflexivity|].
  exact (CheckAssets_unreadable_document halfReadableWorld "/site"
           ["/site/a.html"] "/site/b.html" []
           ["style.css"; "/images/foo.jpg"; "/images/foo.jpg"]
           "open /site/b.html: no such file or directory"
           eq_refl eq_refl eq_refl).
Defined.

(** X5.  Every result of [CheckAssets] has a total that is not negative
    and not below the number of missing references; PASS comes with an
    empty missing list; and FAIL with an empty missing list comes with a
    zero total (the failure is then about the documents, not about a
    reference). *)
Theorem CheckAssets_result_invariants : forall w distDir,
  0 <= len (report.AssetsResult.Missing (checks.CheckAssets w distDir))
    <= report.AssetsResult.Total (checks.CheckAssets w distDir) /\
  (report.AssetsResult.Status (checks.CheckAssets w distDir) = "PASS" /\
   report.AssetsResult.Missing (checks.CheckAssets w distDir) = [] \/
   report.AssetsResult.Status (checks.CheckAssets w distDir) = "FAIL" /\
   (report.AssetsResult.Missing (checks.CheckAssets w distDir) = [] /\
    report.AssetsResult.Total (checks.CheckAssets w distDir) = 0 \/
    report.AssetsResult.Missing (checks.CheckAssets w distDir) <> [])).
Proof.
  intros w distDir.
  destruct (checks.findHTMLFiles distDir (distDir_contents w))
    as [htmlFiles|err] eqn:Hfind.
  2:{ unfold checks.CheckAssets. rewrite Hfind. cbn. split; [lia|]. right. auto. }
  destruct htmlFiles as [|htmlFile rest].
  { unfold checks.CheckAssets. rewrite Hfind. cbn. split; [lia|]. right. auto. }
  destruct (discovered w distDir (htmlFile :: rest)) as [refs|err] eqn:Hd.
  2:{ unfold checks.CheckAssets. rewrite Hfind.
      destruct (rangeHTMLFiles_error _ _ _ _ ([], 0) Hd) as [details ->].
      cbn. split; [lia|]. right. auto. }
  rewrite (CheckAssets_scanned _ _ _ _ Hfind ltac:(discriminate) Hd).
  pose proof (filter_length_le (missingOnDisk w distDir) refs) as Hle.
  destruct (len (filter (missingOnDisk w distDir) refs) >? 0)%Z eqn:Hm; cbn.
  - split; [unfold len; lia|]. right. split; [reflexivity|]. right.
    now apply len_pos.
  - split; [unfold len; lia|]. left. split; [reflexivity|].
    destruct (filter (missingOnDisk w distDir) refs); [reflexivity|].
    discriminate.
Qed.

(** * Further properties: the extractor *)

Lemma fold_left_appends : forall (A : Type) (f : list string -> A -> list string)
    (g : A -> list string),
  (forall acc x, f acc x = (acc ++ g x)%list) ->
  forall l acc, fold_left f l acc = (acc ++ flat_map g l)%list.
Proof.
  intros A f g Hf. induction l as [|x l IH]; intros acc; simpl.
  - now rewrite app_nil_r.
  - now rewrite IH, Hf, <- app_assoc.
Qed.

Lemma flat_map_filter : forall (A : Type) (c : A -> bool) (v : A -> string) l,
  flat_map (fun a => if c a then [v a] else []) l = map v (filter c l).
Proof.
  intros A c v. induction l as [|a l IH]; simpl; [reflexivity|].
  destruct (c a); simpl; now rewrite IH.
Qed.

Lemma relLoop_spec : forall attrs href assets,
  checks.relLoop attrs href assets
  = (assets ++ if existsb isAssetRel attrs then [href] else [])%list.
Proof.
  induction attrs as [|a attrs IH]; intros href assets; simpl.
  - now rewrite app_nil_r.
  - fold (isAssetRel a). destruct (isAssetRel a); simpl; [reflexivity|apply IH].
Qed.

Lemma srcsetPart_spec : forall assets part,
  checks.srcsetPart assets part
  = (assets ++ if negb (candidateURL part =? "") then [candidateURL part] else [])%list.
Proof.
  intros assets part. unfold checks.srcsetPart. fold (candidateURL part).
  destruct (negb (candidateURL part =? "")); [reflexivity|now rewrite app_nil_r].
Qed.

Lemma extractNode_nodeRefs : forall type data attrs assets,
  checks.extractNode type data attrs assets
  = (assets ++ nodeRefs type data attrs)%list.
Proof.
  intros type data attrs assets. unfold checks.extractNode, nodeRefs.
  destruct (html.isElement type); [|now rewrite app_nil_r].
  destruct (data =? "img").
  { rewrite <- flat_map_filter. apply fold_left_appends.
    intros acc a. destruct (_ && _); [reflexivity|now rewrite app_nil_r]. }
  destruct (data =? "link").
  { rewrite (fold_left_appends _ _
       (fun a => if (html.Key a =? "href") && negb (html.Val a =? "")
                 then (if existsb isAssetRel attrs then [html.Val a] else [])
                 else [])).
    - f_equal. destruct (existsb isAssetRel attrs).
      + apply flat_map_filter.
      + clear. induction attrs as [|a l IH]; simpl; [reflexivity|].
        rewrite IH. now destruct (_ && _).
    - intros acc a. destruct (_ && _); [apply relLoop_spec|now rewrite app_nil_r]. }
  destruct (data =? "script").
  { rewrite <- flat_map_filter. apply fold_left_appends.
    intros acc a. destruct (_ && _); [reflexivity|now rewrite app_nil_r]. }
  destruct (data =? "source"); [|now rewrite app_nil_r].
  apply fold_left_appends. intros acc a.
  destruct (_ && _); [|now rewrite app_nil_r].
  rewrite (fold_left_appends _ _
     (fun part => if negb (candidateURL part =? "") then [candidateURL part] else []));
    [|apply srcsetPart_spec].
  f_equal. generalize (strings.Split (html.Val a) ","%char). clear.
  induction l as [|part l IH]; simpl; [reflexivity|].
  rewrite IH. now destruct (negb (candidateURL part =? "")).
Qed.

Lemma extract_refs : forall n assets,
  checks.extract n assets = (assets ++ refs n)%list.
Proof.
  induction n as [type data attrs children IH] using Node_nested_ind.
  intros assets. cbn [checks.extract refs].
  rewrite app_assoc, <- extractNode_nodeRefs.
  generalize (checks.extractNode type data attrs assets) as acc.
  induction children as [|c cs IHcs]; intros acc; simpl.
  - now rewrite app_nil_r.
  - inversion IH as [|? ? Hc Hcs]; subst.
    rewrite Hc, (IHcs Hcs), <- app_assoc. reflexivity.
Qed.

(** X6.  [extract] appends to the references it is given, and what it
    appends depends on the tree alone, so references found earlier are
    never dropped, changed or reordered.  The references of a tree are
    those of its root, by the four element rules, followed by those of its
    children from first to last: document order. *)
Theorem extract_document_order :
  (forall n assets,
     checks.extract n assets = (assets ++ checks.extract n [])%list) /\
  (forall type data attrs children,
     checks.extract (html.mkNode type data attrs children) []
     = (nodeRefs type data attrs
        ++ flat_map (fun c => checks.extract c []) children)%list).
Proof.
  split.
  - intros n assets. now rewrite (extract_refs n []), extract_refs.
  - intros type data attrs children. rewrite extract_refs. cbn [refs app].
    f_equal. apply flat_map_ext. intros c. now rewrite extract_refs.
Qed.

Lemma nodeRefs_nonempty : forall type data attrs,
  Forall (fun ref => ref <> "") (nodeRefs type data attrs).
Proof.
  intros type data attrs. unfold nodeRefs.
  assert (Hmap : forall c : html.Attribute -> bool,
            (forall a, c a = true -> html.Val a <> "") ->
            Forall (fun ref => ref <> "") (map html.Val (filter c attrs))).
  { intros c Hc. apply Forall_forall. intros ref Hin.
    apply in_map_iff in Hin as (a & <- & Ha). apply filter_In in Ha as [_ Ha].
    now apply Hc. }
  assert (Hval : forall v (b : bool), negb (v =? "") && b = true -> v <> "").
  { intros v b H ->. discriminate. }
  destruct (html.isElement type); [|constructor].
  destruct (data =? "img").
  { apply Hmap. intros a Ha. apply andb_true_iff in Ha as [Ha _].
    apply andb_true_iff in Ha as [_ Ha]. intros E. rewrite E in Ha. discriminate. }
  destruct (data =? "link").
  { destruct (existsb isAssetRel attrs); [|constructor].
    apply Hmap. intros a Ha. apply andb_true_iff in Ha as [_ Ha].
    intros E. rewrite E in Ha. discriminate. }
  destruct (data =? "script").
  { apply Hmap. intros a Ha. apply andb_true_iff in Ha as [_ Ha].
    intros E. rewrite E in Ha. discriminate. }
  destruct (data =? "source"); [|constructor].
  apply Forall_forall. intros ref Hin. apply in_flat_map in Hin as (a & _ & Hin).
  destruct (_ && _); [|contradiction].
  apply filter_In in Hin as [_ Hin]. intros E. rewrite E in Hin. discriminate.
Qed.

(** X7.  No reference the extractor yields is the empty string. *)
Theorem extract_yields_no_empty_reference : forall n,
  Forall (fun ref => ref <> "") (checks.extract n []).
Proof.
  intros n. rewrite extract_refs. simpl.
  induction n as [type data attrs children IH] using Node_nested_ind.
  cbn [refs]. apply Forall_app. split; [apply nodeRefs_nonempty|].
  apply Forall_forall. intros ref Hin. apply in_flat_map in Hin as (c & Hc & Hin).
  rewrite Forall_forall in IH. specialize (IH c Hc).
  rewrite Forall_forall in IH. now apply IH.
Qed.

(** X8.  A [link] element none of whose [rel] attributes is exactly
    [stylesheet], [icon] or [shortcut] contributes no reference, whatever
    its [href]: [rel="shortcut icon"], [rel="preload"] and the like are not
    checked. *)
Theorem link_without_asset_rel_is_skipped : forall attrs assets,
  (forall a, In a attrs -> html.Key a = "rel" ->
             html.Val a <> "stylesheet" /\ html.Val a <> "icon"
             /\ html.Val a <> "shortcut") ->
  checks.extractNode html.ElementNode "link" attrs assets = assets.
Proof.
  intros attrs assets H. rewrite extractNode_nodeRefs. unfold nodeRefs.
  cbn [html.isElement]. change ("link" =? "img") with false.
  change ("link" =? "link") with true. cbv iota.
  assert (E : existsb isAssetRel attrs = false).
  { apply not_true_is_false. intros Hex.
    apply existsb_exists in Hex as (a & Hin & Ha). unfold isAssetRel in Ha.
    apply andb_true_iff in Ha as [Hk Hv]. apply String.eqb_eq in Hk.
    destruct (H a Hin Hk) as (H1 & H2 & H3).
    apply orb_true_iff in Hv as [Hv | Hv].
    - apply orb_true_iff in Hv as [Hv | Hv]; apply String.eqb_eq in Hv; contradiction.
    - apply String.eqb_eq in Hv. contradiction. }
  rewrite E. apply app_nil_r.
Qed.

(** X8 on the usual form of a favicon link. *)
Lemma link_without_asset_rel_is_skipped_witness :
  checks.extractNode html.ElementNode "link"
    [html.mkAttr "rel" "shortcut icon"; html.mkAttr "href" "/favicon.ico"] []
  = [].
Proof.
  apply link_without_asset_rel_is_skipped.
  intros a [<- | [<- | []]] Hk; simpl in *; try discriminate.
  repeat split; discriminate.
Defined.

Lemma Split_app_sep : forall a b sep,
  strings.Split (a ++ String sep b) sep
  = (strings.Split a sep ++ strings.Split b sep)%list.
Proof.
  induction a as [|c a IH]; intros b sep; simpl.
  - now rewrite Ascii.eqb_refl.
  - rewrite IH. destruct (Ascii.eqb c sep); [reflexivity|].
    destruct (strings.Split a sep) as [|piece pieces] eqn:E.
    + now apply Split_nonempty in E.
    + reflexivity.
Qed.

Lemma Split_without_sep : forall s sep,
  noneOf (fun b => Ascii.eqb b sep) s = true -> strings.Split s sep = [s].
Proof.
  induction s as [|c s IH]; intros sep H; simpl in *; [reflexivity|].
  apply andb_true_iff in H as [Hc Hs]. apply negb_true_iff in Hc.
  now rewrite Hc, (IH _ Hs).
Qed.

Lemma noneOf_app : forall P a b,
  noneOf P (a ++ b) = noneOf P a && noneOf P b.
Proof.
  intros P. induction a as [|c a IH]; intros b; simpl; [reflexivity|].
  now rewrite IH, andb_assoc.
Qed.

Lemma noneOf_weaken : forall (P Q : ascii -> bool) s,
  (forall c, Q c = true -> P c = true) ->
  noneOf P s = true -> noneOf Q s = true.
Proof.
  intros P Q s HPQ. induction s as [|c s IH]; simpl; [reflexivity|].
  intros H. apply andb_true_iff in H as [Hc Hs].
  rewrite (IH Hs), andb_true_r. apply negb_true_iff in Hc.
  apply negb_true_iff. destruct (Q c) eqn:E; [|reflexivity].
  apply HPQ in E. congruence.
Qed.

Lemma IsSpace_In : forall rune,
  strings.IsSpace rune = true -> In rune strings.White_Space.
Proof.
  intros rune H. unfold strings.IsSpace in H.
  apply existsb_exists in H as (ws & Hin & E).
  apply String.eqb_eq in E. now subst ws.
Qed.

Lemma trimmed_spec : forall s rune,
  trimmed s = true -> In rune strings.White_Space ->
  strings.HasPrefix s rune = false /\ strings.HasSuffix s rune = false.
Proof.
  intros s rune H Hin. unfold trimmed in H.
  rewrite forallb_forall in H. specialize (H rune Hin).
  apply andb_true_iff in H as [H1 H2].
  now apply negb_true_iff in H1, H2.
Qed.

Lemma leading_rune : forall s rune rest,
  trimmed s = true -> strings.IsSpace rune = true -> s <> rune ++ rest.
Proof.
  intros s rune rest Ht Hr ->.
  destruct (trimmed_spec _ rune Ht (IsSpace_In _ Hr)) as [H _].
  now rewrite HasPrefix_app in H.
Qed.

Lemma trailing_rune : forall s rune stem,
  trimmed s = true -> strings.IsSpace rune = true -> s <> stem ++ rune.
Proof.
  intros s rune stem Ht Hr E.
  destruct (trimmed_spec _ rune Ht (IsSpace_In _ Hr)) as [_ H].
  assert (Hs : strings.HasSuffix s rune = true)
    by (apply HasSuffix_spec; now exists stem).
  congruence.
Qed.

Lemma TrimLeft_fixed : forall s, trimmed s = true -> strings.TrimLeft s = s.
Proof.
  intros s Ht. destruct s as [|c1 s1]; [reflexivity|].
  cbn [strings.TrimLeft].
  destruct (strings.IsSpace (String c1 "")) eqn:E1.
  { now elim (leading_rune _ (String c1 "") s1 Ht E1). }
  destruct s1 as [|c2 s2]; [reflexivity|].
  destruct (strings.IsSpace (String c1 (String c2 ""))) eqn:E2.
  { now elim (leading_rune _ (String c1 (String c2 "")) s2 Ht E2). }
  destruct s2 as [|c3 s3]; [reflexivity|].
  destruct (strings.IsSpace (String c1 (String c2 (String c3 "")))) eqn:E3.
  { now elim (leading_rune _ (String c1 (String c2 (String c3 ""))) s3 Ht E3). }
  reflexivity.
Qed.

Lemma reverse_eq : forall s r, reverse s = r -> s = reverse r.
Proof. intros s r <-. now rewrite reverse_involutive. Qed.

Lemma TrimRight_fixed : forall s, trimmed s = true -> strings.TrimRight s = s.
Proof.
  intros s Ht. unfold strings.TrimRight.
  enough (H : strings.trimReversed (reverse s) = reverse s)
    by (now rewrite H, reverse_involutive).
  destruct (reverse s) as [|c3 s1] eqn:Er; [reflexivity|].
  cbn [strings.trimReversed].
  destruct (strings.IsSpace (String c3 "")) eqn:E1.
  { apply reverse_eq in Er. simpl in Er.
    now elim (trailing_rune _ _ (reverse s1) Ht E1). }
  destruct s1 as [|c2 s2]; [reflexivity|].
  destruct (strings.IsSpace (String c2 (String c3 ""))) eqn:E2.
  { apply reverse_eq in Er. simpl in Er. rewrite append_assoc in Er.
    now elim (trailing_rune _ _ (reverse s2) Ht E2). }
  destruct s2 as [|c1 s3]; [reflexivity|].
  destruct (strings.IsSpace (String c1 (String c2 (String c3 "")))) eqn:E3.
  { apply reverse_eq in Er. simpl in Er. rewrite !append_assoc in Er.
    now elim (trailing_rune _ _ (reverse s3) Ht E3). }
  reflexivity.
Qed.

Lemma TrimSpace_fixed : forall s, trimmed s = true -> strings.TrimSpace s = s.
Proof.
  intros s Ht. unfold strings.TrimSpace.
  rewrite (TrimLeft_fixed _ Ht). now apply TrimRight_fixed.
Qed.

Lemma wfCandidate_spec : forall url desc,
  wfCandidate (url, desc) = true ->
  url <> "" /\
  noneOf (fun b => Ascii.eqb b " "%char || Ascii.eqb b ","%char) url = true /\
  trimmed url = true /\
  noneOf (fun b => Ascii.eqb b ","%char) desc = true.
Proof.
  intros url desc H. unfold wfCandidate in H. cbn [fst snd] in H.
  apply andb_true_iff in H as [H Hd]. apply andb_true_iff in H as [H Ht].
  apply andb_true_iff in H as [Hne Hu]. apply negb_true_iff in Hne.
  repeat split; auto. intros ->. discriminate.
Qed.

Lemma candidateURL_wf : forall c,
  wfCandidate c = true -> candidateURL (candidateText c) = fst c.
Proof.
  intros [url desc] H. apply wfCandidate_spec in H as (_ & Hu & Ht & _).
  unfold candidateURL, candidateText. cbn [fst snd].
  change (url ++ " " ++ desc) with (url ++ String " " desc).
  rewrite Split_app_sep.
  rewrite (Split_without_sep url " ").
  - cbn [app nth]. now apply TrimSpace_fixed.
  - revert Hu. apply noneOf_weaken. intros c ->. reflexivity.
Qed.

Lemma candidateText_no_comma : forall c,
  wfCandidate c = true ->
  noneOf (fun b => Ascii.eqb b ","%char) (candidateText c) = true.
Proof.
  intros [url desc] H. apply wfCandidate_spec in H as (_ & Hu & _ & Hd).
  unfold candidateText. cbn [fst snd].
  rewrite noneOf_app, noneOf_app. simpl. rewrite Hd, andb_true_r.
  revert Hu. apply noneOf_weaken. intros c ->. apply orb_true_r.
Qed.

Lemma Split_formatSrcset : forall c candidates,
  forallb wfCandidate (c :: candidates) = true ->
  strings.Split (strings.Join (map candidateText (c :: candidates)) ",") ","%char
  = map candidateText (c :: candidates).
Proof.
  intros c candidates. revert c.
  induction candidates as [|c' rest IH]; intros c H.
  - simpl in *. rewrite andb_true_r in H.
    apply Split_without_sep. now apply candidateText_no_comma.
  - cbn [forallb] in H. apply andb_true_iff in H as [Hc Hrest].
    change (strings.Join (map candidateText (c :: c' :: rest)) ",")
      with (candidateText c
            ++ String "," (strings.Join (map candidateText (c' :: rest)) ",")).
    rewrite Split_app_sep, (IH c' Hrest).
    rewrite (Split_without_sep _ _ (candidateText_no_comma c Hc)).
    reflexivity.
Qed.

(** X9.  From a [srcset] written the compact way (candidates
    [url descriptor] joined by commas, no space after a comma) the
    extractor yields the URL of every candidate, in order. *)
Theorem extract_compact_srcset : forall candidates assets,
  forallb wfCandidate candidates = true ->
  checks.extractNode html.ElementNode "source"
    [html.mkAttr "srcset" (formatSrcset candidates)] assets
  = (assets ++ map fst candidates)%list.
Proof.
  intros candidates assets H. rewrite extractNode_nodeRefs. f_equal.
  unfold nodeRefs. cbn [html.isElement]. change ("source" =? "img") with false.
  change ("source" =? "link") with false. change ("source" =? "script") with false.
  change ("source" =? "source") with true. cbv iota.
  cbn [flat_map html.Key html.Val]. change ("srcset" =? "srcset") with true.
  rewrite app_nil_r. unfold formatSrcset.
  destruct candidates as [|c rest]; [reflexivity|].
  rewrite (Split_formatSrcset _ _ H).
  assert (Hne : (strings.Join (map candidateText (c :: rest)) "," =? "") = false).
  { destruct c as [[|b url] desc]; [discriminate H|].
    destruct rest; reflexivity. }
  rewrite Hne. cbn [negb andb].
  revert H. generalize (c :: rest). clear.
  induction l as [|c l IH]; intros H; [reflexivity|].
  cbn [forallb] in H. apply andb_true_iff in H as [Hc Hl].
  cbn [map filter]. rewrite (candidateURL_wf c Hc).
  assert (Hu : (fst c =? "") = false).
  { destruct c as [url desc]. apply wfCandidate_spec in Hc as (Hne & _).
    now apply String.eqb_neq. }
  rewrite Hu. cbn [negb]. f_equal. now apply IH.
Qed.

(** X9 on two candidates with width descriptors. *)
Lemma extract_compact_srcset_witness :
  formatSrcset [("small.webp", "480w"); ("large.webp", "1080w")]
    = "small.webp 480w,large.webp 1080w" /\
  checks.extractNode html.ElementNode "source"
    [html.mkAttr "srcset" "small.webp 480w,large.webp 1080w"] ["style.css"]
  = ["style.css"; "small.webp"; "large.webp"].
Proof.
  split; [reflexivity|].
  exact (extract_compact_srcset
           [("small.webp", "480w"); ("large.webp", "1080w")] ["style.css"] eq_refl).
Defined.

(** * Further properties: the resolver *)

Lemma cleanElems_skips_empty : forall rooted l1 l2 out,
  filepath.cleanElems rooted (l1 ++ "" :: l2)%list out
  = filepath.cleanElems rooted (l1 ++ l2)%list out.
Proof.
  intros rooted. induction l1 as [|e l1 IH]; intros l2 out; [reflexivity|].
  cbn [app filepath.cleanElems].
  destruct ((e =? "") || (e =? ".")); [apply IH|].
  destruct (e =? ".."); [|apply IH].
  destruct out as [|top out']; [destruct rooted; apply IH|].
  destruct (top =? ".."); apply IH.
Qed.

Lemma Clean_double_slash : forall d s,
  d <> "" ->
  filepath.Clean (d ++ "/" ++ String "/" s) = filepath.Clean (d ++ "/" ++ s).
Proof.
  intros [|c d] s Hd; [congruence|]. unfold filepath.Clean.
  change ((String c d ++ "/" ++ String "/" s) =? "") with false.
  change ((String c d ++ "/" ++ s) =? "") with false. cbv iota.
  change (strings.HasPrefix (String c d ++ "/" ++ String "/" s) "/")
    with (strings.HasPrefix (String c d ++ "/" ++ s) "/").
  change (String c d ++ "/" ++ String "/" s)
    with (String c d ++ String "/" (String "/" s)).
  change (String c d ++ "/" ++ s) with (String c d ++ String "/" s).
  rewrite !Split_app_sep.
  change (strings.Split (String "/" s) "/") with ("" :: strings.Split s "/").
  now rewrite cleanElems_skips_empty.
Qed.

(** X10.  A reference [./x] resolves to the path-join of the site root and
    [x]; when [x] is itself a bare relative reference, [./x] and [x]
    resolve to the same path. *)
Theorem assetPath_dot_slash : forall distDir rest,
  distDir <> "" ->
  checks.assetPath distDir ("./" ++ rest) = filepath.Join [distDir; rest] /\
  (strings.HasPrefix rest "/" = false -> strings.HasPrefix rest "./" = false ->
   checks.assetPath distDir ("./" ++ rest) = checks.assetPath distDir rest).
Proof.
  intros distDir rest Hd.
  assert (E : checks.assetPath distDir ("./" ++ rest) = filepath.Join [distDir; rest]).
  { unfold checks.assetPath.
    change (strings.HasPrefix ("./" ++ rest) "/") with false.
    change (strings.HasPrefix ("./" ++ rest) "./") with true. cbv iota.
    change (drop 1 ("./" ++ rest)) with (String "/" rest).
    unfold filepath.Join.
    destruct (distDir =? "") eqn:Ed; [apply String.eqb_eq in Ed; contradiction|].
    cbn [strings.Join]. now apply Clean_double_slash. }
  split; [exact E|].
  intros H1 H2. rewrite E. unfold checks.assetPath. now rewrite H1, H2.
Qed.

(** X10 on a style sheet. *)
Lemma assetPath_dot_slash_witness :
  checks.assetPath "/site" "./css/a.css" = "/site/css/a.css" /\
  checks.assetPath "/site" "./css/a.css" = checks.assetPath "/site" "css/a.css".
Proof.
  destruct (assetPath_dot_slash "/site" "css/a.css" ltac:(discriminate))
    as [H1 H2].
  split; [exact H1 | exact (H2 eq_refl eq_refl)].
Defined.

(** * Further properties: the Build check *)

Lemma fold_metaAttr : forall attrs name prop content,
  fold_left checks.metaAttr attrs (name, prop, content)
  = (fold_left (fun v a => if html.Key a =? "name" then html.Val a else v) attrs name,
     fold_left (fun v a => if html.Key a =? "property" then html.Val a else v) attrs prop,
     fold_left (fun v a => if html.Key a =? "content" then html.Val a else v) attrs content).
Proof.
  induction attrs as [|a attrs IH]; intros name prop content; [reflexivity|].
  cbn [fold_left]. unfold checks.metaAttr at 2. apply IH.
Qed.

Lemma checkNode_spec : forall type data attrs st,
  checks.checkNode type data attrs st =
  checks.mkStructure
    (checks.hasHTML st || (html.isElement type && isTag "html" data attrs))
    (checks.hasHead st || (html.isElement type && isTag "head" data attrs))
    (checks.hasBody st || (html.isElement type && isTag "body" data attrs))
    (checks.hasTitle st || (html.isElement type && isTag "title" data attrs))
    (checks.hasDescription st
     || (html.isElement type && isMetaWith "name" "description" data attrs))
    (checks.hasOgTitle st
     || (html.isElement type && isMetaWith "property" "og:title" data attrs)).
Proof.
  intros type data attrs [h hd b t d og].
  unfold checks.checkNode, isTag, isMetaWith, attrVal.
  cbn [checks.hasHTML checks.hasHead checks.hasBody checks.hasTitle
       checks.hasDescription checks.hasOgTitle].
  destruct (html.isElement type); cbn [andb];
    [|now rewrite !orb_false_r].
  destruct (String.eqb_spec data "html") as [->|_];
    [cbn; now rewrite !orb_false_r, orb_true_r|].
  destruct (String.eqb_spec data "head") as [->|_];
    [cbn; now rewrite !orb_false_r, orb_true_r|].
  destruct (String.eqb_spec data "body") as [->|_];
    [cbn; now rewrite !orb_false_r, orb_true_r|].
  destruct (String.eqb_spec data "title") as [->|_];
    [cbn; now rewrite !orb_false_r, orb_true_r|].
  destruct (String.eqb_spec data "meta") as [->|_];
    [|cbn; now rewrite !orb_false_r].
  rewrite fold_metaAttr. cbn [andb]. rewrite !orb_false_r.
  destruct (_ && _), (_ && _); now rewrite ?orb_true_r, ?orb_false_r.
Qed.

Lemma check_anyElement : forall n st,
  checks.check n st =
  checks.mkStructure
    (checks.hasHTML st || anyElement (isTag "html") n)
    (checks.hasHead st || anyElement (isTag "head") n)
    (checks.hasBody st || anyElement (isTag "body") n)
    (checks.hasTitle st || anyElement (isTag "title") n)
    (checks.hasDescription st || anyElement (isMetaWith "name" "description") n)
    (checks.hasOgTitle st || anyElement (isMetaWith "property" "og:title") n).
Proof.
  induction n as [type data attrs children IH] using Node_nested_ind.
  intros st. cbn [checks.check anyElement]. rewrite checkNode_spec.
  generalize (html.isElement type && isTag "html" data attrs)
             (html.isElement type && isTag "head" data attrs)
             (html.isElement type && isTag "body" data attrs)
             (html.isElement type && isTag "title" data attrs)
             (html.isElement type && isMetaWith "name" "description" data attrs)
             (html.isElement type && isMetaWith "property" "og:title" data attrs).
  destruct st as [h hd b t d og].
  cbn [checks.hasHTML checks.hasHead checks.hasBody checks.hasTitle
       checks.hasDescription checks.hasOgTitle].
  revert h hd b t d og.
  induction children as [|c cs IHcs]; intros h hd b t d og n1 n2 n3 n4 n5 n6.
  - cbn. now rewrite !orb_false_r.
  - inversion IH as [|? ? Hc Hcs]; subst.
    cbn [fold_left existsb]. rewrite Hc.
    cbn [checks.hasHTML checks.hasHead checks.hasBody checks.hasTitle
         checks.hasDescription checks.hasOgTitle].
    rewrite <- !orb_assoc.
    rewrite (IHcs Hcs). f_equal; now rewrite <- !orb_assoc.
Qed.

Lemma check_nothingSeen : forall doc,
  checks.check doc nothingSeen =
  checks.mkStructure
    (anyElement (isTag "html") doc) (anyElement (isTag "head") doc)
    (anyElement (isTag "body") doc) (anyElement (isTag "title") doc)
    (anyElement (isMetaWith "name" "description") doc)
    (anyElement (isMetaWith "property" "og:title") doc).
Proof. intros doc. now rewrite check_anyElement. Qed.

(** X11.  The walk of the Build check sets a flag when the element is
    found anywhere in the tree, in any order and at any depth, and never
    clears one: [html], [head], [body] and [title] by their tag alone, the
    description and the og:title by a [meta] whose last [name] (or
    [property]) attribute has the value and whose last [content] attribute
    is not empty. *)
Theorem check_finds_elements_anywhere : forall doc st,
  checks.hasHTML (checks.check doc st)
    = checks.hasHTML st || anyElement (isTag "html") doc /\
  checks.hasHead (checks.check doc st)
    = checks.hasHead st || anyElement (isTag "head") doc /\
  checks.hasBody (checks.check doc st)
    = checks.hasBody st || anyElement (isTag "body") doc /\
  checks.hasTitle (checks.check doc st)
    = checks.hasTitle st || anyElement (isTag "title") doc /\
  checks.hasDescription (checks.check doc st)
    = checks.hasDescription st
      || anyElement (isMetaWith "name" "description") doc /\
  checks.hasOgTitle (checks.check doc st)
    = checks.hasOgTitle st
      || anyElement (isMetaWith "property" "og:title") doc.
Proof. intros doc st. rewrite check_anyElement. cbn. auto 10. Qed.

Lemma structureErrors_missingElements : forall st,
  checks.structureErrors st = missingElements st.
Proof. intros [[] [] [] [] [] []]; reflexivity. Qed.

Lemma missingElements_nil : forall st, missingElements st = [] <-> st = allSeen.
Proof.
  intros [[] [] [] [] [] []]; split; intros H; try reflexivity; discriminate.
Qed.

(** X12.  [CheckBuild] returns PASS exactly when [index.html] exists in
    the site directory, can be read and parsed, and its tree holds an
    [html], a [head], a [body] and a [title] element and the two metas;
    nothing else about the site matters. *)
Theorem CheckBuild_PASS_iff : forall w distDir,
  report.BuildResult.Status (checks.CheckBuild w distDir) = "PASS" <->
  exists data doc,
    NotExist w (filepath.Join [distDir; "index.html"]) = false /\
    ReadFile w (filepath.Join [distDir; "index.html"]) = Ok data /\
    Parse w data = Ok doc /\
    anyElement (isTag "html") doc = true /\
    anyElement (isTag "head") doc = true /\
    anyElement (isTag "body") doc = true /\
    anyElement (isTag "title") doc = true /\
    anyElement (isMetaWith "name" "description") doc = true /\
    anyElement (isMetaWith "property" "og:title") doc = true.
Proof.
  intros w distDir. unfold checks.CheckBuild.
  destruct (NotExist w _) eqn:Hstat.
  { split; [discriminate | intros (? & ? & ? & _); discriminate]. }
  destruct (ReadFile w _) as [data|e] eqn:Hread.
  2:{ split; [discriminate | intros (? & ? & _ & ? & _); discriminate]. }
  destruct (Parse w data) as [doc|e] eqn:Hparse.
  2:{ split; [discriminate|].
      intros (data' & doc' & _ & E & Hp & _). injection E as <-.
      rewrite Hparse in Hp. discriminate. }
  cbv zeta. fold nothingSeen.
  rewrite structureErrors_missingElements, check_nothingSeen.
  destruct (anyElement (isTag "html") doc) eqn:E1,
    (anyElement (isTag "head") doc) eqn:E2,
    (anyElement (isTag "body") doc) eqn:E3,
    (anyElement (isTag "title") doc) eqn:E4,
    (anyElement (isMetaWith "name" "description") doc) eqn:E5,
    (anyElement (isMetaWith "property" "og:title") doc) eqn:E6;
    cbn; (split;
      [ try discriminate; intros _; exists data, doc;
        rewrite ?E1, ?E2, ?E3, ?E4, ?E5, ?E6; auto 10
      | try reflexivity;
        intros (data' & doc' & _ & E & Hp & H1 & H2 & H3 & H4 & H5 & H6);
        injection E as <-; rewrite Hparse in Hp; injection Hp as <-;
        congruence ]).
Qed.

(** X13.  When the root document is parsed and some requirement is not
    met, [CheckBuild] returns FAIL with the pages counted and with details
    that list exactly the requirements that are not met, joined by a comma
    and a space, in the fixed order html, head, body, title, description,
    og:title. *)
Theorem CheckBuild_lists_missing_elements : forall w distDir data doc,
  NotExist w (filepath.Join [distDir; "index.html"]) = false ->
  ReadFile w (filepath.Join [distDir; "index.html"]) = Ok data ->
  Parse w data = Ok doc ->
  checks.check doc nothingSeen <> allSeen ->
  checks.CheckBuild w distDir
  = report.BuildResult.mk "FAIL"
      (match checks.findHTMLFiles distDir (distDir_contents w) with
       | Ok files => len files
       | Err _ => 0
       end)
      (strings.Join (missingElements (checks.check doc nothingSeen)) ", ") /\
  missingElements (checks.check doc nothingSeen) <> [].
Proof.
  intros w distDir data doc Hstat Hread Hparse Hmiss.
  assert (Hne : missingElements (checks.check doc nothingSeen) <> []).
  { intros E. now apply missingElements_nil in E. }
  split; [|exact Hne].
  unfold checks.CheckBuild. rewrite Hstat, Hread, Hparse. cbv zeta.
  fold nothingSeen. rewrite structureErrors_missingElements.
  destruct (len_pos _ (missingElements (checks.check doc nothingSeen))) as [_ Hp].
  rewrite (Hp Hne).
  destruct (checks.findHTMLFiles distDir (distDir_contents w)); reflexivity.
Qed.

(** X13 on the page of [TestCheckBuildMissingMeta]. *)
Lemma CheckBuild_lists_missing_elements_witness :
  checks.CheckBuild testNoMetaWorld "/site"
  = report.BuildResult.mk "FAIL" 1
      "missing meta description, missing og:title meta tag".
Proof.
  destruct (CheckBuild_lists_missing_elements testNoMetaWorld "/site"
              "<!DOCTYPE html>" testNoMetaDoc eq_refl eq_refl eq_refl
              ltac:(discriminate)) as [H _].
  exact H.
Defined.

Example CheckBuild_scrambled_page_passes :
  checks.CheckBuild scrambledWorld "/site"
  = report.BuildResult.mk "PASS" 1 "Valid HTML, 1 page(s), meta tags present".
Proof. reflexivity. Qed.

(** * Further properties: the Lighthouse and Screenshots checks *)

(** X14.  [CheckLighthouse] returns an error, with a PASS result that
    holds no score, when the tool is not installed, no port is found or
    the audit fails; otherwise it returns the three scores and no error,
    with FAIL exactly when some score is below its threshold (a score
    equal to its threshold passes).  The result always echoes the three
    thresholds. *)
Theorem CheckLighthouse_outcome : forall w distDir perf a11y seo,
  report.LighthouseResult.Thresholds
    (fst (checks.CheckLighthouse w distDir perf a11y seo))
    = report.Thresholds.mk perf a11y seo /\
  match audit w with
  | Err err =>
      checks.CheckLighthouse w distDir perf a11y seo
      = (report.LighthouseResult.mk "PASS" 0 0 0
           (report.Thresholds.mk perf a11y seo) "", Some err)
  | Ok scores =>
      snd (checks.CheckLighthouse w distDir perf a11y seo) = None /\
      report.LighthouseResult.Performance
        (fst (checks.CheckLighthouse w distDir perf a11y seo)) = Performance scores /\
      report.LighthouseResult.Accessibility
        (fst (checks.CheckLighthouse w distDir perf a11y seo)) = Accessibility scores /\
      report.LighthouseResult.SEO
        (fst (checks.CheckLighthouse w distDir perf a11y seo)) = SEO scores /\
      (report.LighthouseResult.Status
         (fst (checks.CheckLighthouse w distDir perf a11y seo)) = "FAIL"
       <-> belowThreshold scores perf a11y seo) /\
      (report.LighthouseResult.Status
         (fst (checks.CheckLighthouse w distDir perf a11y seo)) = "PASS"
       <-> perf <= Performance scores /\ a11y <= Accessibility scores
           /\ seo <= SEO scores)
  end.
Proof.
  intros w distDir perf a11y seo. unfold checks.CheckLighthouse, audit.
  destruct (negb (isLighthouseAvailable w)); [split; reflexivity|].
  destruct (findAvailablePort w) as [port|e]; [|split; reflexivity].
  destruct (runLighthouse w _) as [scores|e]; [|split; reflexivity].
  unfold belowThreshold. cbn [fst snd].
  split; [reflexivity|]. repeat (split; [reflexivity|]).
  destruct (Z.ltb_spec (Performance scores) perf) as [Hp|Hp];
    destruct (Z.ltb_spec (Accessibility scores) a11y) as [Ha|Ha];
    destruct (Z.ltb_spec (SEO scores) seo) as [Hs|Hs]; cbn;
    (split; split; intros Hx; try reflexivity; try discriminate; try lia; auto).
Qed.

(** X15.  [CaptureScreenshots] is all or nothing: when every step
    succeeds it returns PASS with the two fixed paths and no error;
    otherwise it returns the error with a FAIL result whose two paths are
    empty, also when the desktop screenshot is already written. *)
Theorem CaptureScreenshots_all_or_nothing : forall w distDir,
  (captureSucceeds w <-> snd (checks.CaptureScreenshots w distDir) = None) /\
  (snd (checks.CaptureScreenshots w distDir) = None ->
   fst (checks.CaptureScreenshots w distDir)
   = report.ScreenshotsResult.mk "PASS" "screenshots/desktop.png"
       "screenshots/mobile.png" "") /\
  (forall err, snd (checks.CaptureScreenshots w distDir) = Some err ->
   exists details,
     fst (checks.CaptureScreenshots w distDir)
     = report.ScreenshotsResult.mk "FAIL" "" "" details).
Proof.
  intros w distDir. split; [|split].
  - unfold captureSucceeds, checks.CaptureScreenshots,
      checks.CaptureScreenshots_fs, os_WriteFile.
    change (filepath.Join ["screenshots"; "desktop.png"])
      with "screenshots/desktop.png".
    change (filepath.Join ["screenshots"; "mobile.png"])
      with "screenshots/mobile.png".
    split.
    + intros (Hmk & port & b1 & b2 & Hport & Hr1 & Hw1 & Hr2 & Hw2).
      rewrite Hmk, Hport, Hr1, Hw1. cbn [setFile chromedp_Run WriteFile].
      now rewrite Hr2, Hw2.
    + destruct (MkdirAll w "screenshots") as [e|]; [discriminate|].
      destruct (findAvailablePort w) as [port|e]; [|discriminate].
      destruct (chromedp_Run w Desktop _) as [b1|e] eqn:E1; [|discriminate].
      destruct (WriteFile w "screenshots/desktop.png" b1) as [e|] eqn:E2;
        [discriminate|].
      cbn [setFile chromedp_Run WriteFile].
      destruct (chromedp_Run w Mobile _) as [b2|e] eqn:E3; [|discriminate].
      destruct (WriteFile w "screenshots/mobile.png" b2) as [e|] eqn:E4;
        [discriminate|].
      intros _. split; [reflexivity|]. exists port, b1, b2. auto.
  - destruct (CaptureScreenshots_outcome w distDir)
      as [(err & details & ->) | ->]; [discriminate|reflexivity].
  - intros err.
    destruct (CaptureScreenshots_outcome w distDir)
      as [(err' & details & ->) | ->]; [|discriminate].
    intros _. now exists details.
Qed.

(** * Further properties: the Vision check *)

(** X16.  [parseScoreFromAnalysis] never returns a negative number nor
    one beyond the range of [int]; when the OVERALL pattern does not occur
    the result lies between 0 and 10. *)
Theorem parseScoreFromAnalysis_range : forall analysis,
  0 <= checks.parseScoreFromAnalysis analysis <= strconv.maxInt /\
  (~ overallOccurs analysis ->
   0 <= checks.parseScoreFromAnalysis analysis <= 10).
Proof.
  intros analysis.
  assert (Hmax : 10 <= strconv.maxInt) by (vm_compute; discriminate).
  assert (Hfb : 0 <= fallbackScore analysis <= 10).
  { destruct (fallbackScore_cases analysis) as [[-> _] | [H _]]; lia. }
  split.
  - destruct (findOverall_cases analysis) as [[_ Hno] | (whole & X & _ & Hfirst)].
    + rewrite (parseScore_no_overall _ Hno). lia.
    + rewrite (parseScore_first _ _ Hfirst).
      destruct (firstOverall_digits _ _ Hfirst) as [HX _].
      pose proof (digitsValue_nonneg X 0 HX ltac:(lia)).
      destruct (Z.leb_spec (strconv.digitsValue 0 X) strconv.maxInt); lia.
  - intros Hno. now rewrite (parseScore_no_overall _ Hno).
Qed.

(** X17.  [CheckVision] asks for the credential first: without it the
    check returns the error at once, whatever the file system holds.  A
    result that comes back with an error is PASS with no score and no
    analysis; a result that comes back without one holds the analysis and
    the score parsed from it, and is FAIL exactly when the score is below
    the threshold.  A result that comes back always echoes the threshold
    and never sets Details. *)
Theorem CheckVision_outcome : forall w baselineDir threshold,
  (OPENROUTER_API_KEY w = "" ->
   checks.CheckVision w baselineDir threshold
   = Returns (report.VisionResult.mk "PASS" 0 threshold "" "",
              Some "OPENROUTER_API_KEY not set")) /\
  (forall res err,
     checks.CheckVision w baselineDir threshold = Returns (res, err) ->
     report.VisionResult.Threshold res = threshold /\
     report.VisionResult.Details res = "" /\
     (err <> None -> res = report.VisionResult.mk "PASS" 0 threshold "" "") /\
     (err = None ->
      report.VisionResult.Score res
      = checks.parseScoreFromAnalysis (report.VisionResult.Analysis res) /\
      (report.VisionResult.Status res = "FAIL" <->
       report.VisionResult.Score res < threshold) /\
      (report.VisionResult.Status res = "PASS" <->
       threshold <= report.VisionResult.Score res))).
Proof.
  intros w baselineDir threshold. split.
  { intros Hkey. unfold checks.CheckVision. now rewrite Hkey. }
  intros res err. unfold checks.CheckVision, checks.callVisionAPI.
  assert (Hearly : forall e,
    Returns (report.VisionResult.mk "PASS" 0 threshold "" "", Some e)
    = Returns (res, err) ->
    report.VisionResult.Threshold res = threshold /\
    report.VisionResult.Details res = "" /\
    (err <> None -> res = report.VisionResult.mk "PASS" 0 threshold "" "") /\
    (err = None ->
     report.VisionResult.Score res
     = checks.parseScoreFromAnalysis (report.VisionResult.Analysis res) /\
     (report.VisionResult.Status res = "FAIL" <->
      report.VisionResult.Score res < threshold) /\
     (report.VisionResult.Status res = "PASS" <->
      threshold <= report.VisionResult.Score res))).
  { intros e H. injection H as <- <-. cbn. repeat split; auto; discriminate. }
  destruct (OPENROUTER_API_KEY w =? ""); [apply Hearly|].
  destruct (NotExist w (filepath.Join [baselineDir; "desktop.png"]));
    [apply Hearly|].
  destruct (NotExist w (filepath.Join [baselineDir; "mobile.png"]));
    [apply Hearly|].
  destruct (NotExist w "screenshots/desktop.png"); [apply Hearly|].
  destruct (NotExist w "screenshots/mobile.png"); [apply Hearly|].
  destruct (checks.encodeImage w "screenshots/desktop.png"); [|apply Hearly].
  destruct (checks.encodeImage w "screenshots/mobile.png"); [|apply Hearly].
  destruct (checks.encodeImage w (filepath.Join [baselineDir; "desktop.png"]));
    [|apply Hearly].
  destruct (checks.encodeImage w (filepath.Join [baselineDir; "mobile.png"]));
    [|apply Hearly].
  destruct (chatCompletion w _ _ _ _ _) as [choices|e]; [|apply Hearly].
  destruct (len choices =? 0)%Z; [apply Hearly|].
  destruct (nth 0 choices []) as [|analysis parts]; [discriminate|].
  clear Hearly. intros H. injection H as <- <-.
  cbn [report.VisionResult.Threshold report.VisionResult.Details
       report.VisionResult.Score report.VisionResult.Analysis
       report.VisionResult.Status].
  split; [reflexivity|]. split; [reflexivity|].
  split; [intros H; now elim H|]. intros _. split; [reflexivity|].
  destruct (Z.ltb_spec (checks.parseScoreFromAnalysis analysis) threshold)
    as [Hlt|Hge];
    split; split; intros Hx; try reflexivity; try discriminate; lia.
Qed.

(** * Further properties: the orchestrator *)

Lemma CheckLighthouse_audit : forall w distDir perf a11y seo,
  checks.CheckLighthouse w distDir perf a11y seo =
  match audit w with
  | Err err =>
      (report.LighthouseResult.mk "PASS" 0 0 0
         (report.Thresholds.mk perf a11y seo) "", Some err)
  | Ok scores =>
      (report.LighthouseResult.mk
         (if (Performance scores <? perf)%Z || (Accessibility scores <? a11y)%Z
             || (SEO scores <? seo)%Z then "FAIL" else "PASS")
         (Performance scores) (Accessibility scores) (SEO scores)
         (report.Thresholds.mk perf a11y seo)
         ("Perf: " ++ Itoa (Performance scores) ++ ", A11y: "
          ++ Itoa (Accessibility scores) ++ ", SEO: " ++ Itoa (SEO scores)),
       None)
  end.
Proof.
  intros w distDir perf a11y seo. unfold checks.CheckLighthouse, audit.
  destruct (negb (isLighthouseAvailable w)); [reflexivity|].
  destruct (findAvailablePort w) as [port|e]; [|reflexivity].
  destruct (runLighthouse w _) as [scores|e]; reflexivity.
Qed.

Lemma below_dec : forall scores perf a11y seo,
  ((Performance scores <? perf)%Z || (Accessibility scores <? a11y)%Z
   || (SEO scores <? seo)%Z) = true <-> belowThreshold scores perf a11y seo.
Proof.
  intros scores perf a11y seo. unfold belowThreshold.
  rewrite !orb_true_iff, !Z.ltb_lt. tauto.
Qed.

(** X18.  The Lighthouse step records an audit that could not run as
    SKIP with the error text as Details, and goes on; it halts the run
    with exit code 1 exactly when the audit ran and some score is below its
    threshold, handing [writeReport] a report stamped with the clock that
    holds the FAIL result with the scores, which is on disk afterwards
    when the encoder and the write succeed; otherwise it records PASS with
    the scores and goes on. *)
Theorem check_LIGHTHOUSE_outcome : forall f w absDir p,
  match audit w with
  | Err err =>
      cmd.check_LIGHTHOUSE f w absDir p
      = (cmd.Continue tt,
         cmd.mkProcess
           (cmd.set_Lighthouse
              (report.LighthouseResult.mk "SKIP" 0 0 0
                 (report.Thresholds.mk (cmd.lighthousePerf f)
                    (cmd.lighthouseA11y f) (cmd.lighthouseSEO f)) err)
              (cmd.r p))
           (cmd.serialized p))
  | Ok scores =>
      (belowThreshold scores (cmd.lighthousePerf f) (cmd.lighthouseA11y f)
         (cmd.lighthouseSEO f) ->
       exists rep,
         cmd.check_LIGHTHOUSE f w absDir p
         = (cmd.Exit 1,
            cmd.mkProcess rep
              (if reportWritten w rep then Some rep else cmd.serialized p)) /\
         report.Timestamp rep = Now w /\
         report.LighthouseResult.Status (report.Lighthouse (report.Checks rep))
         = "FAIL" /\
         report.LighthouseResult.Performance (report.Lighthouse (report.Checks rep))
         = Performance scores /\
         report.LighthouseResult.Accessibility (report.Lighthouse (report.Checks rep))
         = Accessibility scores /\
         report.LighthouseResult.SEO (report.Lighthouse (report.Checks rep))
         = SEO scores) /\
      (~ belowThreshold scores (cmd.lighthousePerf f) (cmd.lighthouseA11y f)
           (cmd.lighthouseSEO f) ->
       exists res,
         cmd.check_LIGHTHOUSE f w absDir p
         = (cmd.Continue tt,
            cmd.mkProcess (cmd.set_Lighthouse res (cmd.r p)) (cmd.serialized p)) /\
         report.LighthouseResult.Status res = "PASS" /\
         report.LighthouseResult.Performance res = Performance scores /\
         report.LighthouseResult.Accessibility res = Accessibility scores /\
         report.LighthouseResult.SEO res = SEO scores)
  end.
Proof.
  intros f w absDir [rep ser]. unfold cmd.check_LIGHTHOUSE.
  rewrite CheckLighthouse_audit.
  destruct (audit w) as [scores|err]; [|reflexivity].
  pose proof (below_dec scores (cmd.lighthousePerf f) (cmd.lighthouseA11y f)
                (cmd.lighthouseSEO f)) as Hdec.
  destruct (_ || _); split.
  - intros _. run_steps. cbn [report.LighthouseResult.Status].
    change ("FAIL" =? "FAIL") with true. run_steps.
    eexists. split; [reflexivity|]. cbn. auto.
  - intros Hn. elim Hn. now apply Hdec.
  - intros Hb. apply Hdec in Hb. discriminate.
  - intros _. eexists. split; [reflexivity|]. cbn. auto.
Qed.

Lemma CheckVision_error_result : forall w baselineDir threshold res err,
  checks.CheckVision w baselineDir threshold = Returns (res, Some err) ->
  res = report.VisionResult.mk "PASS" 0 threshold "" "".
Proof.
  intros w baselineDir threshold res err.
  unfold checks.CheckVision, checks.callVisionAPI.
  repeat match goal with
         | |- context [if ?b then _ else _] =>
             destruct b; [now injection 1 as <- _|]
         | |- context [match ?x with Ok _ => _ | Err _ => _ end] =>
             destruct x; [|now injection 1 as <- _]
         end.
  destruct (nth 0 _ []); discriminate.
Qed.

(** X19.  When a baseline is given and [CheckVision] returns an error
    (no credential, a missing image, a failed request), the Vision step
    records Status SKIP with the threshold and with empty Details (the
    error text is not kept in the report) and goes on without halting. *)
Theorem check_VISION_error_is_bare_SKIP : forall f w p res err,
  cmd.baseline f <> "" ->
  checks.CheckVision w (cmd.baseline f) (cmd.threshold f) = Returns (res, Some err) ->
  cmd.check_VISION f w p
  = (cmd.Continue tt,
     cmd.mkProcess
       (cmd.set_Vision
          (report.VisionResult.mk "SKIP" 0 (cmd.threshold f) "" "") (cmd.r p))
       (cmd.serialized p)).
Proof.
  intros f w [rep ser] res err Hb Hv. unfold cmd.check_VISION.
  destruct (cmd.baseline f =? "") eqn:E; [apply String.eqb_eq in E; contradiction|].
  cbn [negb]. rewrite Hv.
  rewrite (CheckVision_error_result _ _ _ _ _ Hv). reflexivity.
Qed.

(** X19 on the plain site with a baseline and no credential: the run
    still exits with code 0. *)
Lemma check_VISION_error_is_bare_SKIP_witness :
  visionOf (cmd.main baselineFlags plainWorld)
    = Some (report.VisionResult.mk "SKIP" 0 7 "" "") /\
  cmd.exitCode (cmd.main baselineFlags plainWorld) = 0 /\
  forall p,
    cmd.check_VISION baselineFlags plainWorld p
    = (cmd.Continue tt,
       cmd.mkProcess
         (cmd.set_Vision (report.VisionResult.mk "SKIP" 0 7 "" "") (cmd.r p))
         (cmd.serialized p)).
Proof.
  split; [reflexivity|]. split; [reflexivity|]. intros p.
  exact (check_VISION_error_is_bare_SKIP baselineFlags plainWorld p
           (report.VisionResult.mk "PASS" 0 7 "" "") "OPENROUTER_API_KEY not set"
           ltac:(discriminate) eq_refl).
Defined.

(** [CaptureScreenshots] changes files and nothing else of the world. *)
Lemma afterScreenshots_files : forall w absDir,
  exists stat read,
    afterScreenshots w absDir
    = mkWorld (Abs w) (distDir_contents w) stat read (Parse w)
        (isLighthouseAvailable w) (findAvailablePort w) (runLighthouse w)
        (MkdirAll w) (chromedp_Run w) (WriteFile w) (AfterFailedWrite w)
        (OPENROUTER_API_KEY w) (EncodeToString w) (chatCompletion w)
        (MarshalIndent w) (Now w).
Proof.
  intros w absDir. unfold afterScreenshots, checks.CaptureScreenshots_fs, os_WriteFile.
  destruct w as [abs contents stat read parse avail port lh mk run wr leftover key enc
                 chat marshal now].
  cbn [MkdirAll findAvailablePort chromedp_Run WriteFile AfterFailedWrite].
  destruct (mk _) as [e|]; [cbn; do 2 eexists; reflexivity|].
  destruct port as [port|e]; [|cbn; do 2 eexists; reflexivity].
  destruct (run Desktop _) as [buf|e]; [|cbn; do 2 eexists; reflexivity].
  destruct (wr _ buf) as [e|]; [cbn; do 2 eexists; reflexivity|].
  cbn [setFile chromedp_Run WriteFile AfterFailedWrite].
  destruct (run Mobile _) as [buf'|e]; [|cbn; do 2 eexists; reflexivity].
  destruct (wr _ buf') as [e|]; cbn; do 2 eexists; reflexivity.
Qed.

Lemma writeReport_after : forall w absDir,
  cmd.writeReport (afterScreenshots w absDir) = cmd.writeReport w.
Proof.
  intros w absDir. destruct (afterScreenshots_files w absDir) as (stat & read & ->).
  reflexivity.
Qed.

Lemma main_past_path : forall f w absDir,
  cmd.dir f <> "" -> Abs w (cmd.dir f) = Ok absDir ->
  cmd.main f w =
  match cmd.pipeline f w absDir (cmd.mkProcess (report.NewReport absDir) None) with
  | (cmd.Exit code, p) => cmd.mkRun code (cmd.serialized p)
  | (cmd.Continue _, p) => cmd.mkRun 0 (cmd.serialized p)
  end.
Proof.
  intros f w absDir Hd Ha. unfold cmd.main. rewrite Ha.
  destruct (cmd.dir f =? "") eqn:E; [apply String.eqb_eq in E; contradiction|].
  reflexivity.
Qed.

(** The pipeline laid open, with the outcome of every check named. *)
Ltac run_pipeline f w absDir :=
  unfold cmd.pipeline, cmd.check_ASSETS, cmd.check_BUILD, cmd.check_LIGHTHOUSE,
    cmd.check_SCREENSHOTS, cmd.check_VISION, cmd.allPassed,
    gateFails, visionPanics, earlyGateFails, visionOutcome, failsWithoutError,
    recordedLighthouse, recordedScreenshots, recordedVision;
  change (snd (checks.CaptureScreenshots_fs w absDir))
    with (afterScreenshots w absDir);
  rewrite ?writeReport_after;
  destruct (checks.CheckLighthouse w absDir (cmd.lighthousePerf f)
              (cmd.lighthouseA11y f) (cmd.lighthouseSEO f)) as [?lr ?lerr];
  destruct (checks.CaptureScreenshots w absDir) as [?sr ?serr];
  destruct (checks.CheckVision (afterScreenshots w absDir) (cmd.baseline f)
              (cmd.threshold f)) as [[?vr ?verr]|?msg];
  generalize (checks.CheckAssets w absDir) (checks.CheckBuild w absDir);
  intros ?ar ?br.

Lemma main_exit_formula : forall f w absDir,
  cmd.dir f <> "" -> Abs w (cmd.dir f) = Ok absDir ->
  cmd.exitCode (cmd.main f w)
  = if gateFails f w absDir then 1
    else if visionPanics f w absDir then 2 else 0.
Proof.
  intros f w absDir Hd Ha. rewrite (main_past_path _ _ _ Hd Ha).
  run_pipeline f w absDir; split_gates; reflexivity.
Qed.

Lemma main_report_written : forall f w absDir,
  cmd.dir f <> "" -> Abs w (cmd.dir f) = Ok absDir ->
  if visionPanics f w absDir then cmd.reportFile (cmd.main f w) = None
  else exists rep,
         cmd.reportFile (cmd.main f w) = writtenReport w rep /\
         report.Timestamp rep = Now w /\ report.Directory rep = absDir /\
         report.Overall rep = "FAIL".
Proof.
  intros f w absDir Hd Ha. rewrite (main_past_path _ _ _ Hd Ha).
  unfold writtenReport.
  run_pipeline f w absDir; split_gates; cbn [negb andb orb cmd.reportFile];
    try reflexivity;
    (eexists; split; [reflexivity|]; repeat split; reflexivity).
Qed.

(** X20.  A run that does not get past the resolution of the directory
    exits with 1 and writes no report.  A run that gets past it exits with
    1 exactly when a gate fails (Assets, Build, a Lighthouse audit that
    ran, a Vision comparison that was asked for and ran), with 2 exactly
    when it gets to a Vision comparison that panics, and with 0 otherwise.
    The run that panics writes no report; every other one hands
    [writeReport] a report stamped with the clock, naming the resolved
    directory and carrying the verdict FAIL, and that report is on disk
    afterwards exactly when the encoder and the write succeed. *)
Theorem main_exit_code : forall f w,
  (cmd.dir f = "" \/ (exists err, Abs w (cmd.dir f) = Err err) ->
   cmd.main f w = cmd.mkRun 1 None) /\
  (forall absDir, cmd.dir f <> "" /\ Abs w (cmd.dir f) = Ok absDir ->
     (cmd.exitCode (cmd.main f w) = 1 <-> gateFails f w absDir = true) /\
     (cmd.exitCode (cmd.main f w) = 2 <-> visionPanics f w absDir = true) /\
     (cmd.exitCode (cmd.main f w) = 0 <->
      gateFails f w absDir = false /\ visionPanics f w absDir = false) /\
     (visionPanics f w absDir = true -> cmd.reportFile (cmd.main f w) = None) /\
     (visionPanics f w absDir = false ->
      exists rep,
        cmd.reportFile (cmd.main f w) = writtenReport w rep /\
        (cmd.reportFile (cmd.main f w) = Some rep <-> reportWritten w rep = true) /\
        report.Timestamp rep = Now w /\ report.Directory rep = absDir /\
        report.Overall rep = "FAIL")).
Proof.
  intros f w. split.
  - intros [Hd | [err Ha]]; unfold cmd.main.
    + now rewrite Hd.
    + rewrite Ha. now destruct (cmd.dir f =? "").
  - intros absDir [Hd Ha].
    pose proof (main_exit_formula f w absDir Hd Ha) as Hexit.
    pose proof (main_report_written f w absDir Hd Ha) as Hrep.
    rewrite Hexit.
    destruct (gateFails f w absDir) eqn:Hg;
      destruct (visionPanics f w absDir) eqn:Hp.
    + exfalso. revert Hg Hp. unfold gateFails, visionPanics.
      destruct (earlyGateFails f w absDir); [discriminate 2|].
      destruct (negb (cmd.baseline f =? "")); [|discriminate 2].
      destruct (visionOutcome f w absDir); discriminate.
    + repeat split; try discriminate; auto; try (intros [H _]; discriminate).
      intros _. destruct Hrep as (rep & Hr & Hts & Hdir & Hov).
      exists rep. repeat split; auto; rewrite Hr; unfold writtenReport;
        destruct (reportWritten w rep); auto; discriminate.
    + repeat split; try discriminate; auto; try (intros [_ H]; discriminate).
    + repeat split; try discriminate; auto.
      intros _. destruct Hrep as (rep & Hr & Hts & Hdir & Hov).
      exists rep. repeat split; auto; rewrite Hr; unfold writtenReport;
        destruct (reportWritten w rep); auto; discriminate.
Qed.

Example panic_ends_the_run_with_status_2 :
  cmd.main baselineFlags emptyAnswerWorld = cmd.mkRun 2 None.
Proof. reflexivity. Qed.

Example unwritable_report_leaves_the_exit_code :
  cmd.main defaultFlags readOnlyWorld = cmd.mkRun 1 None /\
  cmd.exitCode (cmd.main defaultFlags galleryWorld) = 1.
Proof. split; reflexivity. Qed.

Lemma rangeHTMLFiles_ignores_browser :
  forall mkdir run write leftover w distDir htmlFiles st,
  checks.rangeHTMLFiles (set_browser mkdir run write leftover w) distDir htmlFiles st
  = checks.rangeHTMLFiles w distDir htmlFiles st.
Proof.
  intros mkdir run write leftover w distDir.
  induction htmlFiles as [|htmlFile rest IH]; intros st; [reflexivity|].
  simpl. change (checks.extractAssets (set_browser mkdir run write leftover w))
    with (checks.extractAssets w).
  destruct (checks.extractAssets w htmlFile distDir) as [assets|err];
    [|reflexivity].
  rewrite IH. reflexivity.
Qed.

Lemma CheckAssets_ignores_browser : forall mkdir run write leftover w distDir,
  checks.CheckAssets (set_browser mkdir run write leftover w) distDir
  = checks.CheckAssets w distDir.
Proof.
  intros mkdir run write leftover w distDir. unfold checks.CheckAssets.
  change (distDir_contents (set_browser mkdir run write leftover w))
    with (distDir_contents w).
  destruct (checks.findHTMLFiles distDir (distDir_contents w))
    as [htmlFiles|err]; [|reflexivity].
  destruct (len htmlFiles =? 0)%Z; [reflexivity|].
  rewrite rangeHTMLFiles_ignores_browser. reflexivity.
Qed.

Lemma gateFails_without_baseline : forall f w absDir,
  cmd.baseline f = "" ->
  gateFails f w absDir = earlyGateFails f w absDir /\
  visionPanics f w absDir = false.
Proof.
  intros f w absDir Hb. unfold gateFails, visionPanics. rewrite Hb.
  change (negb ("" =? "")) with false. cbn [andb].
  now rewrite orb_false_r, andb_false_r.
Qed.

(** X21.  Without a baseline the exit code of a run does not depend on
    the browser automation: whatever becomes of the screenshots directory,
    of the two captures and of the two writes, the run exits with the same
    code.  With a baseline it can: the screenshots the browser leaves are
    what the Vision comparison, a gate, is made on. *)
Theorem exit_code_ignores_screenshots_without_baseline :
  (forall f w mkdir run write leftover,
     cmd.baseline f = "" ->
     cmd.exitCode (cmd.main f (set_browser mkdir run write leftover w))
     = cmd.exitCode (cmd.main f w)) /\
  (cmd.baseline baselineFlags <> "" /\
   cmd.exitCode (cmd.main baselineFlags comparedWorld) = 1 /\
   cmd.exitCode (cmd.main baselineFlags (set_chromedp_Run noBrowser comparedWorld))
   = 0).
Proof.
  split; [|split; [discriminate|split; reflexivity]].
  intros f w mkdir run write leftover Hb.
  destruct (String.eqb_spec (cmd.dir f) "") as [Hd|Hd].
  { unfold cmd.main. now rewrite Hd. }
  destruct (Abs w (cmd.dir f)) as [absDir|err] eqn:Ha.
  2:{ unfold cmd.main. cbn [Abs set_browser]. now rewrite Ha. }
  rewrite (main_exit_formula f (set_browser mkdir run write leftover w) absDir Hd Ha).
  rewrite (main_exit_formula f w absDir Hd Ha).
  destruct (gateFails_without_baseline f w absDir Hb) as [-> ->].
  destruct (gateFails_without_baseline f (set_browser mkdir run write leftover w)
              absDir Hb) as [-> ->].
  unfold earlyGateFails. rewrite CheckAssets_ignores_browser. reflexivity.
Qed.

(** X22.  A run halts at the first failing hard gate.  When Assets
    fails it exits with 1 and hands [writeReport] a report that holds the
    Assets result and, for every later check, the initial entry (Build,
    Lighthouse and Screenshots FAIL with nothing filled in, Vision SKIP
    with threshold 0), whatever the later checks would have found; when
    Assets does not fail and Build does, the report holds the two results
    and the initial entries of the other three.  [forge-report.json] holds
    that report afterwards when the encoder and the write succeed, and the
    run has written nothing otherwise. *)
Theorem main_halts_at_first_failing_gate : forall f w absDir,
  cmd.dir f <> "" ->
  Abs w (cmd.dir f) = Ok absDir ->
  (report.AssetsResult.Status (checks.CheckAssets w absDir) = "FAIL" ->
   cmd.main f w =
   cmd.mkRun 1
     (writtenReport w
        (report.mkReport (Now w) absDir "FAIL"
           (report.mkChecks (checks.CheckAssets w absDir)
              (report.BuildResult.mk "FAIL" 0 "")
              (report.LighthouseResult.mk "FAIL" 0 0 0 (report.Thresholds.mk 0 0 0) "")
              (report.ScreenshotsResult.mk "FAIL" "" "" "")
              (report.VisionResult.mk "SKIP" 0 0 "" ""))))) /\
  (report.AssetsResult.Status (checks.CheckAssets w absDir) <> "FAIL" ->
   report.BuildResult.Status (checks.CheckBuild w absDir) = "FAIL" ->
   cmd.main f w =
   cmd.mkRun 1
     (writtenReport w
        (report.mkReport (Now w) absDir "FAIL"
           (report.mkChecks (checks.CheckAssets w absDir)
              (checks.CheckBuild w absDir)
              (report.LighthouseResult.mk "FAIL" 0 0 0 (report.Thresholds.mk 0 0 0) "")
              (report.ScreenshotsResult.mk "FAIL" "" "" "")
              (report.VisionResult.mk "SKIP" 0 0 "" ""))))).
Proof.
  intros f w absDir Hd Ha. rewrite (main_past_path _ _ _ Hd Ha).
  unfold cmd.pipeline, cmd.check_ASSETS, cmd.check_BUILD, writtenReport.
  split.
  - intros Hfail. run_steps. rewrite Hfail.
    change ("FAIL" =? "FAIL") with true. run_steps. reflexivity.
  - intros Hpass Hfail. run_steps.
    destruct (String.eqb_spec
                (report.AssetsResult.Status (checks.CheckAssets w absDir)) "FAIL")
      as [E|_]; [contradiction|].
    run_steps. rewrite Hfail. change ("FAIL" =? "FAIL") with true.
    run_steps. reflexivity.
Qed.

(** X22 on a site with a missing image, on a site whose root document
    lacks the two metas, and on a disk that takes no report. *)
Lemma main_halts_at_first_failing_gate_witness :
  option_map (fun rep => report.Build (report.Checks rep))
    (cmd.reportFile (cmd.main defaultFlags galleryWorld))
    = Some (report.BuildResult.mk "FAIL" 0 "") /\
  option_map (fun rep => (report.Build (report.Checks rep),
                          report.Lighthouse (report.Checks rep)))
    (cmd.reportFile (cmd.main defaultFlags testNoMetaWorld))
    = Some (report.BuildResult.mk "FAIL" 1
              "missing meta description, missing og:title meta tag",
            report.LighthouseResult.mk "FAIL" 0 0 0 (report.Thresholds.mk 0 0 0) "") /\
  cmd.main defaultFlags readOnlyWorld = cmd.mkRun 1 None.
Proof.
  destruct (main_halts_at_first_failing_gate defaultFlags galleryWorld "/site"
              ltac:(discriminate) eq_refl) as [H1 _].
  destruct (main_halts_at_first_failing_gate defaultFlags testNoMetaWorld "/site"
              ltac:(discriminate) eq_refl) as [_ H2].
  destruct (main_halts_at_first_failing_gate defaultFlags readOnlyWorld "/site"
              ltac:(discriminate) eq_refl) as [H3 _].
  split; [|split].
  - rewrite (H1 eq_refl). reflexivity.
  - rewrite (H2 ltac:(discriminate) eq_refl). reflexivity.
  - rewrite (H3 eq_refl). reflexivity.
Defined.

(** X23.  A run in which no gate fails and nothing panics exits with 0
    and hands [writeReport] a report that holds the results of all five
    checks: Assets and Build as returned, and each soft check as returned
    or, when it returned an error, in its SKIP form; Vision, made on the
    screenshots as the Screenshots check has left them, is the fixed SKIP
    entry when no baseline is given.  [forge-report.json] holds that
    report afterwards when the encoder and the write succeed. *)
Theorem main_reports_all_checks : forall f w absDir,
  cmd.dir f <> "" ->
  Abs w (cmd.dir f) = Ok absDir ->
  gateFails f w absDir = false ->
  visionPanics f w absDir = false ->
  cmd.exitCode (cmd.main f w) = 0 /\
  exists rep,
    cmd.reportFile (cmd.main f w) = writtenReport w rep /\
    report.Checks rep =
    report.mkChecks
      (checks.CheckAssets w absDir)
      (checks.CheckBuild w absDir)
      (recordedLighthouse
         (checks.CheckLighthouse w absDir (cmd.lighthousePerf f)
            (cmd.lighthouseA11y f) (cmd.lighthouseSEO f)))
      (recordedScreenshots (checks.CaptureScreenshots w absDir))
      (recordedVision f (visionOutcome f w absDir)).
Proof.
  intros f w absDir Hd Ha Hg Hp. split.
  { now rewrite (main_exit_formula _ _ _ Hd Ha), Hg, Hp. }
  revert Hg Hp. rewrite (main_past_path _ _ _ Hd Ha). unfold writtenReport.
  run_pipeline f w absDir; split_gates;
    cbn [negb andb orb cmd.reportFile]; intros Hg Hp;
    try discriminate Hg; try discriminate Hp;
    (eexists; split; reflexivity).
Qed.

(** X23 on the audited site: the audit runs and scores 95, 90 and 89
    against thresholds of 90, 85 and 80. *)
Lemma main_reports_all_checks_witness :
  cmd.exitCode (cmd.main (cmd.mkFlags "/site" "" 7 90 85 80) auditedWorld) = 0 /\
  option_map (fun rep => report.Lighthouse (report.Checks rep))
    (cmd.reportFile (cmd.main (cmd.mkFlags "/site" "" 7 90 85 80) auditedWorld))
  = Some (report.LighthouseResult.mk "PASS" 95 90 89
            (report.Thresholds.mk 90 85 80) "Perf: 95, A11y: 90, SEO: 89").
Proof.
  destruct (main_reports_all_checks (cmd.mkFlags "/site" "" 7 90 85 80)
              auditedWorld "/site" ltac:(discriminate) eq_refl eq_refl eq_refl)
    as (Hexit & rep & Hrep & Hchecks).
  split; [exact Hexit|]. rewrite Hrep.
  change (writtenReport auditedWorld rep) with (Some rep).
  simpl. now rewrite Hchecks.
Defined.

(** * Further properties: names and numbers *)

(** X24.  The walker takes a non-directory entry exactly when its name
    ends in [.html] or in [.htm], bytes compared as they are: the name may
    be the bare suffix, and an upper-case suffix does not count. *)
Theorem isHTMLName_iff_suffix : forall name,
  (isHTMLName name = true <->
   (exists stem, name = stem ++ ".html") \/ (exists stem, name = stem ++ ".htm")) /\
  (forall dir,
     checks.findHTMLFiles dir (ReadDirOk [File name])
     = Ok (if isHTMLName name then [filepath.Join [dir; name]] else [])).
Proof.
  intros name. split.
  - unfold isHTMLName. rewrite orb_true_iff, !HasSuffix_spec. reflexivity.
  - intros dir. rewrite findHTMLFiles_unfold. cbn [Name]. fold (isHTMLName name).
    now destruct (isHTMLName name).
Qed.

Example upper_case_suffix_is_not_taken :
  isHTMLName "INDEX.HTML" = false /\ isHTMLName ".htm" = true.
Proof. split; reflexivity. Qed.

(** X25.  Inline data are skipped for images only: an [img] whose [src]
    starts with [data:] contributes nothing, while a [script] with the
    same [src] contributes it as a reference like any other. *)
Theorem data_URI_is_skipped_for_img_only : forall src assets,
  strings.HasPrefix src "data:" = true ->
  checks.extractNode html.ElementNode "img" [html.mkAttr "src" src] assets
    = assets /\
  checks.extractNode html.ElementNode "script" [html.mkAttr "src" src] assets
    = (assets ++ [src])%list.
Proof.
  intros src assets H.
  assert (Hne : (src =? "") = false) by (destruct src; [discriminate H|reflexivity]).
  split; unfold checks.extractNode; cbn [html.isElement fold_left html.Key html.Val].
  - change ("img" =? "img") with true. change ("src" =? "src") with true.
    cbv iota. now rewrite H, Hne.
  - change ("script" =? "img") with false. change ("script" =? "link") with false.
    change ("script" =? "script") with true. change ("src" =? "src") with true.
    cbv iota. now rewrite Hne.
Qed.

(** X25 on a one-pixel image and an inline script. *)
Lemma data_URI_is_skipped_for_img_only_witness :
  checks.extractNode html.ElementNode "img"
    [html.mkAttr "src" "data:image/gif;base64,R0lGODlhAQABAAAAACw="] [] = [] /\
  checks.extractNode html.ElementNode "script"
    [html.mkAttr "src" "data:text/javascript,void(0)"] []
  = ["data:text/javascript,void(0)"].
Proof.
  split.
  - exact (proj1 (data_URI_is_skipped_for_img_only
                    "data:image/gif;base64,R0lGODlhAQABAAAAACw=" [] eq_refl)).
  - exact (proj2 (data_URI_is_skipped_for_img_only
                    "data:text/javascript,void(0)" [] eq_refl)).
Defined.

Lemma numberAt_cons : forall prevWord c s pre num,
  numberAt (checks.reWord c) s pre num ->
  numberAt prevWord (String c s) (String c pre) num.
Proof.
  intros prevWord c s pre num (post & E & Hn & Hl & Hp).
  exists post. simpl. rewrite E. auto.
Qed.

Lemma numberAt_cons_inv : forall prevWord c d s pre num,
  numberAt prevWord (String c s) (String d pre) num ->
  numberAt (checks.reWord c) s pre num.
Proof.
  intros prevWord c d s pre num (post & E & Hn & Hl & Hp).
  simpl in E, Hl. injection E as <- E. exists post. auto.
Qed.

Lemma numberAt_nil : forall prevWord s num,
  numberAt prevWord s "" num <-> checks.matchNumber prevWord s = Some num.
Proof.
  intros prevWord s num. split.
  - intros (post & E & Hn & Hl & Hp). simpl in E, Hl. subst.
    now apply matchNumber_complete.
  - intros H. apply matchNumber_sound in H as (-> & Hn & post & E & Hp).
    exists post. auto.
Qed.

Lemma numberAt_nonempty : forall prevWord pre num, ~ numberAt prevWord "" pre num.
Proof.
  intros prevWord pre num (post & E & Hn & _).
  destruct pre; [|discriminate]. destruct num; discriminate.
Qed.

(** [findNumber] finds the leftmost standalone number. *)
Lemma findNumber_first : forall s prevWord,
  (checks.findNumber prevWord s = [] /\
   forall pre num, ~ numberAt prevWord s pre num) \/
  (exists num pre,
     checks.findNumber prevWord s = [num; num] /\
     numberAt prevWord s pre num /\
     forall pre' num', numberAt prevWord s pre' num' ->
       (String.length pre < String.length pre')%nat \/ (pre' = pre /\ num' = num)).
Proof.
  induction s as [|c s IH]; intros prevWord; rewrite findNumber_unfold;
    destruct (checks.matchNumber prevWord _) as [m|] eqn:Em.
  - apply numberAt_nil in Em. now apply numberAt_nonempty in Em.
  - left. split; [reflexivity|]. intros pre num. apply numberAt_nonempty.
  - right. exists m, "". split; [reflexivity|].
    split; [now apply numberAt_nil|].
    intros [|d pre'] num' H; [|left; simpl; lia].
    right. split; [reflexivity|]. apply numberAt_nil in H. congruence.
  - destruct (IH (checks.reWord c)) as [[Hnil Hno] | (m & pre & Hf & Hat & Hmin)].
    + left. split; [assumption|]. intros [|d pre] num H.
      * apply numberAt_nil in H. congruence.
      * apply numberAt_cons_inv in H. now apply Hno in H.
    + right. exists m, (String c pre). split; [assumption|].
      split; [now apply numberAt_cons|].
      intros [|d pre'] num' H.
      * apply numberAt_nil in H. congruence.
      * pose proof H as (post & E & _). simpl in E. injection E as <- _.
        apply numberAt_cons_inv in H.
        destruct (Hmin _ _ H) as [Hlt | [-> ->]]; [left; simpl; lia|right; auto].
Qed.

Lemma standalone_allDigits : forall num,
  standaloneNumber num = true -> strconv.allDigits num = true /\ num <> "".
Proof.
  intros num H. destruct (standalone_shape num H) as [(c & -> & Hr) | ->].
  - split; [|discriminate]. simpl. rewrite andb_true_r.
    unfold strconv.isDigit. cbv zeta.
    apply andb_true_iff in Hr as [H1 H2]. apply Nat.leb_le in H1, H2.
    apply andb_true_iff. split; apply Nat.leb_le; lia.
  - split; [reflexivity|discriminate].
Qed.

(** X26.  When the OVERALL pattern does not occur, the result is the
    leftmost standalone number 1-10 of the text, whatever that number
    stands for (in an answer that lists the category scores first, the
    first category score). *)
Theorem parseScoreFromAnalysis_fallback_is_leftmost : forall analysis num,
  ~ overallOccurs analysis ->
  firstNumber analysis num ->
  checks.parseScoreFromAnalysis analysis = strconv.digitsValue 0 num.
Proof.
  intros analysis num Hno (pre & Hat & Hmin).
  rewrite (parseScore_no_overall _ Hno). unfold fallbackScore.
  destruct (findNumber_first analysis false)
    as [[_ Hnone] | (m & pre0 & -> & Hat0 & Hmin0)].
  - now apply Hnone in Hat.
  - assert (m = num).
    { destruct (Hmin0 _ _ Hat) as [Hlt | [_ E]]; [|now symmetry].
      apply Hmin in Hat0. lia. }
    subst m. cbn [nth]. change (len [num; num] >? 1)%Z with true. cbv iota zeta.
    destruct Hat as (post & _ & Hn & _).
    destruct (standalone_allDigits num Hn) as [Hd Hne].
    destruct (Atoi_digits num Hd Hne) as [Hok _].
    destruct (standalone_Atoi num Hn) as (v & Hv & Hr).
    destruct (Z.le_gt_cases (strconv.digitsValue 0 num) strconv.maxInt) as [Hle|Hgt].
    + now rewrite (Hok Hle).
    + destruct (Atoi_digits num Hd Hne) as [_ Herr].
      destruct (Herr ltac:(lia)) as [e He]. congruence.
Qed.

Lemma firstNumber_of_category_scores :
  firstNumber "VISUAL_POLISH: 9/10 BRAND_FIDELITY: 6/10" "9".
Proof.
  destruct (findNumber_first "VISUAL_POLISH: 9/10 BRAND_FIDELITY: 6/10" false)
    as [[H _] | (m & pre & Hf & Hat & Hmin)]; [discriminate H|].
  vm_compute in Hf. injection Hf as Hm _. subst m.
  exists pre. split; [exact Hat|].
  intros pre' num' Hat'. destruct (Hmin _ _ Hat') as [Hlt | [-> _]]; lia.
Qed.

Lemma no_overall_in_category_scores :
  ~ overallOccurs "VISUAL_POLISH: 9/10 BRAND_FIDELITY: 6/10".
Proof.
  destruct (findOverall_cases "VISUAL_POLISH: 9/10 BRAND_FIDELITY: 6/10")
    as [[_ H] | (whole & X & H & _)]; [exact H|discriminate H].
Qed.

(** X26 on an answer that stops after two category scores. *)
Lemma parseScoreFromAnalysis_fallback_is_leftmost_witness :
  checks.parseScoreFromAnalysis "VISUAL_POLISH: 9/10 BRAND_FIDELITY: 6/10" = 9.
Proof.
  exact (parseScoreFromAnalysis_fallback_is_leftmost
           "VISUAL_POLISH: 9/10 BRAND_FIDELITY: 6/10" "9"
           no_overall_in_category_scores firstNumber_of_category_scores).
Defined.
